(** * GistPad playgrounds: a shallow embedding of [src/commands/playground.ts]

    The development follows the source file top-down: the JavaScript
    built-ins the code relies on ([path.extname], [path.basename],
    [String.prototype.trim], [JSON.parse], [JSON.stringify], the npm
    [debounce] wrapper), then the playground functions themselves, then the
    properties proved about them. *)

From Stdlib Require Import String Ascii List ZArith Lia Bool Arith.
From Stdlib Require Import Permutation Sorted QArith.
Import ListNotations.

Set Warnings "-register-all".

Local Open Scope string_scope.
Local Open Scope list_scope.
Local Open Scope nat_scope.

(* ===================================================================== *)
(** * Part I: definitions                                                  *)
(* ===================================================================== *)

(** ** Strings *)

Module Str.

(** The double-quote character, and a string wrapped in double quotes. *)
Definition dquote : ascii := ascii_of_nat 34.
Definition quoted (s : string) : string :=
  String dquote (s ++ String dquote EmptyString)%string.

Definition newline : ascii := ascii_of_nat 10.

(** [s.slice(a, b)] for [0 <= a] and [b <= s.length]. *)
Definition slice (a b : nat) (s : string) : string :=
  substring a (b - a) s.

(** [haystack.includes(needle)] on strings: substring test. *)
Fixpoint includes (needle haystack : string) : bool :=
  prefix needle haystack ||
  match haystack with
  | EmptyString => false
  | String _ r => includes needle r
  end.

(** ASCII lower-casing.  The code calls [toLocaleLowerCase]; on the ASCII
    letters that the extension tables are made of the two agree. *)
Definition lower_ascii (c : ascii) : ascii :=
  let n := nat_of_ascii c in
  if (65 <=? n) && (n <=? 90) then ascii_of_nat (n + 32) else c.

Fixpoint toLowerCase (s : string) : string :=
  match s with
  | EmptyString => EmptyString
  | String c r => String (lower_ascii c) (toLowerCase r)
  end.

(** [list.includes(s)] on a list of strings. *)
Definition mem (s : string) (l : list string) : bool :=
  existsb (String.eqb s) l.

End Str.

(** ** [String.prototype.trim]

    Strings are modelled as their UTF-8 bytes.  [trim] strips the
    ECMAScript [WhiteSpace] and [LineTerminator] code points; the code only
    ever asks whether the trimmed text is empty, which is [is_blank]. *)

Module Trim.

(** One white-space code point at the head of the text, if any: returns
    the text after it. *)
Definition strip_ws1 (s : string) : option string :=
  match s with
  | String c r =>
    let n := nat_of_ascii c in
    if (n =? 9) || (n =? 10) || (n =? 11) || (n =? 12) || (n =? 13) || (n =? 32)
    then Some r
    else match r with
         | String c2 r2 =>
           let n2 := nat_of_ascii c2 in
           (* U+00A0 no-break space *)
           if (n =? 194) && (n2 =? 160) then Some r2
           else match r2 with
                | String c3 r3 =>
                  let n3 := nat_of_ascii c3 in
                  if (* U+1680 *)
                     ((n =? 225) && (n2 =? 154) && (n3 =? 128))
                     (* U+2000 .. U+200A *)
                     || ((n =? 226) && (n2 =? 128) && (128 <=? n3) && (n3 <=? 138))
                     (* U+2028, U+2029, U+202F *)
                     || ((n =? 226) && (n2 =? 128)
                         && ((n3 =? 168) || (n3 =? 169) || (n3 =? 175)))
                     (* U+205F *)
                     || ((n =? 226) && (n2 =? 129) && (n3 =? 159))
                     (* U+3000 *)
                     || ((n =? 227) && (n2 =? 128) && (n3 =? 128))
                     (* U+FEFF *)
                     || ((n =? 239) && (n2 =? 187) && (n3 =? 191))
                  then Some r3 else None
                | EmptyString => None
                end
         | EmptyString => None
         end
  | EmptyString => None
  end.

(** [content.trim() === ""]: the text is made of white space only. *)
Fixpoint is_blank_fuel (fuel : nat) (s : string) : bool :=
  match s with
  | EmptyString => true
  | _ =>
    match fuel with
    | O => false
    | S f =>
      match strip_ws1 s with
      | Some r => is_blank_fuel f r
      | None => false
      end
    end
  end.

Definition is_blank (s : string) : bool := is_blank_fuel (String.length s) s.

End Trim.

(** ** Node's [path] module (POSIX flavour) *)

Module Path.

Definition slash : ascii := ascii_of_nat 47.
Definition dot : ascii := ascii_of_nat 46.

(** The loop state of [path.extname]. *)
Record ExtState := mkExt {
  startDot : Z;
  startPart : Z;
  endIdx : Z;
  matchedSlash : bool;
  preDotState : Z;
  stopped : bool
}.

Definition ext_init : ExtState := mkExt (-1) 0 (-1) true 0 false.

(** One iteration of the [for (let i = path.length - 1; i >= 0; --i)] loop
    of [extname] at index [i] with character [code]. *)
Definition ext_step (i : Z) (code : ascii) (st : ExtState) : ExtState :=
  if stopped st then st
  else if Ascii.eqb code slash then
    if negb (matchedSlash st)
    then mkExt (startDot st) (i + 1) (endIdx st) (matchedSlash st)
               (preDotState st) true
    else st
  else
    let st1 :=
      if (endIdx st =? -1)%Z
      then mkExt (startDot st) (startPart st) (i + 1) false
                 (preDotState st) false
      else st in
    if Ascii.eqb code dot then
      if (startDot st1 =? -1)%Z
      then mkExt i (startPart st1) (endIdx st1) (matchedSlash st1)
                 (preDotState st1) false
      else if negb (preDotState st1 =? 1)%Z
      then mkExt (startDot st1) (startPart st1) (endIdx st1)
                 (matchedSlash st1) 1 false
      else st1
    else if negb (startDot st1 =? -1)%Z
    then mkExt (startDot st1) (startPart st1) (endIdx st1)
               (matchedSlash st1) (-1) false
    else st1.

(** Runs a loop body from the last index down to index 0. *)
Fixpoint scan_down {S : Type} (step : Z -> ascii -> S -> S)
         (rev_chars : list ascii) (i : Z) (st : S) : S :=
  match rev_chars with
  | [] => st
  | c :: r => scan_down step r (i - 1) (step i c st)
  end.

Definition extname (p : string) : string :=
  let n := Z.of_nat (String.length p) in
  let st := scan_down ext_step (rev (list_ascii_of_string p)) (n - 1) ext_init in
  if (startDot st =? -1)%Z
     || (endIdx st =? -1)%Z
     || (preDotState st =? 0)%Z
     || ((preDotState st =? 1)%Z
         && (startDot st =? endIdx st - 1)%Z
         && (startDot st =? startPart st + 1)%Z)
  then EmptyString
  else Str.slice (Z.to_nat (startDot st)) (Z.to_nat (endIdx st)) p.

(** The loop state of [path.basename] (called without a suffix). *)
Record BaseState := mkBase {
  b_start : Z;
  b_end : Z;
  b_matchedSlash : bool;
  b_stopped : bool
}.

Definition base_init : BaseState := mkBase 0 (-1) true false.

Definition base_step (i : Z) (code : ascii) (st : BaseState) : BaseState :=
  if b_stopped st then st
  else if Ascii.eqb code slash then
    if negb (b_matchedSlash st)
    then mkBase (i + 1) (b_end st) (b_matchedSlash st) true
    else st
  else if (b_end st =? -1)%Z
  then mkBase (b_start st) (i + 1) false false
  else st.

Definition basename (p : string) : string :=
  let n := Z.of_nat (String.length p) in
  let st := scan_down base_step (rev (list_ascii_of_string p)) (n - 1) base_init in
  if (b_end st =? -1)%Z then EmptyString
  else Str.slice (Z.to_nat (b_start st)) (Z.to_nat (b_end st)) p.

End Path.

(** ** Outcomes of JavaScript evaluation *)

Inductive exn : Type :=
| SyntaxError
| TypeError.

(** A computation returns, throws, or leaves the fragment of JavaScript
    that this development models ([OutOfModel]: nothing is claimed). *)
Inductive outcome (A : Type) : Type :=
| Return (a : A)
| Throw (e : exn)
| OutOfModel.

Arguments Return {A} a.
Arguments Throw {A} e.
Arguments OutOfModel {A}.

Definition obind {A B : Type} (m : outcome A) (k : A -> outcome B)
  : outcome B :=
  match m with
  | Return a => k a
  | Throw e => Throw e
  | OutOfModel => OutOfModel
  end.

(** ** JSON values, [JSON.parse] and [JSON.stringify]

    The modelled fragment of JSON has [null], booleans, strings, arrays and
    objects.  Number literals, [\u] escapes above U+007F and object keys made
    of digits only (which JavaScript enumerates out of insertion order) are
    answered with [OutOfModel]. *)

Module Json.

Inductive value : Type :=
| Null
| Bool (b : bool)
| Str (s : string)
| Arr (l : list value)
| Obj (m : list (string * value)).

(** A JavaScript value read from a variable or property: [None] is
    [undefined]. *)
Definition jsval : Type := option value.

Definition backslash : ascii := ascii_of_nat 92.

Definition is_ws (c : ascii) : bool :=
  let n := nat_of_ascii c in
  (n =? 32) || (n =? 9) || (n =? 10) || (n =? 13).

Fixpoint skip_ws (s : string) : string :=
  match s with
  | String c r => if is_ws c then skip_ws r else s
  | EmptyString => EmptyString
  end.

Definition is_digit (c : ascii) : bool :=
  let n := nat_of_ascii c in (48 <=? n) && (n <=? 57).

Definition hex_val (c : ascii) : option nat :=
  let n := nat_of_ascii c in
  if (48 <=? n) && (n <=? 57) then Some (n - 48)
  else if (97 <=? n) && (n <=? 102) then Some (n - 87)
  else if (65 <=? n) && (n <=? 70) then Some (n - 55)
  else None.

Definition hex4 (a b c d : ascii) : option nat :=
  match hex_val a, hex_val b, hex_val c, hex_val d with
  | Some x, Some y, Some z, Some w => Some (((x * 16 + y) * 16 + z) * 16 + w)
  | _, _, _, _ => None
  end.

(** The character that a one-letter escape [\e] stands for. *)
Definition simple_escape (e : ascii) : option ascii :=
  let n := nat_of_ascii e in
  if n =? 34 then Some (ascii_of_nat 34)
  else if n =? 92 then Some (ascii_of_nat 92)
  else if n =? 47 then Some (ascii_of_nat 47)
  else if n =? 98 then Some (ascii_of_nat 8)
  else if n =? 102 then Some (ascii_of_nat 12)
  else if n =? 110 then Some (ascii_of_nat 10)
  else if n =? 114 then Some (ascii_of_nat 13)
  else if n =? 116 then Some (ascii_of_nat 9)
  else None.

Definition cons_char (c : ascii) (r : outcome (string * string))
  : outcome (string * string) :=
  obind r (fun p => Return (String c (fst p), snd p)).

(** The characters of a string literal after its opening quote, up to and
    including the closing quote; returns the decoded text and what follows
    the literal. *)
Fixpoint parse_chars (s : string) : outcome (string * string) :=
  match s with
  | EmptyString => Throw SyntaxError
  | String c r =>
    if Ascii.eqb c Str.dquote then Return (EmptyString, r)
    else if Ascii.eqb c backslash then
      match r with
      | EmptyString => Throw SyntaxError
      | String e r1 =>
        match simple_escape e with
        | Some ch => cons_char ch (parse_chars r1)
        | None =>
          if Ascii.eqb e (ascii_of_nat 117) then
            match r1 with
            | String h1 (String h2 (String h3 (String h4 r2))) =>
              match hex4 h1 h2 h3 h4 with
              | Some n =>
                if n <? 128 then cons_char (ascii_of_nat n) (parse_chars r2)
                else OutOfModel
              | None => Throw SyntaxError
              end
            | _ => Throw SyntaxError
            end
          else Throw SyntaxError
        end
      end
    else if nat_of_ascii c <? 32 then Throw SyntaxError
    else cons_char c (parse_chars r)
  end.

(** Property write [o[k] = v] on the own properties of an object, kept in
    enumeration order: an existing key keeps its place. *)
Fixpoint obj_set (k : string) (v : value) (m : list (string * value))
  : list (string * value) :=
  match m with
  | [] => [(k, v)]
  | (k', v') :: r =>
    if String.eqb k k' then (k, v) :: r else (k', v') :: obj_set k v r
  end.

Fixpoint obj_get (k : string) (m : list (string * value)) : jsval :=
  match m with
  | [] => None
  | (k', v') :: r => if String.eqb k k' then Some v' else obj_get k r
  end.

Fixpoint all_digits (s : string) : bool :=
  match s with
  | EmptyString => true
  | String c r => is_digit c && all_digits r
  end.

(** Keys that may be array indices, which objects enumerate first. *)
Definition is_index_key (k : string) : bool :=
  match k with
  | EmptyString => false
  | _ => all_digits k
  end.

(** The object that the members of an object literal build, in source
    order: a repeated key overwrites. *)
Fixpoint build_object (ms acc : list (string * value))
  : option (list (string * value)) :=
  match ms with
  | [] => Some acc
  | (k, v) :: r =>
    if is_index_key k then None else build_object r (obj_set k v acc)
  end.

(** The text after the prefix [p], if the text starts with it. *)
Fixpoint strip_prefix (p s : string) : option string :=
  match p with
  | EmptyString => Some s
  | String a p' =>
    match s with
    | String b s' => if Ascii.eqb a b then strip_prefix p' s' else None
    | EmptyString => None
    end
  end.

Definition lbracket : ascii := ascii_of_nat 91.
Definition rbracket : ascii := ascii_of_nat 93.
Definition lbrace : ascii := ascii_of_nat 123.
Definition rbrace : ascii := ascii_of_nat 125.
Definition comma : ascii := ascii_of_nat 44.
Definition colon : ascii := ascii_of_nat 58.
Definition minus : ascii := ascii_of_nat 45.

(** Recursive descent over the JSON grammar.  A value and the list it
    belongs to take one unit of [fuel] each for every character they
    consume, so fuel above twice the length of the text is never used
    up. *)
Fixpoint parse_value (fuel : nat) (s : string) : outcome (value * string) :=
  match fuel with
  | O => OutOfModel
  | S f =>
    match skip_ws s with
    | EmptyString => Throw SyntaxError
    | String c r =>
      if Ascii.eqb c Str.dquote then
        obind (parse_chars r) (fun p => Return (Str (fst p), snd p))
      else if Ascii.eqb c lbracket then
        match skip_ws r with
        | String c1 r1 =>
          if Ascii.eqb c1 rbracket then Return (Arr [], r1)
          else obind (parse_elements f r)
                     (fun p => Return (Arr (fst p), snd p))
        | EmptyString => Throw SyntaxError
        end
      else if Ascii.eqb c lbrace then
        match skip_ws r with
        | String c1 r1 =>
          if Ascii.eqb c1 rbrace then Return (Obj [], r1)
          else obind (parse_members f r)
                     (fun p => match build_object (fst p) [] with
                               | Some m => Return (Obj m, snd p)
                               | None => OutOfModel
                               end)
        | EmptyString => Throw SyntaxError
        end
      else if Ascii.eqb c minus || is_digit c then OutOfModel
      else
        match strip_prefix "null" (String c r) with
        | Some r1 => Return (Null, r1)
        | None =>
          match strip_prefix "true" (String c r) with
          | Some r1 => Return (Bool true, r1)
          | None =>
            match strip_prefix "false" (String c r) with
            | Some r1 => Return (Bool false, r1)
            | None => Throw SyntaxError
            end
          end
        end
    end
  end

with parse_elements (fuel : nat) (s : string)
  : outcome (list value * string) :=
  match fuel with
  | O => OutOfModel
  | S f =>
    obind (parse_value f s) (fun p =>
      match skip_ws (snd p) with
      | String c r =>
        if Ascii.eqb c comma then
          obind (parse_elements f r)
                (fun q => Return (fst p :: fst q, snd q))
        else if Ascii.eqb c rbracket then Return ([fst p], r)
        else Throw SyntaxError
      | EmptyString => Throw SyntaxError
      end)
  end

with parse_members (fuel : nat) (s : string)
  : outcome (list (string * value) * string) :=
  match fuel with
  | O => OutOfModel
  | S f =>
    match skip_ws s with
    | String c r =>
      if Ascii.eqb c Str.dquote then
        obind (parse_chars r) (fun k =>
          match skip_ws (snd k) with
          | String c1 r1 =>
            if Ascii.eqb c1 colon then
              obind (parse_value f r1) (fun p =>
                match skip_ws (snd p) with
                | String c2 r2 =>
                  if Ascii.eqb c2 comma then
                    obind (parse_members f r2)
                          (fun q => Return ((fst k, fst p) :: fst q, snd q))
                  else if Ascii.eqb c2 rbrace
                  then Return ([(fst k, fst p)], r2)
                  else Throw SyntaxError
                | EmptyString => Throw SyntaxError
                end)
            else Throw SyntaxError
          | EmptyString => Throw SyntaxError
          end)
      else Throw SyntaxError
    | EmptyString => Throw SyntaxError
    end
  end.

(** [JSON.parse(text)]. *)
Definition parse (text : string) : outcome value :=
  obind (parse_value (2 * String.length text + 1) text) (fun p =>
    match skip_ws (snd p) with
    | EmptyString => Return (fst p)
    | String _ _ => Throw SyntaxError
    end).

(** [JSON.parse(x)] where [x] may be [undefined]: the argument is first
    converted to the text [undefined], which is not JSON. *)
Definition parse_js (x : option string) : outcome value :=
  match x with
  | Some text => parse text
  | None => Throw SyntaxError
  end.

Definition hex_digit (n : nat) : ascii :=
  if n <? 10 then ascii_of_nat (48 + n) else ascii_of_nat (87 + n).

(** [QuoteJSONString] on one character. *)
Definition escape_char (c : ascii) : string :=
  let n := nat_of_ascii c in
  if n =? 34 then String backslash (String Str.dquote EmptyString)
  else if n =? 92 then String backslash (String backslash EmptyString)
  else if n =? 8 then String backslash "b"
  else if n =? 12 then String backslash "f"
  else if n =? 10 then String backslash "n"
  else if n =? 13 then String backslash "r"
  else if n =? 9 then String backslash "t"
  else if n <? 32 then
    String backslash
      ("u00" ++ String (hex_digit (n / 16))
                       (String (hex_digit (n mod 16)) EmptyString))%string
  else String c EmptyString.

Fixpoint escape (s : string) : string :=
  match s with
  | EmptyString => EmptyString
  | String c r => (escape_char c ++ escape r)%string
  end.

Definition quote (s : string) : string :=
  String Str.dquote (escape s ++ String Str.dquote EmptyString)%string.

Fixpoint spaces (n : nat) : string :=
  match n with
  | O => EmptyString
  | S k => String (ascii_of_nat 32) (spaces k)
  end.

(** A line break followed by the indentation of depth [ind]. *)
Definition nl (ind : nat) : string := String Str.newline (spaces ind).

(** [JSON.stringify(v, null, 2)] at indentation [ind]. *)
Fixpoint stringify_at (ind : nat) (v : value) : string :=
  match v with
  | Null => "null"
  | Bool true => "true"
  | Bool false => "false"
  | Str s => quote s
  | Arr [] => "[]"
  | Arr (x :: xs) =>
    ("[" ++ nl (ind + 2) ++ stringify_at (ind + 2) x
     ++ (fix tail (l : list value) : string :=
           match l with
           | [] => nl ind ++ "]"
           | y :: ys =>
             "," ++ nl (ind + 2) ++ stringify_at (ind + 2) y ++ tail ys
           end) xs)%string
  | Obj [] => "{}"
  | Obj ((k, x) :: xs) =>
    ("{" ++ nl (ind + 2) ++ quote k ++ ": " ++ stringify_at (ind + 2) x
     ++ (fix tail (l : list (string * value)) : string :=
           match l with
           | [] => nl ind ++ "}"
           | (k', y) :: ys =>
             "," ++ nl (ind + 2) ++ quote k' ++ ": "
             ++ stringify_at (ind + 2) y ++ tail ys
           end) xs)%string
  end.

Definition stringify (v : value) : string := stringify_at 0 v.

(** [SameValueZero] on values that [JSON.parse] produced: primitives
    compare by value, and two arrays or objects met at different places are
    different objects. *)
Definition same_value_zero (a b : value) : bool :=
  match a, b with
  | Null, Null => true
  | Bool x, Bool y => Bool.eqb x y
  | Str x, Str y => String.eqb x y
  | _, _ => false
  end.

(** [array.includes(x)]. *)
Definition arr_includes (x : value) (l : list value) : bool :=
  existsb (same_value_zero x) l.

(** [[...new Set(array)]]: the first occurrence of every element, in
    order.  [seen] holds the elements already in the set. *)
Fixpoint set_spread (seen l : list value) : list value :=
  match l with
  | [] => []
  | x :: r =>
    if arr_includes x seen then set_spread seen r
    else x :: set_spread (seen ++ [x]) r
  end.

(** Truthiness of a value, [undefined] included. *)
Definition truthy (v : jsval) : bool :=
  match v with
  | None => false
  | Some Null => false
  | Some (Bool b) => b
  | Some (Str s) => negb (String.eqb s EmptyString)
  | Some (Arr _) => true
  | Some (Obj _) => true
  end.

(** Reading a property [k] that no built-in prototype defines, such as
    [scripts], [template] or [layout]: own properties of objects only, and
    [null] has no properties at all. *)
Definition get_prop (k : string) (v : value) : outcome jsval :=
  match v with
  | Null => Throw TypeError
  | Obj m => Return (obj_get k m)
  | _ => Return None
  end.

(** Object keys are unique and none is an index key, at every depth: the
    shape of the objects that [parse] returns. *)
Fixpoint keys_ok (seen : list string) (m : list (string * value)) : bool :=
  match m with
  | [] => true
  | (k, _) :: r =>
    negb (is_index_key k) && negb (Str.mem k seen) && keys_ok (k :: seen) r
  end.

Fixpoint wf (v : value) : bool :=
  match v with
  | Arr l => forallb wf l
  | Obj m =>
    keys_ok [] m
    && (fix all (l : list (string * value)) : bool :=
          match l with
          | [] => true
          | (_, x) :: r => wf x && all r
          end) m
  | _ => true
  end.

End Json.

(** ** Effects

    Host calls are recorded in the order the code issues them.  A
    computation yields its outcome together with the calls issued up to its
    return or throw. *)

Record TextDocument := mkDoc {
  uri_authority : string;   (* document.uri.authority *)
  uri_toString : string;    (* document.uri.toString() *)
  getText : string          (* document.getText() *)
}.

Inductive EditorLayoutOrientation : Type :=
| horizontal
| vertical.

(** An entry of [groups]; an absent field is [None], so [{}] is
    [Group None None None]. *)
Inductive GroupLayout : Type :=
| Group (g_orientation : option EditorLayoutOrientation)
        (g_groups : option (list GroupLayout))
        (g_size : option Q).

Record EditorLayout := mkLayout {
  orientation : EditorLayoutOrientation;
  groups : list GroupLayout
}.

Inductive JsxEmit : Type :=
| JsxReact.

Record CompilerOptions := mkOptions {
  experimentalDecorators : bool;
  target : string;
  jsx : option JsxEmit
}.

Inductive Effect : Type :=
(* transpiler engines *)
| callPug (content : string)
| callSass (content : string) (indentedSyntax : bool)
| callLess (content : string)
| callTypescript (content : string) (options : CompilerOptions)
(* vscode.workspace.fs.writeFile(fileNameToUri(gistId, fileName), content) *)
| fsWriteFile (gistId fileName content : string)
(* the preview surface; the second argument is absent when [None] *)
| updateManifest (text : option string) (runOnEdit : option bool)
| updateHTML (text : string) (runOnEdit : option bool)
| updateCSS (text : string) (runOnEdit : option bool)
| updateJavaScript (document : TextDocument) (runOnEdit : option bool)
| rebuildWebview
(* the editor *)
| closeAllEditors
| setEditorLayout (layout : EditorLayout)
| showTextDocument (document : TextDocument) (viewColumn : Z)
                   (preserveFocus : bool)
| createWebviewPanel (viewColumn : Z)
(* output.show(false) on the playground's output channel *)
| showOutput.

Definition Eff (A : Type) : Type := (outcome A * list Effect)%type.

Definition ret {A : Type} (a : A) : Eff A := (Return a, []).

Definition throw {A : Type} (e : exn) : Eff A := (Throw e, []).

Definition emit (e : Effect) : Eff unit := (Return tt, [e]).

Definition lift {A : Type} (o : outcome A) : Eff A := (o, []).

Definition bind {A B : Type} (m : Eff A) (k : A -> Eff B) : Eff B :=
  match m with
  | (Return a, t) => let r := k a in (fst r, t ++ snd r)
  | (Throw e, t) => (Throw e, t)
  | (OutOfModel, t) => (OutOfModel, t)
  end.

(** [try { m } catch (e) { return h }]. *)
Definition try_catch {A : Type} (m : Eff A) (h : A) : Eff A :=
  match m with
  | (Throw _, t) => (Return h, t)
  | r => r
  end.

Declare Scope eff_scope.
Delimit Scope eff_scope with eff.
Notation "x <- m ;; k" := (bind m (fun x => k))
  (at level 61, m at next level, right associativity) : eff_scope.
Notation "m ;;; k" := (bind m (fun _ => k))
  (at level 61, right associativity) : eff_scope.

(** The transpilers that the adapters load with [require]: each returns
    its output, or [None] when the call throws.  [sass_renderSync] gives the
    text of the [css] buffer, [less_render] the [css] field of the output. *)
Class Engines := {
  pug_render : string -> option string;
  sass_renderSync : string -> bool -> option string;
  less_render : string -> option string;
  typescript_transpile : string -> CompilerOptions -> option string
}.

(** What the code reads from its collaborators outside this file. *)
Class Host := {
  (* a.localeCompare(b) *)
  localeCompare : string -> string -> Z;
  (* fileNameToUri(gistId, fileName).toString() *)
  fileNameToUri : string -> string -> string;
  (* the text that openTextDocument finds at a uri *)
  readDocument : string -> string
}.

(** ** The playground *)

Record GistFile := mkFile {
  content : option string
}.

Record Gist := mkGist {
  id : string;
  (* gist.files, in the order of Object.keys *)
  files : list (string * GistFile);
  (* getGistLabel(gist) and getGistDescription(gist) *)
  gistLabel : string;
  gistDescription : string
}.

Fixpoint lookup {A : Type} (k : string) (m : list (string * A)) : option A :=
  match m with
  | [] => None
  | (k', v) :: r => if String.eqb k k' then Some v else lookup k r
  end.

Fixpoint remove_key {A : Type} (k : string) (m : list (string * A))
  : list (string * A) :=
  match m with
  | [] => []
  | (k', v) :: r =>
    if String.eqb k k' then remove_key k r else (k', v) :: remove_key k r
  end.

(** [m[k] = v] on an object kept in key order. *)
Fixpoint assign {A : Type} (k : string) (v : A) (m : list (string * A))
  : list (string * A) :=
  match m with
  | [] => [(k, v)]
  | (k', v') :: r =>
    if String.eqb k k' then (k, v) :: r else (k', v') :: assign k v r
  end.

Definition keys {A : Type} (m : list (string * A)) : list string :=
  map fst m.

(** Modelled from the spec: the constant [PLAYGROUND_FILE] of
    [../constants], which is not part of the sources at hand; the manifest
    of the spec's scenarios is the file [playground.json]. *)
Definition PLAYGROUND_FILE : string := "playground.json".

Inductive PlaygroundFileType : Type :=
| markup
| script
| stylesheet
| manifest.

Definition DEFAULT_MANIFEST : Json.value :=
  Json.Obj [("scripts", Json.Arr []); ("styles", Json.Arr [])].

Module MarkupLanguage.
Definition html : string := ".html".
Definition pug : string := ".pug".
End MarkupLanguage.

Definition MARKUP_EXTENSIONS : list string :=
  [MarkupLanguage.html; MarkupLanguage.pug].

Module StylesheetLanguage.
Definition css : string := ".css".
Definition less : string := ".less".
Definition sass : string := ".sass".
Definition scss : string := ".scss".
End StylesheetLanguage.

Definition STYLESHEET_EXTENSIONS : list string :=
  [StylesheetLanguage.css; StylesheetLanguage.less;
   StylesheetLanguage.sass; StylesheetLanguage.scss].

Module ScriptLanguage.
Definition babel : string := ".babel".
Definition javascript : string := ".js".
Definition javascriptmodule : string := ".mjs".
Definition javascriptreact : string := ".jsx".
Definition typescript : string := ".ts".
Definition typescriptreact : string := ".tsx".
End ScriptLanguage.

Definition REACT_EXTENSIONS : list string :=
  [ScriptLanguage.babel; ScriptLanguage.javascriptreact;
   ScriptLanguage.typescriptreact].

Definition MODULE_EXTENSIONS : list string :=
  [ScriptLanguage.javascriptmodule].

Definition TYPESCRIPT_EXTENSIONS : list string :=
  ScriptLanguage.typescript :: REACT_EXTENSIONS.

Definition SCRIPT_EXTENSIONS : list string :=
  ScriptLanguage.javascript :: MODULE_EXTENSIONS ++ TYPESCRIPT_EXTENSIONS.

Definition isReactFile (fileName : string) : bool :=
  Str.mem (Path.extname fileName) REACT_EXTENSIONS.

Definition REACT_SCRIPTS : list string := ["react"; "react-dom"].

Definition includesReactFiles (gist : Gist) : bool :=
  existsb isReactFile (keys (files gist)).

(** [REACT_SCRIPTS.every((script) => scripts.includes(script))], where
    [scripts] is whatever the parsed manifest holds under that name: arrays
    and strings have an [includes] method, anything else makes the call
    throw. *)
Definition includesReactScripts (scripts : Json.jsval) : outcome bool :=
  match scripts with
  | Some (Json.Arr l) =>
    Return (forallb (fun s => Json.arr_includes (Json.Str s) l) REACT_SCRIPTS)
  | Some (Json.Str t) =>
    Return (forallb (fun s => Str.includes s t) REACT_SCRIPTS)
  | _ => Throw TypeError
  end.

(** [scripts.push(...REACT_SCRIPTS)]: only arrays have [push]. *)
Definition pushReactScripts (scripts : Json.jsval) : outcome (list Json.value) :=
  match scripts with
  | Some (Json.Arr l) => Return (l ++ map Json.Str REACT_SCRIPTS)
  | _ => Throw TypeError
  end.

(** [parsedManifest.scripts = v]. *)
Definition setScripts (parsedManifest : Json.value) (v : Json.value)
  : Json.value :=
  match parsedManifest with
  | Json.Obj m => Json.Obj (Json.obj_set "scripts" v m)
  | other => other
  end.

Local Open Scope eff_scope.

Definition getManifestContent (gist : Gist) : Eff (option string) :=
  match lookup PLAYGROUND_FILE (files gist) with
  | None => ret (Some EmptyString)
  | Some file =>
    let manifest := content file in
    if includesReactFiles gist then
      parsedManifest <- lift (Json.parse_js manifest) ;;
      scripts <- lift (Json.get_prop "scripts" parsedManifest) ;;
      included <- lift (includesReactScripts scripts) ;;
      if negb included then
        pushed <- lift (pushReactScripts scripts) ;;
        let parsedManifest :=
          setScripts parsedManifest (Json.Arr (Json.set_spread [] pushed)) in
        let content := Json.stringify parsedManifest in
        emit (fsWriteFile (id gist) PLAYGROUND_FILE content) ;;;
        ret (Some content)
      else ret manifest
    else ret manifest
  end.

Definition MARKUP_BASE_NAME : string := "index".
Definition SCRIPT_BASE_NAME : string := "script".
Definition STYLESHEET_BASE_NAME : string := "style".

Section Adapters.
Context {engines : Engines}.

(** [manifest && manifest.scripts && manifest.scripts.includes("react")],
    as the truth value that the conditions of [getScriptContent] see. *)
Definition includesJsx (manifest : Json.jsval) : outcome bool :=
  if negb (Json.truthy manifest) then Return false
  else
    match manifest with
    | Some m =>
      obind (Json.get_prop "scripts" m) (fun scripts =>
        if negb (Json.truthy scripts) then Return false
        else
          match scripts with
          | Some (Json.Arr l) => Return (Json.arr_includes (Json.Str "react") l)
          | Some (Json.Str t) => Return (Str.includes "react" t)
          | _ => Throw TypeError
          end)
    | None => Return false
    end.

(** The result is [None] for [null]. *)
Definition getScriptContent (document : TextDocument) (manifest : Json.jsval)
  : Eff (option string) :=
  let content := getText document in
  if Trim.is_blank content then ret (Some content)
  else
    let extension := Str.toLowerCase (Path.extname (uri_toString document)) in
    jsxManifest <- lift (includesJsx manifest) ;;
    if Str.mem extension TYPESCRIPT_EXTENSIONS || jsxManifest then
      let compilerOptions :=
        mkOptions true "ES2018"
                  (if jsxManifest || Str.mem extension REACT_EXTENSIONS
                   then Some JsxReact else None) in
      emit (callTypescript content compilerOptions) ;;;
      ret (typescript_transpile content compilerOptions)
    else ret (Some content).

Definition getMarkupContent (document : TextDocument) : Eff (option string) :=
  let content := getText document in
  if Trim.is_blank content then ret (Some content)
  else
    let extension := Str.toLowerCase (Path.extname (uri_toString document)) in
    if String.eqb extension MarkupLanguage.pug then
      emit (callPug content) ;;;
      ret (pug_render content)
    else ret (Some content).

(** The function is [async]; its one [await], on [less.render], is taken
    as a step of the call. *)
Definition getStylesheetContent (document : TextDocument)
  : Eff (option string) :=
  let content := getText document in
  if Trim.is_blank content then ret (Some content)
  else
    let extension := Str.toLowerCase (Path.extname (uri_toString document)) in
    if String.eqb extension StylesheetLanguage.scss
       || String.eqb extension StylesheetLanguage.sass then
      let indentedSyntax := String.eqb extension StylesheetLanguage.sass in
      emit (callSass content indentedSyntax) ;;;
      ret (sass_renderSync content indentedSyntax)
    else if String.eqb extension StylesheetLanguage.less then
      emit (callLess content) ;;;
      ret (less_render content)
    else ret (Some content).

End Adapters.

Definition isPlaygroundManifestFile (gist : Gist) (document : TextDocument)
  : bool :=
  if negb (String.eqb (id gist) (uri_authority document)) then false
  else
    let fileName := Path.basename (Str.toLowerCase (uri_toString document)) in
    String.eqb fileName PLAYGROUND_FILE.

Module EditorLayouts.

Definition leaf : GroupLayout := Group None None None.
Definition half : Q := 1 # 2.

Definition splitOne : EditorLayout :=
  mkLayout horizontal [leaf; leaf].

Definition splitTwo : EditorLayout :=
  mkLayout horizontal
    [Group (Some vertical) (Some [leaf; leaf]) (Some half);
     Group None (Some [leaf]) (Some half)].

Definition splitThree : EditorLayout :=
  mkLayout horizontal
    [Group (Some vertical) (Some [leaf; leaf; leaf]) (Some half);
     Group None (Some [leaf]) (Some half)].

Definition grid : EditorLayout :=
  mkLayout horizontal
    [Group (Some vertical) (Some [leaf; leaf]) (Some half);
     Group (Some vertical) (Some [leaf; leaf]) (Some half)].

End EditorLayouts.

Module PlaygroundLayout.
Definition grid : string := "grid".
Definition preview : string := "preview".
Definition splitLeft : string := "splitLeft".
Definition splitRight : string := "splitRight".
Definition splitTop : string := "splitTop".
End PlaygroundLayout.

(** The extensions and the base name that the [switch] on the file type
    selects; [stylesheet] is also the [default] branch. *)
Definition roleExtensions (fileType : PlaygroundFileType) : list string :=
  match fileType with
  | markup => MARKUP_EXTENSIONS
  | script => SCRIPT_EXTENSIONS
  | _ => STYLESHEET_EXTENSIONS
  end.

Definition roleBaseName (fileType : PlaygroundFileType) : string :=
  match fileType with
  | markup => MARKUP_BASE_NAME
  | script => SCRIPT_BASE_NAME
  | _ => STYLESHEET_BASE_NAME
  end.

Definition fileCandidates (fileType : PlaygroundFileType) : list string :=
  map (fun extension => (roleBaseName fileType ++ extension)%string)
      (roleExtensions fileType).

(** The result is [None] for [undefined]. *)
Definition getGistFileOfType (gist : Gist) (fileType : PlaygroundFileType)
  : option string :=
  find (fun file => Str.mem file (fileCandidates fileType))
       (keys (files gist)).

Definition isPlaygroundDocument (gist : Gist) (document : TextDocument)
           (fileType : PlaygroundFileType) : bool :=
  if negb (String.eqb (id gist) (uri_authority document)) then false
  else Str.mem (Path.basename (uri_toString document))
               (fileCandidates fileType).

(** ** Templates *)

Record GalleryTemplate := mkTemplate {
  label : string;
  description : string;
  gist : string
}.

Record QuickPickItem := mkItem {
  item_label : string;
  item_description : string;
  item_gist : option string;
  item_alwaysShow : option bool
}.

Definition templateItem (t : GalleryTemplate) : QuickPickItem :=
  mkItem (label t) (description t) (Some (gist t)) None.

Definition KnownGalleries : list (string * string) :=
  [("web",
    "https://gist.githubusercontent.com/lostintangent/ce7e5c20f94a7f52a5cec1f22cebec18/raw/793777de81ea634ba5e84ecd5ded167b26baa45d/gallery.json")].

Definition NO_TEMPLATE_GIST_ITEM : QuickPickItem :=
  mkItem "$(arrow-right) Continue without a template"
         "Create a playground based on your configured GistPad settings"
         None (Some true).

Section Templates.
Context {host : Host}.

(** [array.sort((a, b) => a.label.localeCompare(b.label))]: the sort is
    stable, an element moves behind those it compares greater than. *)
Fixpoint insertTemplate (t : GalleryTemplate) (l : list GalleryTemplate)
  : list GalleryTemplate :=
  match l with
  | [] => [t]
  | u :: r =>
    if (localeCompare (label t) (label u) <=? 0)%Z then t :: u :: r
    else u :: insertTemplate t r
  end.

Fixpoint sortByLabel (l : list GalleryTemplate) : list GalleryTemplate :=
  match l with
  | [] => []
  | t :: r => insertTemplate t (sortByLabel r)
  end.

(** [loadGalleryTemplates]: [fetch url] is the [templates] list that
    [axios.get(url)] delivers, or [None] when the body of the [try]
    throws.  Returns the new value of [galleryTemplates]. *)
Definition loadGalleryTemplates
           (fetch : string -> option (list GalleryTemplate))
           (galleries : list string) : list GalleryTemplate :=
  let templates :=
    fold_left
      (fun templates gallery =>
         let gallery :=
           match lookup gallery KnownGalleries with
           | Some url => url
           | None => gallery
           end in
         match fetch gallery with
         | Some found => templates ++ found
         | None => templates
         end)
      galleries [] in
  sortByLabel templates.

(** The body of the loop over [store.gists.concat(store.starredGists)] in
    [newPlaygroundInternal]: the template that a gist contributes. *)
Definition userTemplate (g : Gist) : outcome (option GalleryTemplate) :=
  match lookup PLAYGROUND_FILE (files g) with
  | Some file =>
    match content file with
    | Some text =>
      if String.eqb text EmptyString then Return None
      else
        match Json.parse text with
        | Return manifestContent =>
          match Json.get_prop "template" manifestContent with
          | Return flag =>
            Return (if Json.truthy flag
                    then Some (mkTemplate (gistLabel g) (gistDescription g)
                                          (id g))
                    else None)
          | Throw _ => Return None
          | OutOfModel => OutOfModel
          end
        | Throw _ => Return None
        | OutOfModel => OutOfModel
        end
    | None => Return None
    end
  | None => Return None
  end.

Fixpoint userTemplates (gs : list Gist) : outcome (list GalleryTemplate) :=
  match gs with
  | [] => Return []
  | g :: r =>
    obind (userTemplate g) (fun t =>
      obind (userTemplates r) (fun ts =>
        Return (match t with Some t => t :: ts | None => ts end)))
  end.

(** What [newPlaygroundInternal] does next. *)
Inductive TemplateChoice : Type :=
| WithoutTemplate                        (* newPlaygroundWithoutTemplate *)
| QuickPick (items : list QuickPickItem). (* quickPick.show() *)

Definition newPlaygroundInternal (galleryTemplates : list GalleryTemplate)
           (gists starredGists : list Gist) : outcome TemplateChoice :=
  obind (userTemplates (gists ++ starredGists)) (fun found =>
    let templates := galleryTemplates ++ found in
    if length templates =? 0 then Return WithoutTemplate
    else Return (QuickPick (map templateItem (sortByLabel templates)
                            ++ [NO_TEMPLATE_GIST_ITEM]))).

End Templates.

(** ** [openPlayground] *)

(** The settings read through [config.get]. *)
Record Config := mkConfig {
  playgrounds_layout : string;
  playgrounds_autoRun : string;
  playgrounds_showConsole : bool
}.

(** [playgroundLayout === name]. *)
Definition layoutIs (playgroundLayout : Json.jsval) (name : string) : bool :=
  match playgroundLayout with
  | Some (Json.Str s) => String.eqb s name
  | _ => false
  end.

(** [!!file] on the result of [getGistFileOfType]: the candidate names are
    not empty, so a file name that was found is truthy. *)
Definition found (file : option string) : bool :=
  match file with
  | Some _ => true
  | None => false
  end.

(** [[!!markupFile, !!stylesheetFile, !!scriptFile].filter((file) => file).length] *)
Definition countIncluded (markupFile stylesheetFile scriptFile : option string)
  : nat :=
  length (filter (fun file => file)
                 [found markupFile; found stylesheetFile; found scriptFile]).

(** Lines 590 to 600: the layout chosen from the number of files. *)
Definition chooseLayout (includedFiles : nat) (playgroundLayout : Json.jsval)
  : EditorLayout :=
  if includedFiles =? 3 then
    if layoutIs playgroundLayout PlaygroundLayout.grid
    then EditorLayouts.grid
    else EditorLayouts.splitThree
  else if includedFiles =? 2 then EditorLayouts.splitTwo
  else EditorLayouts.splitOne.

Record LayoutPlan := mkPlan {
  editorLayout : EditorLayout;
  currentViewColumn : Z;
  previewViewColumn : Z
}.

(** Lines 590 to 617. *)
Definition planLayout (includedFiles : nat) (playgroundLayout : Json.jsval)
  : LayoutPlan :=
  let editorLayout := chooseLayout includedFiles playgroundLayout in
  if layoutIs playgroundLayout PlaygroundLayout.splitRight then
    mkPlan (mkLayout (orientation editorLayout) (rev (groups editorLayout)))
           2 1
  else if layoutIs playgroundLayout PlaygroundLayout.splitTop then
    mkPlan (mkLayout vertical (groups editorLayout))
           1 (Z.of_nat includedFiles + 1)
  else mkPlan editorLayout 1 (Z.of_nat includedFiles + 1).

(** The variables that the change handler closes over. *)
Record Session := mkSession {
  s_gist : Gist;
  s_jsDocument : option TextDocument;
  s_manifest : Json.value;
  s_runOnEdit : bool
}.

Section Playground.
Context {engines : Engines} {host : Host}.

(** [openTextDocument(fileNameToUri(gist.id, file))]; the uri that
    [fileNameToUri] builds has the gist's id as its authority. *)
Definition openTextDocument (gistId file : string) : TextDocument :=
  let uri := fileNameToUri gistId file in
  mkDoc gistId uri (readDocument uri).

(** Opens the file of one role, if there is one, and shows it unless the
    layout is [preview]; returns the document and the next view column. *)
Definition openRole (gistId : string) (file : option string)
           (showEditors : bool) (viewColumn : Z) (preserveFocus : bool)
  : Eff (option TextDocument * Z) :=
  match file with
  | Some name =>
    let document := openTextDocument gistId name in
    if showEditors then
      emit (showTextDocument document viewColumn preserveFocus) ;;;
      ret (Some document, (viewColumn + 1)%Z)
    else ret (Some document, viewColumn)
  | None => ret (None, viewColumn)
  end.

(** [x || ""] on a transpile result. *)
Definition orEmpty (x : option string) : string :=
  match x with
  | Some s => s
  | None => EmptyString
  end.

(** Lines 571 to 794, without the registration of the listeners: the
    session that the change handler starts from. *)
Definition openPlayground (config : Config) (gist : Gist) : Eff Session :=
  let markupFile := getGistFileOfType gist markup in
  let stylesheetFile := getGistFileOfType gist stylesheet in
  let scriptFile := getGistFileOfType gist script in
  let includedFiles := countIncluded markupFile stylesheetFile scriptFile in
  manifestContent <- getManifestContent gist ;;
  manifest <- try_catch (lift (Json.parse_js manifestContent)) (Json.Obj []) ;;
  layoutField <- lift (Json.get_prop "layout" manifest) ;;
  let playgroundLayout :=
    if Json.truthy layoutField then layoutField
    else Some (Json.Str (playgrounds_layout config)) in
  let plan := planLayout includedFiles playgroundLayout in
  let showEditors := negb (layoutIs playgroundLayout PlaygroundLayout.preview) in
  emit closeAllEditors ;;;
  (if showEditors then emit (setEditorLayout (editorLayout plan)) else ret tt) ;;;
  html <- openRole (id gist) markupFile showEditors
                   (currentViewColumn plan) false ;;
  css <- openRole (id gist) stylesheetFile showEditors (snd html) true ;;
  js <- openRole (id gist) scriptFile showEditors (snd css) true ;;
  emit (createWebviewPanel (previewViewColumn plan)) ;;;
  showConsole <- lift (Json.get_prop "showConsole" manifest) ;;
  (if playgrounds_showConsole config || Json.truthy showConsole
   then emit showOutput else ret tt) ;;;
  let runOnEdit := String.eqb (playgrounds_autoRun config) "onEdit" in
  emit (updateManifest manifestContent None) ;;;
  markupText <-
    match fst html with
    | Some htmlDocument =>
      rendered <- getMarkupContent htmlDocument ;; ret (orEmpty rendered)
    | None => ret EmptyString
    end ;;
  emit (updateHTML markupText None) ;;;
  stylesheetText <-
    match fst css with
    | Some cssDocument =>
      rendered <- getStylesheetContent cssDocument ;; ret (orEmpty rendered)
    | None => ret EmptyString
    end ;;
  emit (updateCSS stylesheetText None) ;;;
  match fst js with
  | Some jsDocument => emit (updateJavaScript jsDocument None)
  | None => ret tt
  end ;;;
  emit rebuildWebview ;;;
  ret (mkSession gist (fst js) manifest runOnEdit).

(** The listener passed to [onDidChangeTextDocument], before debouncing.
    Returns the session variables after the call together with the
    outcome and the host calls of the call. *)
Definition onDidChangeTextDocument (s : Session) (document : TextDocument)
  : Session * Eff unit :=
  let gist := s_gist s in
  let runOnEdit := Some (s_runOnEdit s) in
  if isPlaygroundDocument gist document markup then
    (s,
     content <- getMarkupContent document ;;
     match content with
     | Some text => emit (updateHTML text runOnEdit)
     | None => ret tt
     end)
  else if isPlaygroundDocument gist document script then
    match s_jsDocument s with
    | Some jsDocument =>
      if negb (String.eqb (uri_toString jsDocument) (uri_toString document))
      then
        let oldName := Path.basename (uri_toString jsDocument) in
        let newName := Path.basename (uri_toString document) in
        match lookup oldName (files gist) with
        | Some oldFile =>
          let gist' :=
            mkGist (id gist)
                   (remove_key oldName (assign newName oldFile (files gist)))
                   (gistLabel gist) (gistDescription gist) in
          (mkSession gist' (s_jsDocument s) (s_manifest s) (s_runOnEdit s),
           manifestContent <- getManifestContent gist' ;;
           emit (updateManifest manifestContent runOnEdit) ;;;
           emit (updateJavaScript document runOnEdit))
        | None => (s, emit (updateJavaScript document runOnEdit))
        end
      else (s, emit (updateJavaScript document runOnEdit))
    | None => (s, emit (updateJavaScript document runOnEdit))
    end
  else if isPlaygroundManifestFile gist document then
    match s_jsDocument s with
    | Some jsDocument =>
      match Json.parse (getText document) with
      | Return parsed =>
        (mkSession gist (s_jsDocument s) parsed (s_runOnEdit s),
         emit (updateManifest (Some (getText document)) runOnEdit) ;;;
         emit (updateJavaScript jsDocument runOnEdit))
      | Throw e =>
        (s, emit (updateManifest (Some (getText document)) runOnEdit) ;;;
            throw e)
      | OutOfModel =>
        (s, emit (updateManifest (Some (getText document)) runOnEdit) ;;;
            lift OutOfModel)
      end
    | None => (s, emit (updateManifest (Some (getText document)) runOnEdit))
    end
  else if isPlaygroundDocument gist document stylesheet then
    (s,
     content <- getStylesheetContent document ;;
     match content with
     | Some text => emit (updateCSS text runOnEdit)
     | None => ret tt
     end)
  else (s, ret tt).

(** ** The debounced listener

    [debounce(listener, 100)] of the npm package [debounce]: one wrapper,
    shared by the documents, keeps the arguments and the time of its latest
    call and runs the listener on them once 100 ms have passed without a
    further call. *)

Definition wait : Z := 100.

(** A change event: the time in ms, the changed document (its identity,
    the uri) and the text it has from then on. *)
Record ChangeEvent := mkChange {
  ev_time : Z;
  ev_document : TextDocument
}.

Record Debounced := mkDebounced {
  d_pending : option TextDocument;  (* args of the latest call *)
  d_timestamp : Z;                  (* time of the latest call *)
  d_texts : list (string * string); (* current text of the documents, by uri *)
  d_session : Session;
  d_trace : list Effect             (* host calls so far *)
}.

(** The document as the listener reads it when the timer fires. *)
Definition currentDocument (texts : list (string * string))
           (document : TextDocument) : TextDocument :=
  match lookup (uri_toString document) texts with
  | Some text => mkDoc (uri_authority document) (uri_toString document) text
  | None => document
  end.

(** The session variables as the listener finds them when it runs:
    [jsDocument] is the [TextDocument] object that [openPlayground] got,
    which the host keeps up to date, so its text is the current one. *)
Definition liveSession (texts : list (string * string)) (s : Session)
  : Session :=
  mkSession (s_gist s) (option_map (currentDocument texts) (s_jsDocument s))
            (s_manifest s) (s_runOnEdit s).

(** The timer callback [later] at time [now]: it re-arms the timer while
    [last < wait && last >= 0], and runs the listener otherwise. *)
Definition later (now : Z) (d : Debounced) : Debounced :=
  match d_pending d with
  | Some document =>
    let last := (now - d_timestamp d)%Z in
    if ((last <? wait) && (0 <=? last))%Z then d
    else
      let r := onDidChangeTextDocument (liveSession (d_texts d) (d_session d))
                                       (currentDocument (d_texts d) document) in
      mkDebounced None (d_timestamp d) (d_texts d) (fst r)
                  (d_trace d ++ snd (snd r))
  | None => d
  end.

(** A change event: timers that are due run first, then the host updates
    the document and calls the debounced listener. *)
Definition change (e : ChangeEvent) (d : Debounced) : Debounced :=
  let d := later (ev_time e) d in
  mkDebounced (Some (ev_document e)) (ev_time e)
              (assign (uri_toString (ev_document e))
                      (getText (ev_document e)) (d_texts d))
              (d_session d) (d_trace d).

(** The host calls issued for a list of change events in time order, once
    the last timer has fired. *)
Definition runChanges (s : Session) (events : list ChangeEvent) : list Effect :=
  let d := fold_left (fun d e => change e d) events
                     (mkDebounced None 0 [] s []) in
  d_trace (later (d_timestamp d + wait) d).

End Playground.

(** The text last pushed to each layer of the preview surface. *)
Definition renderedHTML (trace : list Effect) : option string :=
  fold_left (fun acc e => match e with updateHTML t _ => Some t | _ => acc end)
            trace None.

Definition renderedCSS (trace : list Effect) : option string :=
  fold_left (fun acc e => match e with updateCSS t _ => Some t | _ => acc end)
            trace None.

(** Modelled from the spec: the storage collaborator behind
    [vscode.workspace.fs.writeFile], which is not part of the sources at
    hand; a write persists the file's new content to the bundle store. *)
Definition persist (g : Gist) (e : Effect) : Gist :=
  match e with
  | fsWriteFile gistId fileName text =>
    if String.eqb gistId (id g)
    then mkGist (id g) (assign fileName (mkFile (Some text)) (files g))
                (gistLabel g) (gistDescription g)
    else g
  | _ => g
  end.

Definition persistAll (g : Gist) (trace : list Effect) : Gist :=
  fold_left persist trace g.

(* ===================================================================== *)
(** * Auxiliary definitions for the proofs                                 *)
(* ===================================================================== *)

Import Json.

(** The part of [stringify_at ind (Arr (x :: xs))] after the first
    element, and the same for objects. *)
Definition arr_tail (ind : nat) : list value -> string :=
  fix tail (l : list value) : string :=
    match l with
    | [] => (nl ind ++ "]")%string
    | y :: ys =>
      ("," ++ nl (ind + 2) ++ stringify_at (ind + 2) y ++ tail ys)%string
    end.

Definition obj_tail (ind : nat) : list (string * value) -> string :=
  fix tail (l : list (string * value)) : string :=
    match l with
    | [] => (nl ind ++ "}")%string
    | (k', y) :: ys =>
      ("," ++ nl (ind + 2) ++ quote k' ++ ": "
       ++ stringify_at (ind + 2) y ++ tail ys)%string
    end.

(** The fuel that parsing a printed value takes. *)
Fixpoint size (v : value) : nat :=
  match v with
  | Arr l =>
    S ((fix sizes (l : list value) : nat :=
          match l with
          | [] => 0
          | x :: r => S (size x + sizes r)
          end) l)
  | Obj m =>
    S ((fix sizes (l : list (string * value)) : nat :=
          match l with
          | [] => 0
          | (_, x) :: r => S (size x + sizes r)
          end) m)
  | _ => 1
  end.

Definition sizes (l : list value) : nat :=
  fold_right (fun x n => S (size x + n)) 0 l.

Definition msizes (l : list (string * value)) : nat :=
  fold_right (fun kx n => S (size (snd kx) + n)) 0 l.

Definition wf_members (m : list (string * value)) : bool :=
  forallb (fun kx => wf (snd kx)) m.

Section value_induction.
Variable P : value -> Prop.
Hypothesis HNull : P Null.
Hypothesis HBool : forall b, P (Bool b).
Hypothesis HStr : forall s, P (Str s).
Hypothesis HArr : forall l, Forall P l -> P (Arr l).
Hypothesis HObj : forall m, Forall (fun kx => P (snd kx)) m -> P (Obj m).

Fixpoint value_induction (v : value) : P v :=
  match v with
  | Null => HNull
  | Bool b => HBool b
  | Str s => HStr s
  | Arr l =>
    HArr l ((fix all (l : list value) : Forall P l :=
               match l with
               | [] => Forall_nil P
               | x :: r => Forall_cons x (value_induction x) (all r)
               end) l)
  | Obj m =>
    HObj m ((fix all (l : list (string * value))
               : Forall (fun kx => P (snd kx)) l :=
               match l with
               | [] => Forall_nil _
               | (k, x) :: r =>
                 Forall_cons (k, x) (value_induction x) (all r)
               end) m)
  end.
End value_induction.

(** The first character of a printed value opens a value. *)
Definition opens_value (c : ascii) : bool :=
  negb (is_ws c) && negb (Ascii.eqb c rbracket) && negb (Ascii.eqb c rbrace).

(** Parsing the printed form of [v], followed by any text, gives [v] back
    and leaves the text. *)
Definition roundtrips (v : value) : Prop :=
  wf v = true ->
  forall ind rest f, size v <= f ->
    parse_value f (stringify_at ind v ++ rest) = Return (v, rest).

(** The string entries of an array. *)
Fixpoint strings (l : list value) : list string :=
  match l with
  | [] => []
  | Str s :: r => s :: strings r
  | _ :: r => strings r
  end.

(** The scripts of a rewritten manifest: the entries already there without
    their repetitions, then the missing libraries. *)
Definition injectedScripts (l : list value) : list value :=
  set_spread [] l
  ++ filter (fun r => negb (arr_includes r l)) (map Str REACT_SCRIPTS).

(** The manifest that auto-injection writes for a parsed manifest [m] whose
    scripts are [l]. *)
Definition injectedManifest (m : list (string * value)) (l : list value)
  : value :=
  Obj (obj_set "scripts" (Arr (injectedScripts l)) m).

(** The conditions under which [getManifestContent] rewrites the manifest. *)
Definition rewrites (gist : Gist) (m : list (string * value))
           (l : list value) : Prop :=
  exists file text,
    lookup PLAYGROUND_FILE (files gist) = Some file
    /\ content file = Some text
    /\ includesReactFiles gist = true
    /\ parse text = Return (Obj m)
    /\ obj_get "scripts" m = Some (Arr l)
    /\ forallb (fun s => arr_includes (Str s) l) REACT_SCRIPTS = false.

(** The resolution rule in the words of the specification: the candidate
    names are tried in the order of the role's extension list. *)
Definition resolveByPriority (gist : Gist) (fileType : PlaygroundFileType)
  : option string :=
  find (fun candidate => Str.mem candidate (keys (files gist)))
       (fileCandidates fileType).

(** Calls that change what the preview surface shows. *)
Definition isPreviewUpdate (e : Effect) : bool :=
  match e with
  | updateManifest _ _ | updateHTML _ _ | updateCSS _ _
  | updateJavaScript _ _ | rebuildWebview => true
  | _ => false
  end.

(** A text made of white-space code points only. *)
Inductive Whitespace : string -> Prop :=
| Whitespace_empty : Whitespace EmptyString
| Whitespace_cons (s r : string) :
    Trim.strip_ws1 s = Some r -> Whitespace r -> Whitespace s.


(** The current texts of the documents once the change [e] is made. *)
Definition edited (e : ChangeEvent) (texts : list (string * string))
  : list (string * string) :=
  assign (uri_toString (ev_document e)) (getText (ev_document e)) texts.


(** The event [next] comes less than 100 ms after [e]: the timer that [e]
    started is still running. *)
Definition coalesced (e next : ChangeEvent) : bool :=
  ((ev_time next - ev_time e <? 100) && (0 <=? ev_time next - ev_time e))%Z.

(** The debounced listener in the words of the specification: the
    listener runs for the events that no event follows within 100 ms, in
    their order, each time on the documents as they are by then, [texts]
    being their current texts. *)
Fixpoint runLive {engines : Engines} (s : Session)
         (texts : list (string * string)) (events : list ChangeEvent)
  : list Effect :=
  match events with
  | [] => []
  | e :: r =>
    let texts := edited e texts in
    if match r with
       | next :: _ => coalesced e next
       | [] => false
       end
    then runLive s texts r
    else
      let run := onDidChangeTextDocument (liveSession texts s)
                                         (ev_document e) in
      snd (snd run) ++ runLive (fst run) texts r
  end.

(** [a] may stand before [b] in a list sorted by label. *)
Definition labelLe {host : Host} (a b : GalleryTemplate) : Prop :=
  (localeCompare (label a) (label b) <= 0)%Z.

(** ** Example data *)

(** Transpilers that return their input, and transpilers that throw. *)
Definition identityEngines : Engines :=
  {| pug_render := fun content => Some content;
     sass_renderSync := fun content _ => Some content;
     less_render := fun content => Some content;
     typescript_transpile := fun content _ => Some content |}.

Definition failingEngines : Engines :=
  {| pug_render := fun _ => None;
     sass_renderSync := fun _ _ => None;
     less_render := fun _ => None;
     typescript_transpile := fun _ _ => None |}.

(** A host that compares labels byte by byte. *)
Definition compareBytes (a b : string) : Z :=
  match String.compare a b with
  | Lt => (-1)%Z
  | Eq => 0%Z
  | Gt => 1%Z
  end.

Definition exampleHost : Host :=
  {| localeCompare := compareBytes;
     fileNameToUri :=
       fun gistId file => ("gist://" ++ gistId ++ "/" ++ file)%string;
     readDocument := fun _ => "body { }" |}.

Definition exampleConfig : Config := mkConfig "splitLeft" "onEdit" false.

Definition fileOf (text : string) : GistFile := mkFile (Some text).

Definition bundleOf (entries : list (string * GistFile)) : Gist :=
  mkGist "g" entries "playground" "a playground".

Definition docOf (name text : string) : TextDocument :=
  mkDoc "g" ("gist://g/" ++ name)%string text.

(** [index.pug] precedes [index.html] in the bundle. *)
Definition pugFirstBundle : Gist :=
  bundleOf [("index.pug", fileOf "p hi"); ("index.html", fileOf "<p>hi</p>")].

(** The manifest [{"scripts":["lodash"]}] next to [script.jsx]. *)
Definition lodashManifest : string :=
  ("{" ++ Str.quoted "scripts" ++ ":[" ++ Str.quoted "lodash" ++ "]}")%string.

Definition jsxBundle : Gist :=
  bundleOf [("script.jsx", fileOf "const App = () => <p>hi</p>;");
          (PLAYGROUND_FILE, fileOf lodashManifest)].

(** A line feed. *)
Definition lf : string := String Str.newline EmptyString.

(** The text of [{"scripts":["lodash","react","react-dom"]}] with 2-space
    indentation: five lines, the key after two spaces and the libraries
    after four. *)
Definition injectedText : string :=
  ("{" ++ lf
   ++ "  " ++ Str.quoted "scripts" ++ ": [" ++ lf
   ++ "    " ++ Str.quoted "lodash" ++ "," ++ lf
   ++ "    " ++ Str.quoted "react" ++ "," ++ lf
   ++ "    " ++ Str.quoted "react-dom" ++ lf
   ++ "  ]" ++ lf
   ++ "}")%string.

(** The layout with 2-space indentation in the words of the
    specification.  An object of members [(key, text of the value)]: every
    member on a line of its own after two spaces. *)
Definition indentedMembers (members : list (string * string)) : string :=
  match members with
  | [] => "{}"
  | (k, t) :: r =>
    ("{" ++ lf ++ "  " ++ quote k ++ ": " ++ t
     ++ fold_right (fun kt rest =>
                      "," ++ lf ++ "  " ++ quote (fst kt) ++ ": " ++ snd kt
                      ++ rest)
                   (lf ++ "}") r)%string
  end.

(** The list of libraries under a key of such an object: every name on a
    line of its own after four spaces, the closing bracket after two. *)
Definition indentedNames (names : list string) : string :=
  match names with
  | [] => "[]"
  | n :: r =>
    ("[" ++ lf ++ "    " ++ quote n
     ++ fold_right (fun name rest => "," ++ lf ++ "    " ++ quote name ++ rest)
                   (lf ++ "  ]") r)%string
  end.

(** The same manifest on one line. *)
Definition injectedCompact : string :=
  ("{" ++ Str.quoted "scripts" ++ ":[" ++ Str.quoted "lodash" ++ ","
  ++ Str.quoted "react" ++ "," ++ Str.quoted "react-dom" ++ "]}")%string.

(** A manifest that is not JSON, and one without [scripts], next to
    [script.jsx]. *)
Definition brokenManifestBundle : Gist :=
  bundleOf [("script.jsx", fileOf "const App = () => <p>hi</p>;");
          (PLAYGROUND_FILE, fileOf "{")].

Definition noScriptsBundle : Gist :=
  bundleOf [("script.jsx", fileOf "const App = () => <p>hi</p>;");
          (PLAYGROUND_FILE, fileOf "{}")].

(** The same broken manifest in a bundle without React files. *)
Definition plainBrokenBundle : Gist :=
  bundleOf [("index.html", fileOf "<p>hi</p>"); (PLAYGROUND_FILE, fileOf "{")].

(** The manifest [{"scripts":["react","react","react-dom"]}]. *)
Definition repeatedManifest : string :=
  ("{" ++ Str.quoted "scripts" ++ ":[" ++ Str.quoted "react" ++ ","
  ++ Str.quoted "react" ++ "," ++ Str.quoted "react-dom" ++ "]}")%string.

Definition repeatedBundle : Gist :=
  bundleOf [("script.jsx", fileOf "const App = () => <p>hi</p>;");
          (PLAYGROUND_FILE, fileOf repeatedManifest)].

(** A playground with markup, a stylesheet and a script, once opened. *)
Definition webBundle : Gist :=
  bundleOf [("index.html", fileOf "<p>hi</p>");
          ("style.scss", fileOf "p { a { color: red } }");
          ("script.js", fileOf "let x = 1;");
          (PLAYGROUND_FILE, fileOf "{}")].

Definition webSession : Session :=
  mkSession webBundle (Some (docOf "script.js" "let x = 1;"))
            (Obj []) true.

(** Blank text: two spaces, a line feed, a tab and a space. *)
Definition blankText : string :=
  (spaces 2 ++ String Str.newline (String (ascii_of_nat 9) " "))%string.

(* ===================================================================== *)
(** * Further functions of the file                                        *)
(* ===================================================================== *)

(** ** [generateNewPlaygroundFiles] *)

Record NewFile := mkNewFile {
  filename : string;
  newContent : option string
}.

(** The settings that [generateNewPlaygroundFiles] reads through
    [config.get], which gives the value of a setting, as in
    [openPlayground]. *)
Record NewPlaygroundSettings := mkSettings {
  includeScript : bool;
  scriptLanguage : string;
  includeStylesheet : bool;
  stylesheetLanguage : string;
  includeMarkup : bool;
  markupLanguage : string
}.

(** The objects [ScriptLanguage], [StylesheetLanguage] and
    [MarkupLanguage] as tables from their keys. *)
Definition ScriptLanguageTable : list (string * string) :=
  [("babel", ScriptLanguage.babel);
   ("javascript", ScriptLanguage.javascript);
   ("javascriptmodule", ScriptLanguage.javascriptmodule);
   ("javascriptreact", ScriptLanguage.javascriptreact);
   ("typescript", ScriptLanguage.typescript);
   ("typescriptreact", ScriptLanguage.typescriptreact)].

Definition StylesheetLanguageTable : list (string * string) :=
  [("css", StylesheetLanguage.css);
   ("less", StylesheetLanguage.less);
   ("sass", StylesheetLanguage.sass);
   ("scss", StylesheetLanguage.scss)].

Definition MarkupLanguageTable : list (string * string) :=
  [("html", MarkupLanguage.html);
   ("pug", MarkupLanguage.pug)].

(** Names that every object inherits from [Object.prototype]. *)
Definition objectPrototypeKeys : list string :=
  ["constructor"; "__proto__"; "hasOwnProperty"; "isPrototypeOf";
   "propertyIsEnumerable"; "toLocaleString"; "toString"; "valueOf";
   "__defineGetter__"; "__defineSetter__"; "__lookupGetter__";
   "__lookupSetter__"].

(** The template literal [`${base}${table[key]}`]: a key that the table
    lacks gives [undefined], printed as such; inherited names are outside
    the model. *)
Definition languageFileName (base : string) (table : list (string * string))
           (key : string) : outcome string :=
  match lookup key table with
  | Some extension => Return (base ++ extension)%string
  | None =>
    if Str.mem key objectPrototypeKeys then OutOfModel
    else Return (base ++ "undefined")%string
  end.

(** The two arrays of [DEFAULT_MANIFEST].  The copy [{...DEFAULT_MANIFEST}]
    is shallow: [manifest.scripts] is the array of [DEFAULT_MANIFEST]
    itself, so what is pushed to it stays for the calls that follow. *)
Record ManifestDefaults := mkDefaults {
  defaultScripts : list string;
  defaultStyles : list string
}.

Definition manifestOfDefaults (d : ManifestDefaults) : value :=
  Obj [("scripts", Arr (map Str (defaultScripts d)));
       ("styles", Arr (map Str (defaultStyles d)))].

(** Returns the files and the arrays of [DEFAULT_MANIFEST] after the
    call. *)
Definition generateNewPlaygroundFiles
           (settings : NewPlaygroundSettings) (defaults : ManifestDefaults)
  : outcome (list NewFile * ManifestDefaults) :=
  obind
    (if includeScript settings then
       obind (languageFileName SCRIPT_BASE_NAME ScriptLanguageTable
                               (scriptLanguage settings))
             (fun scriptFileName =>
                Return ([mkNewFile scriptFileName None],
                        if isReactFile scriptFileName
                        then mkDefaults (defaultScripts defaults ++ REACT_SCRIPTS)
                                        (defaultStyles defaults)
                        else defaults))
     else Return ([], defaults))
    (fun afterScript =>
  obind
    (if includeStylesheet settings then
       obind (languageFileName STYLESHEET_BASE_NAME StylesheetLanguageTable
                               (stylesheetLanguage settings))
             (fun stylesheetFileName =>
                Return (fst afterScript ++ [mkNewFile stylesheetFileName None]))
     else Return (fst afterScript))
    (fun afterStylesheet =>
  obind
    (if includeMarkup settings then
       obind (languageFileName MARKUP_BASE_NAME MarkupLanguageTable
                               (markupLanguage settings))
             (fun markupFileName =>
                Return (afterStylesheet ++ [mkNewFile markupFileName None]))
     else Return afterStylesheet)
    (fun afterMarkup =>
       Return (afterMarkup
               ++ [mkNewFile PLAYGROUND_FILE
                             (Some (stringify
                                      (manifestOfDefaults (snd afterScript))))],
               snd afterScript)))).

(** ** The accept handler of the template quick pick *)

Inductive CreateAction : Type :=
(* newPlaygroundWithoutTemplate(isPublic, openAsWorkspace) *)
| newWithoutTemplate (isPublic openAsWorkspace : bool)
(* duplicatePlayground(gist, isPublic, description); the gist is absent
   when [None] *)
| duplicatePlayground (gistId : option string) (isPublic : bool)
                      (description : string).

(** The [switch] of [quickPick.onDidAccept] on the selected item: the
    first [case] has no [break] and runs on into [default].  The result
    lists the calls made, in order, when each of them returns. *)
Definition onDidAccept (isPublic openAsWorkspace : bool)
           (template : QuickPickItem) : list CreateAction :=
  (if String.eqb (item_label template) (item_label NO_TEMPLATE_GIST_ITEM)
   then [newWithoutTemplate isPublic openAsWorkspace]
   else [])
  ++ [duplicatePlayground (item_gist template) isPublic (item_label template)].

(** ** Measures of layouts and traces *)

(** The panes of a layout: the groups without groups of their own. *)
Fixpoint panes (g : GroupLayout) : nat :=
  match g with
  | Group _ None _ => 1
  | Group _ (Some gs) _ =>
    (fix sum (l : list GroupLayout) : nat :=
       match l with
       | [] => 0
       | g :: r => panes g + sum r
       end) gs
  end.

Definition layoutPanes (layout : EditorLayout) : nat :=
  fold_right (fun g n => panes g + n) 0 (groups layout).

(** The view columns that a trace assigns, to editors and to the preview,
    in order. *)
Definition viewColumns (trace : list Effect) : list Z :=
  flat_map (fun e => match e with
                     | showTextDocument _ column _ => [column]
                     | createWebviewPanel column => [column]
                     | _ => []
                     end) trace.

(** The writes of a trace. *)
Definition isWrite (e : Effect) : bool :=
  match e with
  | fsWriteFile _ _ _ => true
  | _ => false
  end.

(** The calls of a trace to the transpilers. *)
Definition isEngineCall (e : Effect) : bool :=
  match e with
  | callPug _ | callSass _ _ | callLess _ | callTypescript _ _ => true
  | _ => false
  end.

(** The script languages whose extension is a React extension. *)
Definition isReactLanguage (key : string) : bool :=
  Str.mem key ["babel"; "javascriptreact"; "typescriptreact"].

(** The name that [generateNewPlaygroundFiles] gives the file of a role,
    when the role is included. *)
Definition roleFileNames (included : bool) (base : string)
           (table : list (string * string)) (key : string) : list string :=
  if included then
    match lookup key table with
    | Some extension => [(base ++ extension)%string]
    | None => [(base ++ "undefined")%string]
    end
  else [].

(** The role file that [getGistFileOfType] is to find for a role of a new
    playground: none when the role is left out or its language is not a
    key of the table. *)
Definition roleFile (included : bool) (base : string)
           (table : list (string * string)) (key : string) : option string :=
  if included
  then option_map (fun extension => (base ++ extension)%string)
                  (lookup key table)
  else None.

(** ** Further example data *)

(** A new playground in TypeScript React, SCSS and Pug, as a bundle. *)
Definition starterSettings : NewPlaygroundSettings :=
  mkSettings true "typescriptreact" true "scss" true "pug".

Definition starterManifestText : string :=
  stringify (manifestOfDefaults (mkDefaults ["react"; "react-dom"] [])).

Definition starterBundle : Gist :=
  bundleOf [("script.tsx", mkFile None);
            ("style.scss", mkFile None);
            ("index.pug", mkFile None);
            (PLAYGROUND_FILE, fileOf starterManifestText)].

(** ** [openPlayground], after the manifest *)

Section RenderPlayground.
Context {engines : Engines} {host : Host}.

(** Lines 588 to 794 of [openPlayground]: what follows once the manifest
    content, the manifest and its [layout] field are at hand. *)
Definition renderPlayground (config : Config) (gist : Gist)
           (manifestContent : option string) (manifest : value)
           (layoutField : jsval) : Eff Session :=
  let markupFile := getGistFileOfType gist markup in
  let stylesheetFile := getGistFileOfType gist stylesheet in
  let scriptFile := getGistFileOfType gist script in
  let includedFiles := countIncluded markupFile stylesheetFile scriptFile in
  let playgroundLayout :=
    if truthy layoutField then layoutField
    else Some (Str (playgrounds_layout config)) in
  let plan := planLayout includedFiles playgroundLayout in
  let showEditors := negb (layoutIs playgroundLayout PlaygroundLayout.preview) in
  emit closeAllEditors ;;;
  (if showEditors then emit (setEditorLayout (editorLayout plan)) else ret tt) ;;;
  html <- openRole (id gist) markupFile showEditors
                   (currentViewColumn plan) false ;;
  css <- openRole (id gist) stylesheetFile showEditors (snd html) true ;;
  js <- openRole (id gist) scriptFile showEditors (snd css) true ;;
  emit (createWebviewPanel (previewViewColumn plan)) ;;;
  showConsole <- lift (get_prop "showConsole" manifest) ;;
  (if playgrounds_showConsole config || truthy showConsole
   then emit showOutput else ret tt) ;;;
  let runOnEdit := String.eqb (playgrounds_autoRun config) "onEdit" in
  emit (updateManifest manifestContent None) ;;;
  markupText <-
    match fst html with
    | Some htmlDocument =>
      rendered <- getMarkupContent htmlDocument ;; ret (orEmpty rendered)
    | None => ret EmptyString
    end ;;
  emit (updateHTML markupText None) ;;;
  stylesheetText <-
    match fst css with
    | Some cssDocument =>
      rendered <- getStylesheetContent cssDocument ;; ret (orEmpty rendered)
    | None => ret EmptyString
    end ;;
  emit (updateCSS stylesheetText None) ;;;
  match fst js with
  | Some jsDocument => emit (updateJavaScript jsDocument None)
  | None => ret tt
  end ;;;
  emit rebuildWebview ;;;
  ret (mkSession gist (fst js) manifest runOnEdit).

(** The text that [openPlayground] pushes for a layer at the start: the
    transpiled text of the role's document, and the empty text when there
    is no such document or its transpilation gives [null]. *)
Definition initialMarkup (gist : Gist) : string :=
  match getGistFileOfType gist markup with
  | Some name =>
    orEmpty (match fst (getMarkupContent (openTextDocument (id gist) name)) with
             | Return rendered => rendered
             | _ => None
             end)
  | None => EmptyString
  end.

Definition initialStylesheet (gist : Gist) : string :=
  match getGistFileOfType gist stylesheet with
  | Some name =>
    orEmpty (match fst (getStylesheetContent
                          (openTextDocument (id gist) name)) with
             | Return rendered => rendered
             | _ => None
             end)
  | None => EmptyString
  end.

End RenderPlayground.

(** ** Galleries *)

(** The address that [loadGalleryTemplates] fetches for an entry of the
    [playgrounds.templateGalleries] setting. *)
Definition galleryUrl (gallery : string) : string :=
  match lookup gallery KnownGalleries with
  | Some url => url
  | None => gallery
  end.

(** The templates of the galleries whose fetch succeeded, in the order of
    the setting. *)
Definition fetchedTemplates
           (fetch : string -> option (list GalleryTemplate))
           (galleries : list string) : list GalleryTemplate :=
  flat_map (fun gallery => match fetch (galleryUrl gallery) with
                           | Some found => found
                           | None => []
                           end) galleries.

(** A gist with a manifest of text [text]. *)
Definition manifestGist (gistId text : string) : Gist :=
  mkGist gistId [(PLAYGROUND_FILE, fileOf text)] gistId "a template".

(** The manifest [{"template":true}]. *)
Definition templateManifest : string :=
  ("{" ++ Str.quoted "template" ++ ":true}")%string.

(** ** The templates among the user's gists *)

(** The template that stands for a gist. *)
Definition gistTemplate (g : Gist) : GalleryTemplate :=
  mkTemplate (gistLabel g) (gistDescription g) (id g).

(** A gist marked as a template, in the words of the specification: its
    manifest is JSON for an object whose [template] field is truthy. *)
Definition markedAsTemplate (g : Gist) : bool :=
  match lookup PLAYGROUND_FILE (files g) with
  | Some file =>
    match content file with
    | Some text =>
      match parse text with
      | Return (Obj m) => truthy (obj_get "template" m)
      | _ => false
      end
    | None => false
    end
  | None => false
  end.

(** The manifest of the gist, if it has one, is a text that the model of
    [JSON.parse] covers. *)
Definition manifestInModel (g : Gist) : Prop :=
  forall file text,
    lookup PLAYGROUND_FILE (files g) = Some file ->
    content file = Some text ->
    parse text <> OutOfModel.

(** A [localeCompare] that ranks letters before their case, as the
    collation of the locales does: [apple] comes before [Banana], whereas
    in the order of the code units every capital comes before every small
    letter. *)
Definition compareFolded (a b : string) : Z :=
  match compareBytes (Str.toLowerCase a) (Str.toLowerCase b) with
  | 0%Z => compareBytes b a
  | c => c
  end.

Definition localeHost : Host :=
  {| localeCompare := compareFolded;
     fileNameToUri :=
       fun gistId file => ("gist://" ++ gistId ++ "/" ++ file)%string;
     readDocument := fun _ => "body { }" |}.

(** A web gallery of two templates, a gallery of one, and nothing else. *)
Definition exampleFetch (url : string) : option (list GalleryTemplate) :=
  if String.eqb url (galleryUrl "web")
  then Some [mkTemplate "Vue" "Vue.js starter" "2";
             mkTemplate "React" "React starter" "1"]
  else if String.eqb url "https://example.org/gallery.json"
  then Some [mkTemplate "Svelte" "Svelte starter" "3"]
  else None.

Definition exampleGalleries : list string :=
  ["unreachable"; "https://example.org/gallery.json"; "web"].

(* ===================================================================== *)
(** * Part II: properties                                                  *)
(* ===================================================================== *)

Lemma append_assoc (a b c : string) : ((a ++ b) ++ c = a ++ (b ++ c))%string.
Proof. induction a; simpl; congruence. Qed.

Lemma append_nil_r (a : string) : (a ++ EmptyString)%string = a.
Proof. induction a; simpl; congruence. Qed.

Lemma length_append (a b : string) :
  String.length (a ++ b) = String.length a + String.length b.
Proof. induction a; simpl; congruence. Qed.

Import Json.

Lemma parse_escape_char (c : ascii) (s : string) :
  parse_chars (escape_char c ++ s) = cons_char c (parse_chars s).
Proof.
  destruct c as [[] [] [] [] [] [] [] []]; reflexivity.
Qed.

Lemma parse_chars_escape (s rest : string) :
  parse_chars (escape s ++ String Str.dquote rest) = Return (s, rest).
Proof.
  induction s as [|c s IH]; simpl.
  - reflexivity.
  - rewrite append_assoc, parse_escape_char, IH. reflexivity.
Qed.

Lemma size_Arr l : size (Arr l) = S (sizes l).
Proof. reflexivity. Qed.

Lemma size_Obj m : size (Obj m) = S (msizes m).
Proof. induction m as [|[k x] m IH]; simpl in *; [reflexivity|]. f_equal. f_equal. f_equal. injection IH as IH. exact IH. Qed.

Lemma wf_Obj m : wf (Obj m) = keys_ok [] m && wf_members m.
Proof.
  simpl. f_equal. induction m as [|[k x] m IH]; simpl; [reflexivity|].
  rewrite IH. reflexivity.
Qed.

Lemma skip_ws_spaces n s : skip_ws (spaces n ++ s) = skip_ws s.
Proof. induction n; simpl; auto. Qed.

Lemma skip_ws_nl n s : skip_ws (nl n ++ s) = skip_ws s.
Proof. unfold nl. simpl. apply skip_ws_spaces. Qed.

Lemma parse_value_skip f s s' :
  skip_ws s = skip_ws s' -> parse_value f s = parse_value f s'.
Proof. intros H. destruct f; simpl; [reflexivity|]. rewrite H. reflexivity. Qed.

Lemma parse_members_skip f s s' :
  skip_ws s = skip_ws s' -> parse_members f s = parse_members f s'.
Proof. intros H. destruct f; simpl; [reflexivity|]. rewrite H. reflexivity. Qed.

Lemma skip_ws_idem s : skip_ws (skip_ws s) = skip_ws s.
Proof.
  induction s as [|c s IH]; simpl; [reflexivity|].
  destruct (is_ws c) eqn:E; [assumption|]. simpl. rewrite E. reflexivity.
Qed.

Lemma stringify_head ind v rest :
  exists c r, (stringify_at ind v ++ rest)%string = String c r
              /\ opens_value c = true.
Proof.
  destruct v as [|[]|s|[|x xs]|[|[k x] xs]]; simpl; eauto.
Qed.

Lemma parse_elements_S f s :
  parse_elements (S f) s =
  obind (parse_value f s) (fun p =>
    match skip_ws (snd p) with
    | String c r =>
      if Ascii.eqb c comma then
        obind (parse_elements f r) (fun q => Return (fst p :: fst q, snd q))
      else if Ascii.eqb c rbracket then Return ([fst p], r)
      else Throw SyntaxError
    | EmptyString => Throw SyntaxError
    end).
Proof. reflexivity. Qed.

Lemma parse_members_S f s :
  parse_members (S f) s =
  match skip_ws s with
  | String c r =>
    if Ascii.eqb c Str.dquote then
      obind (parse_chars r) (fun k =>
        match skip_ws (snd k) with
        | String c1 r1 =>
          if Ascii.eqb c1 colon then
            obind (parse_value f r1) (fun p =>
              match skip_ws (snd p) with
              | String c2 r2 =>
                if Ascii.eqb c2 comma then
                  obind (parse_members f r2)
                        (fun q => Return ((fst k, fst p) :: fst q, snd q))
                else if Ascii.eqb c2 rbrace
                then Return ([(fst k, fst p)], r2)
                else Throw SyntaxError
              | EmptyString => Throw SyntaxError
              end)
          else Throw SyntaxError
        | EmptyString => Throw SyntaxError
        end)
    else Throw SyntaxError
  | EmptyString => Throw SyntaxError
  end.
Proof. reflexivity. Qed.

Lemma arr_tail_nil ind rest :
  skip_ws (arr_tail ind [] ++ rest) = String rbracket rest.
Proof.
  change (arr_tail ind []) with (nl ind ++ "]")%string.
  rewrite append_assoc, skip_ws_nl. reflexivity.
Qed.

Lemma obj_tail_nil ind rest :
  skip_ws (obj_tail ind [] ++ rest) = String rbrace rest.
Proof.
  change (obj_tail ind []) with (nl ind ++ "}")%string.
  rewrite append_assoc, skip_ws_nl. reflexivity.
Qed.

Lemma arr_tail_cons ind y ys rest :
  (arr_tail ind (y :: ys) ++ rest)%string =
  String comma (nl (ind + 2) ++ stringify_at (ind + 2) y
                ++ arr_tail ind ys ++ rest)%string.
Proof.
  change (arr_tail ind (y :: ys))
    with ("," ++ nl (ind + 2) ++ stringify_at (ind + 2) y
          ++ arr_tail ind ys)%string.
  rewrite !append_assoc. reflexivity.
Qed.

Lemma obj_tail_cons ind k y ys rest :
  (obj_tail ind ((k, y) :: ys) ++ rest)%string =
  String comma (nl (ind + 2) ++ quote k ++ ": " ++ stringify_at (ind + 2) y
                ++ obj_tail ind ys ++ rest)%string.
Proof.
  change (obj_tail ind ((k, y) :: ys))
    with ("," ++ nl (ind + 2) ++ quote k ++ ": "
          ++ stringify_at (ind + 2) y ++ obj_tail ind ys)%string.
  rewrite !append_assoc. reflexivity.
Qed.

Lemma roundtrip_elements ind rest xs :
  Forall roundtrips xs -> forallb wf xs = true ->
  forall x, roundtrips x -> wf x = true ->
  forall f, sizes (x :: xs) <= f ->
    parse_elements f (nl (ind + 2) ++ stringify_at (ind + 2) x
                      ++ arr_tail ind xs ++ rest)
    = Return (x :: xs, rest).
Proof.
  induction 1 as [|y ys Hy Hys IH]; intros Hwf x Hx Hwx f Hf.
  - destruct f as [|f]; [simpl in Hf; lia|].
    rewrite parse_elements_S.
    rewrite (parse_value_skip f _ (stringify_at (ind + 2) x
                                   ++ arr_tail ind [] ++ rest))
      by (rewrite skip_ws_nl; reflexivity).
    rewrite (Hx Hwx) by (simpl in Hf; lia).
    cbn [obind snd fst]. rewrite arr_tail_nil. reflexivity.
  - destruct f as [|f]; [simpl in Hf; lia|].
    simpl in Hwf. apply andb_prop in Hwf as [Hwy Hwys].
    rewrite parse_elements_S.
    rewrite (parse_value_skip f _ (stringify_at (ind + 2) x
                                   ++ arr_tail ind (y :: ys) ++ rest))
      by (rewrite skip_ws_nl; reflexivity).
    rewrite (Hx Hwx) by (simpl in Hf; lia).
    cbn [obind snd fst]. rewrite arr_tail_cons.
    change (skip_ws (String comma ?s)) with (String comma s).
    cbn [skip_ws is_ws]. 
    replace (Ascii.eqb comma comma) with true by reflexivity.
    rewrite (IH Hwys y Hy Hwy f) by (simpl in Hf |- *; lia).
    reflexivity.
Qed.

Lemma quote_app k t :
  (quote k ++ t)%string = String Str.dquote (escape k ++ String Str.dquote t).
Proof. unfold quote. simpl. rewrite append_assoc. reflexivity. Qed.

Lemma roundtrip_members ind rest xs :
  Forall (fun kx => roundtrips (snd kx)) xs -> wf_members xs = true ->
  forall k x, roundtrips x -> wf x = true ->
  forall f, msizes ((k, x) :: xs) <= f ->
    parse_members f (nl (ind + 2) ++ quote k ++ ": "
                     ++ stringify_at (ind + 2) x ++ obj_tail ind xs ++ rest)
    = Return ((k, x) :: xs, rest).
Proof.
  induction 1 as [|[k' y] ys Hy Hys IH]; intros Hwf k x Hx Hwx f Hf.
  - destruct f as [|f]; [simpl in Hf; lia|].
    rewrite (parse_members_skip _ _ (quote k ++ ": " ++ stringify_at (ind + 2) x
                                     ++ obj_tail ind [] ++ rest))
      by (rewrite skip_ws_nl; reflexivity).
    rewrite parse_members_S, quote_app.
    cbn [skip_ws is_ws]. change (is_ws Str.dquote) with false. cbv iota.
    replace (Ascii.eqb Str.dquote Str.dquote) with true by reflexivity.
    rewrite parse_chars_escape. cbn [obind snd fst].
    change (skip_ws (": " ++ ?t)) with (String colon (String " " t)).
    cbv beta iota.
    replace (Ascii.eqb colon colon) with true by reflexivity.
    rewrite (parse_value_skip f _ (stringify_at (ind + 2) x
                                   ++ obj_tail ind [] ++ rest))
      by reflexivity.
    rewrite (Hx Hwx) by (simpl in Hf; lia).
    cbn [obind snd fst]. rewrite obj_tail_nil. reflexivity.
  - destruct f as [|f]; [simpl in Hf; lia|].
    simpl in Hwf. apply andb_prop in Hwf as [Hwy Hwys].
    rewrite (parse_members_skip _ _ (quote k ++ ": " ++ stringify_at (ind + 2) x
                                     ++ obj_tail ind ((k', y) :: ys) ++ rest))
      by (rewrite skip_ws_nl; reflexivity).
    rewrite parse_members_S, quote_app.
    cbn [skip_ws is_ws]. change (is_ws Str.dquote) with false. cbv iota.
    replace (Ascii.eqb Str.dquote Str.dquote) with true by reflexivity.
    rewrite parse_chars_escape. cbn [obind snd fst].
    change (skip_ws (": " ++ ?t)) with (String colon (String " " t)).
    cbv beta iota.
    replace (Ascii.eqb colon colon) with true by reflexivity.
    rewrite (parse_value_skip f _ (stringify_at (ind + 2) x
                                   ++ obj_tail ind ((k', y) :: ys) ++ rest))
      by reflexivity.
    rewrite (Hx Hwx) by (simpl in Hf; lia).
    cbn [obind snd fst]. rewrite obj_tail_cons.
    change (skip_ws (String comma ?s)) with (String comma s).
    cbv beta iota.
    replace (Ascii.eqb comma comma) with true by reflexivity.
    rewrite (IH Hwys k' y Hy Hwy f) by (simpl in Hf |- *; lia).
    reflexivity.
Qed.

Lemma obj_set_fresh k v acc :
  Str.mem k (map fst acc) = false -> obj_set k v acc = acc ++ [(k, v)].
Proof.
  induction acc as [|[k' v'] acc IH]; simpl; [reflexivity|].
  intros H. apply orb_false_elim in H as [H1 H2].
  rewrite H1, IH by assumption. reflexivity.
Qed.

Lemma mem_app k l1 l2 : Str.mem k (l1 ++ l2) = Str.mem k l1 || Str.mem k l2.
Proof. unfold Str.mem. apply existsb_app. Qed.

Lemma mem_ext k l1 l2 :
  (forall x, In x l1 -> In x l2) -> Str.mem k l1 = true -> Str.mem k l2 = true.
Proof.
  unfold Str.mem. intros H H1. apply existsb_exists in H1 as [x [Hx E]].
  apply existsb_exists. exists x. auto.
Qed.

Lemma build_object_fresh ms : forall seen acc,
  (forall k, In k (map fst acc) -> In k seen) ->
  keys_ok seen ms = true ->
  build_object ms acc = Some (acc ++ ms).
Proof.
  induction ms as [|[k v] ms IH]; intros seen acc Hacc Hok; simpl.
  - rewrite app_nil_r. reflexivity.
  - simpl in Hok. apply andb_prop in Hok as [Hok Hrest].
    apply andb_prop in Hok as [Hidx Hfresh].
    apply negb_true_iff in Hidx. apply negb_true_iff in Hfresh.
    rewrite Hidx.
    rewrite obj_set_fresh.
    + rewrite (IH (k :: seen)); [rewrite <- app_assoc; reflexivity| |assumption].
      intros k0 Hk0. rewrite map_app in Hk0. apply in_app_or in Hk0 as [Hk0|Hk0].
      * right. auto.
      * simpl in Hk0. destruct Hk0 as [<-|[]]. left. reflexivity.
    + destruct (Str.mem k (map fst acc)) eqn:E; [|reflexivity].
      rewrite (mem_ext k _ seen Hacc E) in Hfresh. discriminate.
Qed.

Theorem parse_value_stringify (v : value) : roundtrips v.
Proof.
  induction v as [ | b | s | l IH | m IH ] using value_induction;
    intros Hwf ind rest f Hf.
  - destruct f as [|f]; [simpl in Hf; lia|]. reflexivity.
  - destruct f as [|f]; [simpl in Hf; lia|]. destruct b; reflexivity.
  - destruct f as [|f]; [simpl in Hf; lia|].
    change (stringify_at ind (Str s)) with (quote s). rewrite quote_app.
    cbn [parse_value skip_ws]. change (is_ws Str.dquote) with false. cbv iota.
    replace (Ascii.eqb Str.dquote Str.dquote) with true by reflexivity.
    rewrite parse_chars_escape. reflexivity.
  - rewrite size_Arr in Hf. destruct f as [|f]; [lia|].
    destruct l as [|x xs]; [reflexivity|].
    change (stringify_at ind (Arr (x :: xs)))
      with ("[" ++ nl (ind + 2) ++ stringify_at (ind + 2) x
            ++ arr_tail ind xs)%string.
    rewrite !append_assoc.
    simpl in Hwf. apply andb_prop in Hwf as [Hwx Hwxs].
    inversion IH as [|? ? Hx Hxs]; subst.
    cbn [parse_value skip_ws String.append].
    change (is_ws "[") with false. cbv iota.
    replace (Ascii.eqb "[" Str.dquote) with false by reflexivity.
    replace (Ascii.eqb "[" lbracket) with true by reflexivity.
    rewrite skip_ws_nl.
    destruct (stringify_head (ind + 2) x (arr_tail ind xs ++ rest))
      as (c & r & Hc & Hopen).
    rewrite Hc. unfold opens_value in Hopen.
    apply andb_prop in Hopen as [Hopen H3]. apply andb_prop in Hopen as [H1 H2].
    apply negb_true_iff in H1, H2, H3.
    cbn [skip_ws]. rewrite H1, H2. rewrite <- Hc.
    rewrite (roundtrip_elements ind rest xs Hxs Hwxs x Hx Hwx f) by lia.
    reflexivity.
  - rewrite size_Obj in Hf. destruct f as [|f]; [lia|].
    rewrite wf_Obj in Hwf. apply andb_prop in Hwf as [Hkeys Hwf].
    destruct m as [|[k x] xs]; [reflexivity|].
    change (stringify_at ind (Obj ((k, x) :: xs)))
      with ("{" ++ nl (ind + 2) ++ quote k ++ ": " ++ stringify_at (ind + 2) x
            ++ obj_tail ind xs)%string.
    rewrite !append_assoc.
    simpl in Hwf. apply andb_prop in Hwf as [Hwx Hwxs].
    inversion IH as [|? ? Hx Hxs]; subst. simpl in Hx.
    cbn [parse_value skip_ws String.append].
    change (is_ws "{") with false. cbv iota.
    replace (Ascii.eqb "{" Str.dquote) with false by reflexivity.
    replace (Ascii.eqb "{" lbracket) with false by reflexivity.
    replace (Ascii.eqb "{" lbrace) with true by reflexivity.
    rewrite skip_ws_nl, quote_app.
    cbn [skip_ws]. change (is_ws Str.dquote) with false. cbv iota.
    replace (Ascii.eqb Str.dquote rbrace) with false by reflexivity.
    rewrite <- quote_app.
    change (String ":" (String " " ?t)) with (": " ++ t)%string.
    rewrite (roundtrip_members ind rest xs Hxs Hwxs k x Hx Hwx f) by lia.
    cbn [obind fst snd].
    rewrite (build_object_fresh _ [] []); [reflexivity| |assumption].
    intros ? [].
Qed.

Lemma length_nl n : String.length (nl n) = S n.
Proof. unfold nl. simpl. f_equal. induction n; simpl; congruence. Qed.

Lemma size_le_length (v : value) :
  forall ind, size v <= String.length (stringify_at ind v).
Proof.
  induction v as [ | b | s | l IH | m IH ] using value_induction; intros ind.
  - simpl. lia.
  - destruct b; simpl; lia.
  - simpl. lia.
  - rewrite size_Arr. destruct l as [|x xs]; [simpl; lia|].
    change (stringify_at ind (Arr (x :: xs)))
      with ("[" ++ nl (ind + 2) ++ stringify_at (ind + 2) x
            ++ arr_tail ind xs)%string.
    inversion IH as [|? ? Hx Hxs]; subst.
    rewrite !length_append, length_nl. simpl String.length.
    specialize (Hx (ind + 2)).
    assert (sizes xs <= String.length (arr_tail ind xs)).
    { clear Hx IH. induction Hxs as [|y ys Hy Hys IHys].
      - simpl. lia.
      - change (arr_tail ind (y :: ys))
          with ("," ++ nl (ind + 2) ++ stringify_at (ind + 2) y
                ++ arr_tail ind ys)%string.
        rewrite !length_append, length_nl. specialize (Hy (ind + 2)).
        simpl. lia. }
    simpl. lia.
  - rewrite size_Obj. destruct m as [|[k x] xs]; [simpl; lia|].
    change (stringify_at ind (Obj ((k, x) :: xs)))
      with ("{" ++ nl (ind + 2) ++ quote k ++ ": " ++ stringify_at (ind + 2) x
            ++ obj_tail ind xs)%string.
    inversion IH as [|? ? Hx Hxs]; subst. simpl in Hx.
    rewrite !length_append, length_nl. simpl String.length.
    specialize (Hx (ind + 2)).
    assert (msizes xs <= String.length (obj_tail ind xs)).
    { clear Hx IH. induction Hxs as [|[k' y] ys Hy Hys IHys].
      - simpl. lia.
      - change (obj_tail ind ((k', y) :: ys))
          with ("," ++ nl (ind + 2) ++ quote k' ++ ": "
                ++ stringify_at (ind + 2) y ++ obj_tail ind ys)%string.
        rewrite !length_append, length_nl. specialize (Hy (ind + 2)).
        simpl in Hy |- *. lia. }
    simpl. lia.
Qed.

(** [JSON.parse(JSON.stringify(v, null, 2))] gives [v] back. *)
Theorem parse_stringify (v : value) :
  wf v = true -> parse (stringify v) = Return v.
Proof.
  intros Hwf. unfold parse, stringify.
  pose proof (parse_value_stringify v Hwf 0 EmptyString
                (2 * String.length (stringify_at 0 v) + 1)) as H.
  rewrite append_nil_r in H. rewrite H.
  - reflexivity.
  - pose proof (size_le_length v 0). lia.
Qed.

(** Keys of an object, as [keys_ok] sees them. *)
Lemma keys_ok_spec m : forall seen,
  keys_ok seen m = true <->
  NoDup (map fst m)
  /\ (forall k, In k (map fst m) ->
                is_index_key k = false /\ Str.mem k seen = false).
Proof.
  induction m as [|[k v] m IH]; intros seen; simpl.
  - split; [intros _; split; [constructor|intros ? []]|reflexivity].
  - rewrite !andb_true_iff, !negb_true_iff, IH. split.
    + intros [[Hi Hs] [Hnd Hall]]. split.
      * constructor; [|assumption]. intros Hin.
        destruct (Hall k Hin) as [_ Hm]. simpl in Hm.
        rewrite String.eqb_refl in Hm. discriminate.
      * intros k0 [<-|Hin]; [auto|]. destruct (Hall k0 Hin) as [H1 H2].
        simpl in H2. apply orb_false_elim in H2 as [_ H2]. auto.
    + intros [Hnd Hall]. inversion Hnd as [|? ? Hnotin Hnd']; subst.
      split; [apply Hall; left; reflexivity|]. split; [assumption|].
      intros k0 Hin. destruct (Hall k0 (or_intror Hin)) as [H1 H2].
      split; [assumption|]. simpl. rewrite H2.
      destruct (String.eqb_spec k0 k) as [->|]; [contradiction|reflexivity].
Qed.

Lemma mem_In k l : Str.mem k l = true <-> In k l.
Proof.
  unfold Str.mem. rewrite existsb_exists. split.
  - intros [x [Hx E]]. apply String.eqb_eq in E. subst. assumption.
  - intros H. exists k. split; [assumption|apply String.eqb_refl].
Qed.

Lemma obj_set_keys k v m :
  map fst (obj_set k v m) =
  if Str.mem k (map fst m) then map fst m else map fst m ++ [k].
Proof.
  induction m as [|[k' v'] m IH]; simpl; [reflexivity|].
  destruct (String.eqb_spec k k') as [->|Hne]; simpl; [reflexivity|].
  rewrite IH. destruct (Str.mem k (map fst m)); reflexivity.
Qed.

Lemma obj_set_wf k v m :
  wf v = true -> wf_members m = true -> wf_members (obj_set k v m) = true.
Proof.
  intros Hv. induction m as [|[k' v'] m IH]; simpl.
  - rewrite Hv. reflexivity.
  - intros H. apply andb_prop in H as [H1 H2].
    destruct (String.eqb k k'); simpl; rewrite ?Hv, ?H1, ?H2, ?IH; auto.
Qed.

Lemma obj_set_keys_ok k v m :
  is_index_key k = false -> keys_ok [] m = true ->
  keys_ok [] (obj_set k v m) = true.
Proof.
  intros Hk H. apply keys_ok_spec in H as [Hnd Hall].
  apply keys_ok_spec. rewrite obj_set_keys.
  destruct (Str.mem k (map fst m)) eqn:E; [split; assumption|]. split.
  - apply NoDup_app; [assumption|constructor; [intros []|constructor]|].
    intros x Hx [<-|[]]. apply mem_In in Hx. congruence.
  - intros k0 Hin. apply in_app_or in Hin as [Hin|[<-|[]]]; auto.
Qed.

Lemma build_object_wf ms : forall acc m,
  wf_members ms = true -> wf_members acc = true -> keys_ok [] acc = true ->
  build_object ms acc = Some m ->
  keys_ok [] m = true /\ wf_members m = true.
Proof.
  induction ms as [|[k v] ms IH]; intros acc m Hms Hacc Hok H; simpl in H.
  - injection H as <-. auto.
  - simpl in Hms. apply andb_prop in Hms as [Hv Hms].
    destruct (is_index_key k) eqn:Hk; [discriminate|].
    apply (IH _ _ Hms) in H; auto using obj_set_wf, obj_set_keys_ok.
Qed.

Lemma obind_Return {A B : Type} (m : outcome A) (k : A -> outcome B) (b : B) :
  obind m k = Return b -> exists a, m = Return a /\ k a = Return b.
Proof. destruct m; simpl; intros H; try discriminate. eauto. Qed.

Lemma parse_value_S f s :
  parse_value (S f) s =
  match skip_ws s with
  | EmptyString => Throw SyntaxError
  | String c r =>
    if Ascii.eqb c Str.dquote then
      obind (parse_chars r) (fun p => Return (Str (fst p), snd p))
    else if Ascii.eqb c lbracket then
      match skip_ws r with
      | String c1 r1 =>
        if Ascii.eqb c1 rbracket then Return (Arr [], r1)
        else obind (parse_elements f r)
                   (fun p => Return (Arr (fst p), snd p))
      | EmptyString => Throw SyntaxError
      end
    else if Ascii.eqb c lbrace then
      match skip_ws r with
      | String c1 r1 =>
        if Ascii.eqb c1 rbrace then Return (Obj [], r1)
        else obind (parse_members f r)
                   (fun p => match build_object (fst p) [] with
                             | Some m => Return (Obj m, snd p)
                             | None => OutOfModel
                             end)
      | EmptyString => Throw SyntaxError
      end
    else if Ascii.eqb c minus || is_digit c then OutOfModel
    else
      match strip_prefix "null" (String c r) with
      | Some r1 => Return (Null, r1)
      | None =>
        match strip_prefix "true" (String c r) with
        | Some r1 => Return (Bool true, r1)
        | None =>
          match strip_prefix "false" (String c r) with
          | Some r1 => Return (Bool false, r1)
          | None => Throw SyntaxError
          end
        end
      end
  end.
Proof. reflexivity. Qed.

Ltac split_parse :=
  repeat match goal with
  | H : obind _ _ = Return _ |- _ =>
    apply obind_Return in H; destruct H as (? & ? & H)
  | H : Return _ = Return _ |- _ => injection H as; subst
  | H : Throw _ = Return _ |- _ => discriminate H
  | H : OutOfModel = Return _ |- _ => discriminate H
  | H : match ?x with _ => _ end = Return _ |- _ => destruct x eqn:?
  | H : (if ?x then _ else _) = Return _ |- _ => destruct x eqn:?
  end.

Lemma parse_functions_wf f :
  (forall s v r, parse_value f s = Return (v, r) -> wf v = true)
  /\ (forall s l r, parse_elements f s = Return (l, r) -> forallb wf l = true)
  /\ (forall s m r, parse_members f s = Return (m, r) -> wf_members m = true).
Proof.
  induction f as [|f (IHv & IHe & IHm)].
  - repeat split; intros; discriminate.
  - repeat split.
    + intros s v r H. rewrite parse_value_S in H. split_parse;
        try reflexivity.
      * destruct x as [l r']. simpl. apply (IHe _ _ _ H0).
      * destruct x as [ms r']. rewrite wf_Obj. simpl in *.
        apply IHm in H0.
        destruct (build_object_wf ms [] l H0 eq_refl eq_refl Heqo) as [-> ->].
        reflexivity.
    + intros s l r H. rewrite parse_elements_S in H. split_parse.
      * destruct x as [v r1], x0 as [l r2]. simpl in *.
        rewrite (IHv _ _ _ H0), (IHe _ _ _ H1). reflexivity.
      * destruct x as [v r1]. simpl in *. rewrite (IHv _ _ _ H0). reflexivity.
    + intros s m r H. rewrite parse_members_S in H. split_parse.
      * destruct x0 as [v r1], x1 as [l r2]. simpl in *.
        rewrite (IHv _ _ _ H1), (IHm _ _ _ H2). reflexivity.
      * destruct x0 as [v r1]. simpl in *. rewrite (IHv _ _ _ H1). reflexivity.
Qed.

Theorem parse_wf (text : string) (v : value) :
  parse text = Return v -> wf v = true.
Proof.
  unfold parse. intros H. split_parse. destruct x as [v r].
  apply (proj1 (parse_functions_wf _) _ _ _ H0).
Qed.

(** ** The fuel of the parser *)

Lemma skip_ws_length s : String.length (skip_ws s) <= String.length s.
Proof.
  induction s as [|c s IH]; simpl; [lia|].
  destruct (is_ws c); simpl; lia.
Qed.

Lemma skip_ws_cons s c r :
  skip_ws s = String c r -> String.length r < String.length s.
Proof.
  intros H. pose proof (skip_ws_length s) as Hl. rewrite H in Hl.
  simpl in Hl. lia.
Qed.

Lemma strip_prefix_length p : forall s r,
  strip_prefix p s = Some r ->
  String.length r + String.length p = String.length s.
Proof.
  induction p as [|a p IH]; intros s r H; simpl in *.
  - injection H as ->. lia.
  - destruct s as [|b s]; [discriminate|].
    destruct (Ascii.eqb a b); [|discriminate].
    apply IH in H. simpl. lia.
Qed.

Lemma parse_chars_length_le n : forall s k r,
  String.length s <= n ->
  parse_chars s = Return (k, r) -> String.length r < String.length s.
Proof.
  induction n as [|n IH]; intros s k r Hn H.
  - destruct s; [discriminate|simpl in Hn; lia].
  - destruct s as [|c s]; [discriminate|]. simpl in Hn.
    assert (Hcons : forall ch t, String.length t <= n ->
                      cons_char ch (parse_chars t) = Return (k, r) ->
                      String.length r < String.length t).
    { intros ch t Ht Hc. unfold cons_char in Hc.
      destruct (parse_chars t) as [[k' r']| |] eqn:E; try discriminate.
      simpl in Hc. injection Hc as <- <-. exact (IH t k' r' Ht E). }
    cbn [parse_chars] in H.
    destruct (Ascii.eqb c Str.dquote).
    + injection H as <- <-. simpl. lia.
    + destruct (Ascii.eqb c backslash).
      * destruct s as [|e r1]; [discriminate|].
        destruct (simple_escape e).
        -- apply Hcons in H; simpl in *; lia.
        -- destruct (Ascii.eqb e (ascii_of_nat 117)); [|discriminate].
           destruct r1 as [|h1 [|h2 [|h3 [|h4 r2]]]]; try discriminate.
           destruct (hex4 h1 h2 h3 h4) as [m|]; [|discriminate].
           destruct (m <? 128); [|discriminate].
           apply Hcons in H; simpl in *; lia.
      * destruct (nat_of_ascii c <? 32); [discriminate|].
        apply Hcons in H; simpl in *; lia.
Qed.

Lemma parse_chars_length s k r :
  parse_chars s = Return (k, r) -> String.length r < String.length s.
Proof. apply (parse_chars_length_le (String.length s)). lia. Qed.

(** What the parsing functions return is what is left of their input, and
    they consume at least one character. *)
Lemma parse_functions_length f :
  (forall s v r, parse_value f s = Return (v, r) ->
                 String.length r < String.length s)
  /\ (forall s l r, parse_elements f s = Return (l, r) ->
                    String.length r < String.length s)
  /\ (forall s m r, parse_members f s = Return (m, r) ->
                    String.length r < String.length s).
Proof.
  induction f as [|f (IHv & IHe & IHm)].
  - repeat split; intros; discriminate.
  - split; [|split].
    + intros s v r H. rewrite parse_value_S in H.
      destruct (skip_ws s) as [|c r0] eqn:Hs; [discriminate|].
      apply skip_ws_cons in Hs.
      destruct (Ascii.eqb c Str.dquote).
      { split_parse. destruct x as [k r']. apply parse_chars_length in H0.
        simpl in *. lia. }
      destruct (Ascii.eqb c lbracket).
      { destruct (skip_ws r0) as [|c1 r1] eqn:Hs1; [discriminate|].
        apply skip_ws_cons in Hs1.
        destruct (Ascii.eqb c1 rbracket).
        - injection H as <- <-. lia.
        - split_parse. destruct x as [l r']. apply IHe in H0.
          simpl in *. lia. }
      destruct (Ascii.eqb c lbrace).
      { destruct (skip_ws r0) as [|c1 r1] eqn:Hs1; [discriminate|].
        apply skip_ws_cons in Hs1.
        destruct (Ascii.eqb c1 rbrace).
        - injection H as <- <-. lia.
        - destruct (parse_members f r0) as [[ms r']| |] eqn:Em;
            try discriminate.
          apply IHm in Em. cbn [obind fst snd] in H.
          destruct (build_object ms []); [|discriminate].
          injection H as <- <-. lia. }
      destruct (Ascii.eqb c minus || is_digit c); [discriminate|].
      destruct (strip_prefix "null" (String c r0)) as [r1|] eqn:E1.
      { injection H as <- <-. apply strip_prefix_length in E1.
        simpl in *. lia. }
      destruct (strip_prefix "true" (String c r0)) as [r1|] eqn:E2.
      { injection H as <- <-. apply strip_prefix_length in E2.
        simpl in *. lia. }
      destruct (strip_prefix "false" (String c r0)) as [r1|] eqn:E3;
        [|discriminate].
      injection H as <- <-. apply strip_prefix_length in E3.
      simpl in *. lia.
    + intros s l r H. rewrite parse_elements_S in H.
      destruct (parse_value f s) as [[v r0]| |] eqn:Ev; try discriminate.
      apply IHv in Ev. cbn [obind fst snd] in H.
      destruct (skip_ws r0) as [|c r1] eqn:Hs; [discriminate|].
      apply skip_ws_cons in Hs.
      destruct (Ascii.eqb c comma).
      * split_parse. destruct x as [l' r']. apply IHe in H0.
        simpl in *. lia.
      * destruct (Ascii.eqb c rbracket); [|discriminate].
        injection H as <- <-. lia.
    + intros s m r H. rewrite parse_members_S in H.
      destruct (skip_ws s) as [|c r0] eqn:Hs; [discriminate|].
      apply skip_ws_cons in Hs.
      destruct (Ascii.eqb c Str.dquote); [|discriminate].
      destruct (parse_chars r0) as [[k rk]| |] eqn:Ek; try discriminate.
      apply parse_chars_length in Ek. cbn [obind fst snd] in H.
      destruct (skip_ws rk) as [|c1 r1] eqn:Hs1; [discriminate|].
      apply skip_ws_cons in Hs1.
      destruct (Ascii.eqb c1 colon); [|discriminate].
      destruct (parse_value f r1) as [[v rv]| |] eqn:Ev; try discriminate.
      apply IHv in Ev. cbn [obind fst snd] in H.
      destruct (skip_ws rv) as [|c2 r2] eqn:Hs2; [discriminate|].
      apply skip_ws_cons in Hs2.
      destruct (Ascii.eqb c2 comma).
      * split_parse. destruct x as [l' r']. apply IHm in H0.
        simpl in *. lia.
      * destruct (Ascii.eqb c2 rbrace); [|discriminate].
        injection H as <- <-. lia.
Qed.

(** Fuel above twice the length of the input is never used up: with more
    fuel the answer is the same. *)
Lemma parse_functions_fuel f :
  (forall s f', 2 * String.length s + 1 <= f -> f <= f' ->
                parse_value f s = parse_value f' s)
  /\ (forall s f', 2 * String.length s + 2 <= f -> f <= f' ->
                   parse_elements f s = parse_elements f' s)
  /\ (forall s f', 2 * String.length s + 2 <= f -> f <= f' ->
                   parse_members f s = parse_members f' s).
Proof.
  induction f as [|f (IHv & IHe & IHm)].
  - repeat split; intros; lia.
  - split; [|split].
    + intros s [|f'] Hf Hle; [lia|]. rewrite !parse_value_S.
      destruct (skip_ws s) as [|c r0] eqn:Hs; [reflexivity|].
      apply skip_ws_cons in Hs.
      rewrite (IHe r0 f') by lia. rewrite (IHm r0 f') by lia.
      reflexivity.
    + intros s [|f'] Hf Hle; [lia|]. rewrite !parse_elements_S.
      rewrite (IHv s f') by lia.
      destruct (parse_value f' s) as [[v r0]| |] eqn:Ev; try reflexivity.
      apply (proj1 (parse_functions_length f')) in Ev.
      cbn [obind fst snd].
      destruct (skip_ws r0) as [|c r1] eqn:Hs; [reflexivity|].
      apply skip_ws_cons in Hs.
      rewrite (IHe r1 f') by lia. reflexivity.
    + intros s [|f'] Hf Hle; [lia|]. rewrite !parse_members_S.
      destruct (skip_ws s) as [|c r0] eqn:Hs; [reflexivity|].
      apply skip_ws_cons in Hs.
      destruct (Ascii.eqb c Str.dquote); [|reflexivity].
      destruct (parse_chars r0) as [[k rk]| |] eqn:Ek; try reflexivity.
      apply parse_chars_length in Ek. cbn [obind fst snd].
      destruct (skip_ws rk) as [|c1 r1] eqn:Hs1; [reflexivity|].
      apply skip_ws_cons in Hs1.
      destruct (Ascii.eqb c1 colon); [|reflexivity].
      rewrite (IHv r1 f') by lia.
      destruct (parse_value f' r1) as [[v rv]| |] eqn:Ev; try reflexivity.
      apply (proj1 (parse_functions_length f')) in Ev.
      cbn [obind fst snd].
      destruct (skip_ws rv) as [|c2 r2] eqn:Hs2; [reflexivity|].
      apply skip_ws_cons in Hs2.
      rewrite (IHm r2 f') by lia. reflexivity.
Qed.

(** [parse] never answers [OutOfModel] for want of fuel: any larger fuel
    gives its answer. *)
Theorem parse_fuel_enough (text : string) (fuel : nat) :
  2 * String.length text + 1 <= fuel ->
  obind (parse_value fuel text) (fun p =>
    match skip_ws (snd p) with
    | EmptyString => Return (fst p)
    | String _ _ => Throw SyntaxError
    end)
  = parse text.
Proof.
  intros Hf. unfold parse.
  rewrite (proj1 (parse_functions_fuel _) text fuel (Nat.le_refl _) Hf).
  reflexivity.
Qed.

Lemma same_value_zero_trans x y z :
  same_value_zero x y = true -> same_value_zero y z = true ->
  same_value_zero x z = true.
Proof.
  destruct x, y; simpl; try discriminate; destruct z; simpl;
    try discriminate; try reflexivity.
  - intros H1 H2. apply Bool.eqb_prop in H1, H2. subst. apply Bool.eqb_reflx.
  - intros H1 H2. apply String.eqb_eq in H1, H2. subst. apply String.eqb_refl.
Qed.

Lemma arr_includes_app x l1 l2 :
  arr_includes x (l1 ++ l2) = arr_includes x l1 || arr_includes x l2.
Proof. apply existsb_app. Qed.

Lemma arr_includes_trans x y l :
  same_value_zero x y = true -> arr_includes y l = true ->
  arr_includes x l = true.
Proof.
  unfold arr_includes. intros Hxy H. apply existsb_exists in H as [z [Hz E]].
  apply existsb_exists. exists z. eauto using same_value_zero_trans.
Qed.

Lemma arr_includes_set_spread x l : forall seen,
  arr_includes x (seen ++ set_spread seen l) = arr_includes x (seen ++ l).
Proof.
  induction l as [|y r IH]; intros seen; simpl; [reflexivity|].
  destruct (arr_includes y seen) eqn:E.
  - rewrite IH, !arr_includes_app. simpl.
    destruct (same_value_zero x y) eqn:Exy; simpl; [|reflexivity].
    rewrite (arr_includes_trans x y seen Exy E). reflexivity.
  - change (seen ++ y :: set_spread (seen ++ [y]) r)
      with (seen ++ [y] ++ set_spread (seen ++ [y]) r).
    rewrite app_assoc, IH, <- app_assoc. reflexivity.
Qed.

Lemma set_spread_app l1 l2 : forall seen,
  set_spread seen (l1 ++ l2) =
  set_spread seen l1 ++ set_spread (seen ++ set_spread seen l1) l2.
Proof.
  induction l1 as [|y r IH]; intros seen; simpl.
  - rewrite app_nil_r. reflexivity.
  - destruct (arr_includes y seen); [apply IH|].
    simpl. rewrite IH, <- app_assoc. reflexivity.
Qed.

Lemma set_spread_wf l : forall seen,
  forallb wf l = true -> forallb wf (set_spread seen l) = true.
Proof.
  induction l as [|y r IH]; intros seen H; simpl in *; [reflexivity|].
  apply andb_prop in H as [H1 H2].
  destruct (arr_includes y seen); simpl; rewrite ?H1; simpl; auto.
Qed.

Lemma In_strings s l : In s (strings l) <-> arr_includes (Str s) l = true.
Proof.
  induction l as [|y r IH]; simpl; [split; [intros []|discriminate]|].
  destruct y; simpl; rewrite ?IH; try tauto.
  rewrite orb_true_iff, String.eqb_eq. split; intros [H|H]; auto.
Qed.

Lemma set_spread_strings l : forall seen,
  NoDup (strings (set_spread seen l))
  /\ (forall s, In s (strings (set_spread seen l)) ->
                arr_includes (Str s) seen = false).
Proof.
  induction l as [|y r IH]; intros seen; simpl.
  - split; [constructor|intros ? []].
  - destruct (arr_includes y seen) eqn:E; [apply IH|].
    destruct (IH (seen ++ [y])) as [Hnd Hout].
    assert (Hseen : forall s, In s (strings (set_spread (seen ++ [y]) r)) ->
                              arr_includes (Str s) seen = false
                              /\ same_value_zero (Str s) y = false).
    { intros s Hs. apply Hout in Hs. rewrite arr_includes_app in Hs.
      apply orb_false_elim in Hs as [H1 H2]. simpl in H2.
      rewrite orb_false_r in H2. auto. }
    destruct y; simpl; try (split; [assumption|intros s Hs; apply Hseen, Hs]).
    split.
    + constructor; [|assumption]. intros Hin.
      apply Hseen in Hin as [_ Hin]. simpl in Hin.
      rewrite String.eqb_refl in Hin. discriminate.
    + intros s0 [<-|Hs]; [assumption|apply Hseen, Hs].
Qed.

Lemma set_spread_push l :
  set_spread [] (l ++ map Str REACT_SCRIPTS) = injectedScripts l.
Proof.
  unfold injectedScripts. rewrite set_spread_app. f_equal.
  simpl.
  pose proof (arr_includes_set_spread (Str "react") l []) as H1.
  simpl in H1. rewrite H1.
  destruct (arr_includes (Str "react") l) eqn:E1; simpl.
  - pose proof (arr_includes_set_spread (Str "react-dom") l []) as H2.
    simpl in H2. rewrite H2.
    destruct (arr_includes (Str "react-dom") l); reflexivity.
  - pose proof (arr_includes_set_spread (Str "react-dom") l []) as H2.
    simpl in H2. rewrite arr_includes_app, H2. simpl.
    destruct (arr_includes (Str "react-dom") l); reflexivity.
Qed.

Lemma injectedScripts_includes l s :
  In s REACT_SCRIPTS -> arr_includes (Str s) (injectedScripts l) = true.
Proof.
  intros Hs. rewrite <- set_spread_push.
  pose proof (arr_includes_set_spread (Str s) (l ++ map Str REACT_SCRIPTS) [])
    as H.
  cbn [app] in H. rewrite H, arr_includes_app. apply orb_true_iff. right.
  destruct Hs as [<-|[<-|[]]]; reflexivity.
Qed.

Lemma injectedScripts_NoDup l : NoDup (strings (injectedScripts l)).
Proof. rewrite <- set_spread_push. apply set_spread_strings. Qed.

Lemma obj_get_wf k m v :
  wf_members m = true -> obj_get k m = Some v -> wf v = true.
Proof.
  induction m as [|[k' v'] m IH]; simpl; [discriminate|].
  intros H. apply andb_prop in H as [H1 H2].
  destruct (String.eqb k k'); [intros [= <-]; assumption|auto].
Qed.

Lemma obj_get_set k v m : obj_get k (obj_set k v m) = Some v.
Proof.
  induction m as [|[k' v'] m IH]; simpl.
  - rewrite String.eqb_refl. reflexivity.
  - destruct (String.eqb k k') eqn:E; simpl; rewrite ?String.eqb_refl, ?E;
      auto.
Qed.

Lemma obj_get_mem k m v :
  obj_get k m = Some v -> Str.mem k (map fst m) = true.
Proof.
  induction m as [|[k' v'] m IH]; simpl; [discriminate|].
  destruct (String.eqb k k'); simpl; auto.
Qed.

Lemma lookup_assign {A} k (v : A) m : lookup k (assign k v m) = Some v.
Proof.
  induction m as [|[k' v'] m IH]; simpl.
  - rewrite String.eqb_refl. reflexivity.
  - destruct (String.eqb k k') eqn:E; simpl; rewrite ?String.eqb_refl, ?E;
      auto.
Qed.

Lemma keys_assign {A} k (v w : A) m :
  lookup k m = Some w -> keys (assign k v m) = keys m.
Proof.
  induction m as [|[k' v'] m IH]; simpl; [discriminate|].
  destruct (String.eqb_spec k k') as [->|]; simpl; [reflexivity|].
  intros H. unfold keys in *. rewrite IH; auto.
Qed.

Lemma getManifestContent_rewrites gist m l :
  rewrites gist m l ->
  getManifestContent gist =
  (Return (Some (stringify (injectedManifest m l))),
   [fsWriteFile (id gist) PLAYGROUND_FILE (stringify (injectedManifest m l))]).
Proof.
  intros (file & text & Hfile & Htext & Hreact & Hparse & Hget & Hinc).
  unfold getManifestContent. rewrite Hfile, Hreact, Htext.
  cbn [parse_js]. rewrite Hparse.
  cbn [lift bind fst snd get_prop app]. rewrite Hget.
  cbn [includesReactScripts lift bind fst snd app]. rewrite Hinc.
  cbn [negb pushReactScripts lift bind fst snd app setScripts].
  rewrite set_spread_push. reflexivity.
Qed.

Lemma getManifestContent_cases gist :
  snd (getManifestContent gist) = [] \/ exists m l, rewrites gist m l.
Proof.
  unfold getManifestContent.
  destruct (lookup PLAYGROUND_FILE (files gist)) as [file|] eqn:Hfile;
    [|left; reflexivity].
  destruct (includesReactFiles gist) eqn:Hreact; [|left; reflexivity].
  destruct (content file) as [text|] eqn:Htext; [|left; reflexivity].
  cbn [parse_js].
  destruct (parse text) as [v| |] eqn:Hparse; try (left; reflexivity).
  cbn [lift bind fst snd app].
  destruct v as [ |b|s|l0|m]; try (left; reflexivity).
  cbn [get_prop].
  destruct (obj_get "scripts" m) as [[ |b|s|l|m']|] eqn:Hget;
    try (left; reflexivity).
  - cbn [includesReactScripts lift bind fst snd app].
    destruct (forallb _ REACT_SCRIPTS); left; reflexivity.
  - cbn [includesReactScripts lift bind fst snd app].
    destruct (forallb (fun s => arr_includes (Str s) l) REACT_SCRIPTS) eqn:Hinc;
      [left; reflexivity|].
    right. exists m, l, file, text. auto 10.
Qed.

Lemma injectedManifest_wf m l :
  wf (Obj m) = true -> obj_get "scripts" m = Some (Arr l) ->
  wf (injectedManifest m l) = true.
Proof.
  intros Hwf Hget. unfold injectedManifest.
  rewrite wf_Obj in *. apply andb_prop in Hwf as [Hk Hm].
  rewrite obj_set_keys_ok, obj_set_wf; auto.
  pose proof (obj_get_wf _ _ _ Hm Hget) as Hl. simpl in Hl.
  change (forallb wf (injectedScripts l) = true).
  rewrite <- set_spread_push. apply set_spread_wf.
  rewrite forallb_app, Hl. reflexivity.
Qed.

Lemma injectedManifest_roundtrip gist m l :
  rewrites gist m l ->
  parse (stringify (injectedManifest m l)) = Return (injectedManifest m l).
Proof.
  intros (file & text & _ & _ & _ & Hparse & Hget & _).
  apply parse_stringify, injectedManifest_wf; [|assumption].
  apply (parse_wf _ _ Hparse).
Qed.

Lemma includesReactFiles_persist gist m l :
  rewrites gist m l ->
  forall text,
    includesReactFiles
      (persist gist (fsWriteFile (id gist) PLAYGROUND_FILE text)) = true.
Proof.
  intros (file & ? & Hfile & _ & Hreact & _) text.
  unfold persist. rewrite String.eqb_refl. unfold includesReactFiles in *.
  cbn [files]. rewrite (keys_assign _ _ _ _ Hfile). assumption.
Qed.

(** After the write has reached the bundle, resolution returns the stored
    manifest and writes nothing. *)
Lemma getManifestContent_settled gist m l :
  rewrites gist m l ->
  getManifestContent
    (persist gist (fsWriteFile (id gist) PLAYGROUND_FILE
                               (stringify (injectedManifest m l))))
  = (Return (Some (stringify (injectedManifest m l))), []).
Proof.
  intros H. unfold getManifestContent.
  rewrite (includesReactFiles_persist gist m l H).
  unfold persist. rewrite String.eqb_refl. cbn [files].
  rewrite lookup_assign. cbn [content parse_js].
  rewrite (injectedManifest_roundtrip gist m l H).
  unfold injectedManifest.
  cbn [lift bind fst snd get_prop app]. rewrite obj_get_set.
  cbn [includesReactScripts lift bind fst snd app].
  replace (forallb _ REACT_SCRIPTS) with true; [reflexivity|].
  symmetry. apply forallb_forall. intros s Hs.
  apply injectedScripts_includes, Hs.
Qed.

Lemma getManifestContent_twice gist :
  getManifestContent
    (persistAll gist (snd (getManifestContent gist)))
  = (fst (getManifestContent gist), []).
Proof.
  destruct (getManifestContent_cases gist) as [Hnone|(m & l & H)].
  - rewrite Hnone. simpl. destruct (getManifestContent gist) as [o t].
    simpl in *. subst. reflexivity.
  - rewrite (getManifestContent_rewrites gist m l H).
    cbn [snd fst persistAll fold_left].
    apply getManifestContent_settled, H.
Qed.

Lemma find_first {A} (p : A -> bool) (l : list A) (x : A) :
  find p l = Some x ->
  exists before after,
    l = before ++ x :: after /\ p x = true
    /\ forall y, In y before -> p y = false.
Proof.
  induction l as [|a l IH]; simpl; [discriminate|].
  destruct (p a) eqn:E.
  - intros [= ->]. exists [], l. repeat split; auto. intros ? [].
  - intros H. destruct (IH H) as (b & a' & -> & Hx & Hb).
    exists (a :: b), a'. repeat split; auto.
    intros y [<-|Hy]; auto.
Qed.

Lemma candidate_extname (fileType : PlaygroundFileType) (extension : string) :
  In extension (roleExtensions fileType) ->
  Path.extname (roleBaseName fileType ++ extension) = extension
  /\ Path.basename (roleBaseName fileType ++ extension)
     = (roleBaseName fileType ++ extension)%string.
Proof.
  destruct fileType; simpl; intros H;
    repeat (destruct H as [<-|H]; [split; reflexivity|]); destruct H.
Qed.

(** Claim C6, as stated, fails: with [index.pug] before [index.html] in the
    bundle, the markup file is [index.pug], although [.html] comes first
    in the role's extension list. *)
Lemma resolution_follows_bundle_order :
  getGistFileOfType pugFirstBundle markup = Some "index.pug"
  /\ resolveByPriority pugFirstBundle markup = Some "index.html".
Proof. split; reflexivity. Qed.

(** Claim C6, amended: a role resolves to at most one file; the file found
    is the role's base name followed by one of the role's extensions, and
    it is the first such file in the order of the bundle's keys.  When
    nothing is found, no key of the bundle is a candidate. *)
Theorem getGistFileOfType_first_candidate
        (gist : Gist) (fileType : PlaygroundFileType) :
  match getGistFileOfType gist fileType with
  | Some file =>
    exists before after extension,
      keys (files gist) = before ++ file :: after
      /\ (forall f, In f before -> Str.mem f (fileCandidates fileType) = false)
      /\ In extension (roleExtensions fileType)
      /\ file = (roleBaseName fileType ++ extension)%string
      /\ Path.extname file = extension
  | None =>
    forall f, In f (keys (files gist)) ->
              Str.mem f (fileCandidates fileType) = false
  end.
Proof.
  unfold getGistFileOfType.
  destruct (find _ (keys (files gist))) as [file|] eqn:E.
  - apply find_first in E as (before & after & Hk & Hc & Hb).
    apply mem_In in Hc. unfold fileCandidates in Hc.
    apply in_map_iff in Hc as (extension & <- & Hext).
    exists before, after, extension. repeat split; auto.
    apply candidate_extname, Hext.
  - intros f Hf. apply (find_none _ _ E f Hf).
Qed.

Lemma getGistFileOfType_first_candidate_witness :
  exists before after extension,
    keys (files pugFirstBundle) = before ++ "index.pug" :: after
    /\ (forall f, In f before -> Str.mem f (fileCandidates markup) = false)
    /\ In extension (roleExtensions markup)
    /\ "index.pug" = (roleBaseName markup ++ extension)%string
    /\ Path.extname "index.pug" = extension.
Proof. exact (getGistFileOfType_first_candidate pugFirstBundle markup). Defined.

Section LayoutFacts.
Context {host : Host}.

(** Claim C7: for every set of roles, the groups of the layout under
    [splitRight] are the groups of the layout for the same roles without
    that preference, reversed; the preview goes to the first view column
    and the editors start at column two. *)
Theorem splitRight_reverses_groups
        (markupFile stylesheetFile scriptFile : option string)
        (other : Json.jsval) :
  let includedFiles := countIncluded markupFile stylesheetFile scriptFile in
  let right := planLayout includedFiles
                          (Some (Str PlaygroundLayout.splitRight)) in
  let plain := planLayout includedFiles other in
  layoutIs other PlaygroundLayout.splitRight = false ->
  (includedFiles = 3 -> layoutIs other PlaygroundLayout.grid = false) ->
  groups (editorLayout right) = rev (groups (editorLayout plain))
  /\ groups (editorLayout right)
     = rev (groups (chooseLayout includedFiles
                                 (Some (Str PlaygroundLayout.splitRight))))
  /\ previewViewColumn right = 1%Z
  /\ currentViewColumn right = 2%Z
  /\ previewViewColumn plain = (Z.of_nat includedFiles + 1)%Z
  /\ currentViewColumn plain = 1%Z
  /\ forall gistId name preserveFocus,
       openRole gistId (Some name) true (currentViewColumn right) preserveFocus
       = (Return (Some (openTextDocument gistId name), 3%Z),
          [showTextDocument (openTextDocument gistId name) 2 preserveFocus]).
Proof.
  cbv zeta. intros Hright Hgrid. unfold planLayout. rewrite Hright.
  change (layoutIs (Some (Str PlaygroundLayout.splitRight))
                   PlaygroundLayout.splitRight) with true.
  cbv iota. cbn [editorLayout groups previewViewColumn currentViewColumn].
  assert (Hsame : chooseLayout
                    (countIncluded markupFile stylesheetFile scriptFile)
                    (Some (Str PlaygroundLayout.splitRight))
                  = chooseLayout
                      (countIncluded markupFile stylesheetFile scriptFile)
                      other).
  { unfold chooseLayout.
    destruct (countIncluded markupFile stylesheetFile scriptFile =? 3) eqn:E;
      [|reflexivity].
    apply Nat.eqb_eq in E. rewrite (Hgrid E). reflexivity. }
  rewrite <- Hsame.
  destruct (layoutIs other PlaygroundLayout.splitTop);
    cbn [editorLayout groups previewViewColumn currentViewColumn];
    repeat split.
Qed.

End LayoutFacts.

Lemma splitRight_reverses_groups_witness :
  groups (editorLayout (planLayout 3 (Some (Str PlaygroundLayout.splitRight))))
  = rev (groups (editorLayout
                   (planLayout 3 (Some (Str PlaygroundLayout.splitLeft)))))
  /\ previewViewColumn (planLayout 3 (Some (Str PlaygroundLayout.splitRight)))
     = 1%Z.
Proof.
  destruct (@splitRight_reverses_groups
              exampleHost
              (Some "index.html") (Some "style.css") (Some "script.js")
              (Some (Str PlaygroundLayout.splitLeft))
              eq_refl (fun _ => eq_refl)) as (Hgroups & _ & Hpreview & _).
  split; [exact Hgroups|exact Hpreview].
Defined.

Lemma strip_ws1_shorter s r :
  Trim.strip_ws1 s = Some r -> String.length r < String.length s.
Proof.
  unfold Trim.strip_ws1. destruct s as [|c s]; [discriminate|].
  cbv zeta.
  destruct (_ || _); [intros [= <-]; simpl; lia|].
  destruct s as [|c2 s]; [discriminate|].
  destruct (_ && _); [intros [= <-]; simpl; lia|].
  destruct s as [|c3 s]; [discriminate|].
  destruct (_ || _); [intros [= <-]; simpl; lia|discriminate].
Qed.

Lemma is_blank_fuel_Whitespace s : Whitespace s ->
  forall fuel, String.length s <= fuel -> Trim.is_blank_fuel fuel s = true.
Proof.
  induction 1 as [|s r Hs Hr IH]; intros fuel Hf.
  - destruct fuel; reflexivity.
  - pose proof (strip_ws1_shorter s r Hs) as Hlt.
    destruct s as [|c s]; [discriminate|].
    destruct fuel as [|fuel]; [simpl in Hf; lia|].
    cbn [Trim.is_blank_fuel]. rewrite Hs. apply IH. simpl in *. lia.
Qed.

Lemma is_blank_fuel_sound fuel : forall s,
  Trim.is_blank_fuel fuel s = true -> Whitespace s.
Proof.
  induction fuel as [|fuel IH]; intros s H.
  - destruct s; [constructor|discriminate].
  - destruct s as [|c s]; [constructor|].
    cbn [Trim.is_blank_fuel] in H.
    destruct (Trim.strip_ws1 (String c s)) as [r|] eqn:E; [|discriminate].
    apply (Whitespace_cons _ r E), IH, H.
Qed.

Lemma is_blank_Whitespace s : Trim.is_blank s = true <-> Whitespace s.
Proof.
  split.
  - apply is_blank_fuel_sound.
  - intros H. apply is_blank_fuel_Whitespace; [assumption|lia].
Qed.

Section AdapterFacts.
Context {engines : Engines}.

(** Claim C9: every adapter returns the empty text for the empty text,
    whatever the dialect of the document, and calls no transpiler. *)
Theorem adapters_empty_input (authority uri : string) (manifest : Json.jsval) :
  let document := mkDoc authority uri EmptyString in
  getScriptContent document manifest = (Return (Some EmptyString), [])
  /\ getMarkupContent document = (Return (Some EmptyString), [])
  /\ getStylesheetContent document = (Return (Some EmptyString), []).
Proof. repeat split. Qed.

(** Claim C10: every adapter returns a text made of white space only as it
    is, whatever the dialect of the document, and calls no transpiler. *)
Theorem adapters_blank_input (document : TextDocument) (manifest : Json.jsval) :
  Whitespace (getText document) ->
  getScriptContent document manifest = (Return (Some (getText document)), [])
  /\ getMarkupContent document = (Return (Some (getText document)), [])
  /\ getStylesheetContent document = (Return (Some (getText document)), []).
Proof.
  intros H. apply is_blank_Whitespace in H.
  unfold getScriptContent, getMarkupContent, getStylesheetContent.
  rewrite H. repeat split.
Qed.

End AdapterFacts.

Lemma adapters_blank_input_witness :
  @getStylesheetContent failingEngines (docOf "style.scss" blankText)
  = (Return (Some blankText), [])
  /\ @getMarkupContent failingEngines (docOf "index.pug" blankText)
     = (Return (Some blankText), []).
Proof.
  assert (H : Whitespace blankText) by (apply is_blank_Whitespace; reflexivity).
  split.
  - apply (@adapters_blank_input failingEngines
                                 (docOf "style.scss" blankText) None H).
  - apply (@adapters_blank_input failingEngines
                                 (docOf "index.pug" blankText) None H).
Defined.

(** Lower-casing and [basename] commute. *)
Lemma lower_ascii_slash c :
  Ascii.eqb (Str.lower_ascii c) Path.slash = Ascii.eqb c Path.slash.
Proof. destruct c as [[] [] [] [] [] [] [] []]; reflexivity. Qed.

Lemma base_step_lower i c st :
  Path.base_step i (Str.lower_ascii c) st = Path.base_step i c st.
Proof. unfold Path.base_step. rewrite lower_ascii_slash. reflexivity. Qed.

Lemma scan_down_lower l : forall i st,
  Path.scan_down Path.base_step (map Str.lower_ascii l) i st
  = Path.scan_down Path.base_step l i st.
Proof.
  induction l as [|c l IH]; intros i st; simpl; [reflexivity|].
  rewrite base_step_lower. apply IH.
Qed.

Lemma list_toLowerCase s :
  list_ascii_of_string (Str.toLowerCase s)
  = map Str.lower_ascii (list_ascii_of_string s).
Proof. induction s; simpl; congruence. Qed.

Lemma length_toLowerCase s :
  String.length (Str.toLowerCase s) = String.length s.
Proof. induction s; simpl; congruence. Qed.

Lemma substring_toLowerCase s : forall n m,
  substring n m (Str.toLowerCase s) = Str.toLowerCase (substring n m s).
Proof.
  induction s as [|c s IH]; intros [|n] [|m]; simpl; try reflexivity.
  - rewrite IH. reflexivity.
  - apply IH.
  - apply IH.
Qed.

Lemma basename_toLowerCase p :
  Path.basename (Str.toLowerCase p) = Str.toLowerCase (Path.basename p).
Proof.
  unfold Path.basename.
  rewrite list_toLowerCase, <- map_rev, scan_down_lower, length_toLowerCase.
  destruct (Path.b_end _ =? -1)%Z; [reflexivity|].
  unfold Str.slice. apply substring_toLowerCase.
Qed.

(** A document of one role is not a document of another role, nor the
    manifest. *)
Lemma stylesheet_document_routing gist document :
  isPlaygroundDocument gist document stylesheet = true ->
  isPlaygroundDocument gist document markup = false
  /\ isPlaygroundDocument gist document script = false
  /\ isPlaygroundManifestFile gist document = false.
Proof.
  unfold isPlaygroundDocument, isPlaygroundManifestFile.
  destruct (negb (id gist =? uri_authority document)%string); [discriminate|].
  rewrite basename_toLowerCase. intros H. apply mem_In in H.
  simpl in H.
  repeat (destruct H as [<-|H]; [repeat split|]); destruct H.
Qed.

Lemma markup_document_routing gist document :
  isPlaygroundDocument gist document markup = true ->
  isPlaygroundDocument gist document script = false
  /\ isPlaygroundDocument gist document stylesheet = false
  /\ isPlaygroundManifestFile gist document = false.
Proof.
  unfold isPlaygroundDocument, isPlaygroundManifestFile.
  destruct (negb (id gist =? uri_authority document)%string); [discriminate|].
  rewrite basename_toLowerCase. intros H. apply mem_In in H.
  simpl in H.
  repeat (destruct H as [<-|H]; [repeat split|]); destruct H.
Qed.

Lemma script_document_routing gist document :
  isPlaygroundDocument gist document script = true ->
  isPlaygroundDocument gist document markup = false
  /\ isPlaygroundDocument gist document stylesheet = false
  /\ isPlaygroundManifestFile gist document = false.
Proof.
  unfold isPlaygroundDocument, isPlaygroundManifestFile.
  destruct (negb (id gist =? uri_authority document)%string); [discriminate|].
  rewrite basename_toLowerCase. intros H. apply mem_In in H.
  simpl in H.
  repeat (destruct H as [<-|H]; [repeat split|]); destruct H.
Qed.

Lemma manifest_document_routing gist document :
  isPlaygroundManifestFile gist document = true ->
  isPlaygroundDocument gist document markup = false
  /\ isPlaygroundDocument gist document script = false
  /\ isPlaygroundDocument gist document stylesheet = false.
Proof.
  intros H.
  destruct (isPlaygroundDocument gist document markup) eqn:Hm;
    [destruct (markup_document_routing _ _ Hm) as (_ & _ & E); congruence|].
  destruct (isPlaygroundDocument gist document script) eqn:Hs;
    [destruct (script_document_routing _ _ Hs) as (_ & _ & E); congruence|].
  destruct (isPlaygroundDocument gist document stylesheet) eqn:Hc;
    [destruct (stylesheet_document_routing _ _ Hc) as (_ & _ & E); congruence|].
  auto.
Qed.

Lemma renderedHTML_app trace more :
  (forall e, In e more -> isPreviewUpdate e = false) ->
  renderedHTML (trace ++ more) = renderedHTML trace.
Proof.
  unfold renderedHTML. rewrite fold_left_app.
  generalize (fold_left
                (fun acc e => match e with updateHTML t _ => Some t | _ => acc end)
                trace None).
  induction more as [|e more IH]; intros acc H; simpl; [reflexivity|].
  rewrite IH by (intros; apply H; right; assumption).
  specialize (H e (or_introl eq_refl)). destruct e; try reflexivity; discriminate.
Qed.

Lemma renderedCSS_app trace more :
  (forall e, In e more -> isPreviewUpdate e = false) ->
  renderedCSS (trace ++ more) = renderedCSS trace.
Proof.
  unfold renderedCSS. rewrite fold_left_app.
  generalize (fold_left
                (fun acc e => match e with updateCSS t _ => Some t | _ => acc end)
                trace None).
  induction more as [|e more IH]; intros acc H; simpl; [reflexivity|].
  rewrite IH by (intros; apply H; right; assumption).
  specialize (H e (or_introl eq_refl)). destruct e; try reflexivity; discriminate.
Qed.

Section HandlerFacts.
Context {engines : Engines}.

Lemma getMarkupContent_calls document e :
  In e (snd (getMarkupContent document)) -> isPreviewUpdate e = false.
Proof.
  unfold getMarkupContent.
  destruct (Trim.is_blank _); [intros []|].
  destruct (String.eqb _ _); simpl; [|intros []].
  intros [<-|[]]. reflexivity.
Qed.

Lemma getStylesheetContent_calls document e :
  In e (snd (getStylesheetContent document)) -> isPreviewUpdate e = false.
Proof.
  unfold getStylesheetContent.
  destruct (Trim.is_blank _); [intros []|].
  destruct (_ || _); simpl; [intros [<-|[]]; reflexivity|].
  destruct (String.eqb _ _); simpl; [|intros []].
  intros [<-|[]]. reflexivity.
Qed.

(** Claim C5: when the transpilation of a changed markup or stylesheet
    document gives [null], the listener returns normally, issues no call
    that updates the preview, and the layer rendered before stays as it
    was. *)
Theorem failed_transpile_issues_no_update
        (s : Session) (document : TextDocument) (trace : list Effect) :
  let r := onDidChangeTextDocument s document in
  (isPlaygroundDocument (s_gist s) document markup = true ->
   fst (getMarkupContent document) = Return None ->
   fst r = s /\ fst (snd r) = Return tt
   /\ (forall e, In e (snd (snd r)) -> isPreviewUpdate e = false)
   /\ renderedHTML (trace ++ snd (snd r)) = renderedHTML trace)
  /\ (isPlaygroundDocument (s_gist s) document stylesheet = true ->
      fst (getStylesheetContent document) = Return None ->
      fst r = s /\ fst (snd r) = Return tt
      /\ (forall e, In e (snd (snd r)) -> isPreviewUpdate e = false)
      /\ renderedCSS (trace ++ snd (snd r)) = renderedCSS trace).
Proof.
  cbv zeta. split.
  - intros Hdoc Hnull. unfold onDidChangeTextDocument. rewrite Hdoc.
    cbn [fst snd].
    assert (Hcalls : forall e,
               In e (snd (content <- getMarkupContent document ;;
                          match content with
                          | Some text => emit (updateHTML text (Some (s_runOnEdit s)))
                          | None => ret tt
                          end)%eff) -> isPreviewUpdate e = false).
    { pose proof (getMarkupContent_calls document) as H.
      destruct (getMarkupContent document) as [o t]. simpl in Hnull. subst o.
      simpl. rewrite app_nil_r. exact H. }
    repeat split.
    + destruct (getMarkupContent document) as [o t]. simpl in Hnull. subst o.
      reflexivity.
    + exact Hcalls.
    + apply renderedHTML_app, Hcalls.
  - intros Hdoc Hnull. unfold onDidChangeTextDocument.
    destruct (stylesheet_document_routing _ _ Hdoc) as (-> & -> & ->).
    rewrite Hdoc. cbn [fst snd].
    assert (Hcalls : forall e,
               In e (snd (content <- getStylesheetContent document ;;
                          match content with
                          | Some text => emit (updateCSS text (Some (s_runOnEdit s)))
                          | None => ret tt
                          end)%eff) -> isPreviewUpdate e = false).
    { pose proof (getStylesheetContent_calls document) as H.
      destruct (getStylesheetContent document) as [o t]. simpl in Hnull. subst o.
      simpl. rewrite app_nil_r. exact H. }
    repeat split.
    + destruct (getStylesheetContent document) as [o t]. simpl in Hnull.
      subst o. reflexivity.
    + exact Hcalls.
    + apply renderedCSS_app, Hcalls.
Qed.

End HandlerFacts.

Lemma failed_transpile_issues_no_update_witness :
  let r := @onDidChangeTextDocument failingEngines webSession
                                    (docOf "index.pug" "p hi") in
  fst (snd r) = Return tt
  /\ snd (snd r) = [callPug "p hi"]
  /\ renderedHTML ([updateHTML "<p>old</p>" None] ++ snd (snd r))
     = Some "<p>old</p>".
Proof.
  destruct (@failed_transpile_issues_no_update
              failingEngines webSession (docOf "index.pug" "p hi")
              [updateHTML "<p>old</p>" None]) as [Hmarkup _].
  destruct (Hmarkup eq_refl eq_refl) as (_ & Hret & _ & Hlayer).
  split; [exact Hret|]. split; [reflexivity|exact Hlayer].
Defined.


Lemma assign_same {A} k (v : A) m : lookup k m = Some v -> assign k v m = m.
Proof.
  induction m as [|[k' v'] m IH]; simpl; [discriminate|].
  destruct (String.eqb_spec k k') as [->|]; [intros [= ->]; reflexivity|].
  intros H. rewrite (IH H). reflexivity.
Qed.

Section DebounceFacts.
Context {engines : Engines}.

Lemma currentDocument_latest texts document :
  lookup (uri_toString document) texts = Some (getText document) ->
  currentDocument texts document = document.
Proof. unfold currentDocument. intros ->. destruct document; reflexivity. Qed.

Lemma edited_twice e texts : edited e (edited e texts) = edited e texts.
Proof. unfold edited. apply assign_same, lookup_assign. Qed.

Lemma runLive_edited s e r texts :
  runLive s (edited e texts) (e :: r) = runLive s texts (e :: r).
Proof. cbn [runLive]. rewrite edited_twice. reflexivity. Qed.

(** From a state in which the call for [e] is pending, the trace at the
    end is the trace so far followed by the runs of the listener that the
    specification describes. *)
Lemma debounce_from_pending (r : list ChangeEvent) : forall d e,
  d_pending d = Some (ev_document e) ->
  d_timestamp d = ev_time e ->
  lookup (uri_toString (ev_document e)) (d_texts d)
  = Some (getText (ev_document e)) ->
  d_trace (later (d_timestamp (fold_left (fun d e => change e d) r d) + wait)
                 (fold_left (fun d e => change e d) r d))
  = d_trace d ++ runLive (d_session d) (d_texts d) (e :: r).
Proof.
  induction r as [|e' r IH]; intros d e Hp Ht Hx.
  - cbn [fold_left runLive]. unfold later. rewrite Hp. cbv zeta.
    replace (d_timestamp d + wait - d_timestamp d)%Z with wait by lia.
    change ((wait <? wait)%Z && (0 <=? wait)%Z) with false. cbv iota.
    cbn [d_trace]. unfold edited. rewrite (assign_same _ _ _ Hx).
    rewrite (currentDocument_latest _ _ Hx), app_nil_r.
    reflexivity.
  - cbn [fold_left].
    assert (Hstep : change e' d
                    = if coalesced e e'
                      then mkDebounced (Some (ev_document e')) (ev_time e')
                             (edited e' (d_texts d))
                             (d_session d) (d_trace d)
                      else
                        let run := onDidChangeTextDocument
                                     (liveSession (d_texts d) (d_session d))
                                     (ev_document e) in
                        mkDebounced (Some (ev_document e')) (ev_time e')
                             (edited e' (d_texts d))
                             (fst run) (d_trace d ++ snd (snd run))).
    { unfold change, later. rewrite Hp, Ht. cbv zeta.
      change wait with 100%Z. fold (coalesced e e').
      destruct (coalesced e e'); [reflexivity|].
      cbn [d_texts d_session d_trace].
      rewrite (currentDocument_latest _ _ Hx). reflexivity. }
    rewrite Hstep.
    change (runLive (d_session d) (d_texts d) (e :: e' :: r))
      with (if coalesced e e'
            then runLive (d_session d) (edited e (d_texts d)) (e' :: r)
            else
              let run := onDidChangeTextDocument
                           (liveSession (edited e (d_texts d)) (d_session d))
                           (ev_document e) in
              snd (snd run)
              ++ runLive (fst run) (edited e (d_texts d)) (e' :: r)).
    assert (Hsame : edited e (d_texts d) = d_texts d)
      by (apply assign_same, Hx).
    rewrite Hsame.
    destruct (coalesced e e'); cbv zeta;
      match goal with
      | |- context [fold_left _ r ?d2] =>
        rewrite (IH d2 e' eq_refl eq_refl (lookup_assign _ _ _))
      end;
      cbn [d_trace d_session d_texts]; rewrite runLive_edited.
    + reflexivity.
    + rewrite app_assoc. reflexivity.
Qed.

(** The debounced listener does what the specification describes. *)
Lemma runChanges_pending s e r :
  runChanges s (e :: r) = runLive s [] (e :: r).
Proof.
  unfold runChanges. cbn [fold_left].
  set (d1 := change e _).
  assert (Hd1 : d1 = mkDebounced (Some (ev_document e)) (ev_time e)
                       (edited e []) s []) by reflexivity.
  rewrite (debounce_from_pending r d1 e);
    try (rewrite Hd1; reflexivity).
  - rewrite Hd1. cbn [d_trace d_session d_texts app].
    apply runLive_edited.
  - rewrite Hd1. cbn [d_texts]. apply lookup_assign.
Qed.



End DebounceFacts.



Lemma compareBytes_total a b :
  (0 < compareBytes a b -> compareBytes b a <= 0)%Z.
Proof.
  unfold compareBytes. rewrite (String.compare_antisym a b).
  destruct (String.compare b a); simpl; lia.
Qed.

Section TemplateFacts.
Context {host : Host}.

Lemma insertTemplate_perm t l : Permutation (insertTemplate t l) (t :: l).
Proof.
  induction l as [|u r IH]; simpl; [reflexivity|].
  destruct (_ <=? 0)%Z; [reflexivity|].
  rewrite IH. apply perm_swap.
Qed.

Lemma sortByLabel_perm l : Permutation (sortByLabel l) l.
Proof.
  induction l as [|t r IH]; simpl; [reflexivity|].
  rewrite insertTemplate_perm. apply perm_skip, IH.
Qed.

Section Sorted.
Hypothesis localeCompare_total :
  forall a b, (0 < localeCompare a b -> localeCompare b a <= 0)%Z.

Lemma insertTemplate_sorted t l :
  Sorted labelLe l -> Sorted labelLe (insertTemplate t l).
Proof.
  induction l as [|u r IH]; intros Hs; simpl.
  - repeat constructor.
  - destruct (Z.leb_spec (localeCompare (label t) (label u)) 0) as [Hle|Hgt].
    + constructor; [assumption|]. constructor. exact Hle.
    + inversion Hs as [|? ? Hr Hhd]; subst.
      constructor; [apply IH, Hr|].
      destruct r as [|w r']; simpl.
      * constructor. apply localeCompare_total, Hgt.
      * destruct (_ <=? 0)%Z.
        -- constructor. apply localeCompare_total, Hgt.
        -- inversion Hhd; subst. constructor. assumption.
Qed.

Lemma sortByLabel_sorted l : Sorted labelLe (sortByLabel l).
Proof.
  induction l as [|t r IH]; simpl; [constructor|].
  apply insertTemplate_sorted, IH.
Qed.

End Sorted.

Lemma sortByLabel_nil l : sortByLabel l = [] -> l = [].
Proof.
  intros H. apply Permutation_nil. rewrite <- H.
  apply sortByLabel_perm.
Qed.

End TemplateFacts.

(** Claim C8, as stated, fails twice.  With no gallery template and no
    user template, no quick pick is shown at all: the playground is
    created without a template.  And the order of the list is the one of
    [localeCompare], not the case-sensitive order of the code units: with
    a [localeCompare] that ranks letters before their case, [apple] is
    listed before [Banana], which comes first in the order of the code
    units. *)
Lemma quick_pick_absent_or_in_locale_order :
  @newPlaygroundInternal exampleHost [] [] [] = Return WithoutTemplate
  /\ @newPlaygroundInternal exampleHost [] [] []
     <> Return (QuickPick [NO_TEMPLATE_GIST_ITEM])
  /\ @newPlaygroundInternal
       localeHost
       [mkTemplate "Banana" "second" "2"; mkTemplate "apple" "first" "1"]
       [] []
     = Return (QuickPick [templateItem (mkTemplate "apple" "first" "1");
                          templateItem (mkTemplate "Banana" "second" "2");
                          NO_TEMPLATE_GIST_ITEM])
  /\ (compareBytes "Banana" "apple" < 0)%Z.
Proof.
  split; [reflexivity|]. split; [discriminate|].
  split; [vm_compute; reflexivity|reflexivity].
Qed.

(** The template that the loop of [newPlaygroundInternal] takes from a
    gist: the gist's own, exactly when the gist is marked as a template. *)
Lemma userTemplate_marked (g : Gist) :
  manifestInModel g ->
  userTemplate g
  = Return (if markedAsTemplate g then Some (gistTemplate g) else None).
Proof.
  unfold manifestInModel, userTemplate, markedAsTemplate. intros Hmodel.
  destruct (lookup PLAYGROUND_FILE (files g)) as [file|]; [|reflexivity].
  destruct (content file) as [text|] eqn:Htext; [|reflexivity].
  specialize (Hmodel file text eq_refl Htext).
  destruct (String.eqb_spec text EmptyString) as [->|_]; [reflexivity|].
  destruct (parse text) as [v|e|]; [|reflexivity|contradiction].
  destruct v as [ |b|t|l|m]; reflexivity.
Qed.

Lemma userTemplates_marked (gs : list Gist) :
  (forall g, In g gs -> manifestInModel g) ->
  userTemplates gs = Return (map gistTemplate (filter markedAsTemplate gs)).
Proof.
  induction gs as [|g r IH]; intros Hmodel; [reflexivity|].
  cbn [userTemplates filter].
  rewrite (userTemplate_marked g (Hmodel g (or_introl eq_refl))).
  rewrite IH by (intros g' Hg'; apply Hmodel; right; exact Hg').
  cbn [obind]. destruct (markedAsTemplate g); reflexivity.
Qed.

Section TemplateTheorem.
Context {host : Host}.

(** Claim C8, amended: the user templates are the gists of the user,
    starred ones included, that are marked as templates.  When there is at
    least one gallery or user template, the quick pick lists all of them,
    sorted by label under [localeCompare], followed by the item for no
    template, which is last and occurs once; when there is none, no quick
    pick is shown. *)
Theorem quickPick_templates_then_sentinel
        (galleryTemplates : list GalleryTemplate)
        (gists starredGists : list Gist) :
  (forall a b, (0 < localeCompare a b -> localeCompare b a <= 0)%Z) ->
  (forall g, In g (gists ++ starredGists) -> manifestInModel g) ->
  let ownTemplates :=
    map gistTemplate (filter markedAsTemplate (gists ++ starredGists)) in
  let sorted := sortByLabel (galleryTemplates ++ ownTemplates) in
  let items := map templateItem sorted ++ [NO_TEMPLATE_GIST_ITEM] in
  (galleryTemplates ++ ownTemplates = [] ->
   newPlaygroundInternal galleryTemplates gists starredGists
   = Return WithoutTemplate)
  /\ (galleryTemplates ++ ownTemplates <> [] ->
      newPlaygroundInternal galleryTemplates gists starredGists
      = Return (QuickPick items))
  /\ Permutation sorted (galleryTemplates ++ ownTemplates)
  /\ Sorted labelLe sorted
  /\ last items NO_TEMPLATE_GIST_ITEM = NO_TEMPLATE_GIST_ITEM
  /\ Forall (fun item => item <> NO_TEMPLATE_GIST_ITEM)
            (map templateItem sorted).
Proof.
  intros Htotal Hmodel found sorted items. unfold newPlaygroundInternal.
  rewrite (userTemplates_marked _ Hmodel). fold found. cbn [obind].
  repeat split.
  - intros ->. reflexivity.
  - intros Hne.
    destruct (galleryTemplates ++ found) as [|t ts] eqn:E; [contradiction|].
    reflexivity.
  - apply sortByLabel_perm.
  - apply sortByLabel_sorted, Htotal.
  - apply last_last.
  - apply Forall_forall. intros item Hin.
    apply in_map_iff in Hin as (u & <- & _). discriminate.
Qed.

End TemplateTheorem.

Lemma quickPick_templates_then_sentinel_witness :
  @newPlaygroundInternal
    exampleHost
    [mkTemplate "Vue" "Vue.js starter" "2"; mkTemplate "React" "React starter" "1"]
    [manifestGist "Angular" templateManifest; manifestGist "broken" "[[["]
    [manifestGist "plain" "{}"]
  = Return (QuickPick [templateItem (mkTemplate "Angular" "a template" "Angular");
                       templateItem (mkTemplate "React" "React starter" "1");
                       templateItem (mkTemplate "Vue" "Vue.js starter" "2");
                       NO_TEMPLATE_GIST_ITEM]).
Proof.
  assert (Hmodel : forall g,
             In g ([manifestGist "Angular" templateManifest;
                    manifestGist "broken" "[[["]
                   ++ [manifestGist "plain" "{}"]) ->
             manifestInModel g).
  { intros g [<-|[<-|[<-|[]]]] file text [= <-] [= <-];
      vm_compute; discriminate. }
  apply (@quickPick_templates_then_sentinel
           exampleHost
           [mkTemplate "Vue" "Vue.js starter" "2";
            mkTemplate "React" "React starter" "1"]
           [manifestGist "Angular" templateManifest; manifestGist "broken" "[[["]
           [manifestGist "plain" "{}"] compareBytes_total Hmodel).
  discriminate.
Defined.

(** ** Manifest resolution *)

Lemma includesReactFiles_spec (gist : Gist) :
  includesReactFiles gist = true <->
  exists name, In name (keys (files gist))
               /\ In (Path.extname name) REACT_EXTENSIONS.
Proof.
  unfold includesReactFiles, isReactFile. rewrite existsb_exists.
  split; intros (name & Hin & H); exists name; split; auto;
    apply mem_In; assumption.
Qed.

Lemma obj_set_keys_present k v w m :
  obj_get k m = Some w -> map fst (obj_set k v m) = map fst m.
Proof.
  intros H. rewrite obj_set_keys, (obj_get_mem _ _ _ H). reflexivity.
Qed.

(** The layout of [JSON.stringify(_, null, 2)] on an object, and on a list
    of strings under one of its keys. *)
Lemma stringify_members (m : list (string * value)) :
  stringify (Obj m)
  = indentedMembers (map (fun kv => (fst kv, stringify_at 2 (snd kv))) m).
Proof.
  destruct m as [|[k x] xs]; [reflexivity|].
  unfold stringify, indentedMembers.
  change (stringify_at 0 (Obj ((k, x) :: xs)))
    with ("{" ++ nl 2 ++ quote k ++ ": " ++ stringify_at 2 x
          ++ obj_tail 0 xs)%string.
  cbn [map fst snd].
  replace (obj_tail 0 xs)
    with (fold_right (fun kt rest =>
                        "," ++ lf ++ "  " ++ quote (fst kt) ++ ": "
                        ++ snd kt ++ rest)
                     (lf ++ "}")
                     (map (fun kv => (fst kv, stringify_at 2 (snd kv))) xs))%string;
    [reflexivity|].
  induction xs as [|[k' y] ys IH]; [reflexivity|].
  cbn [map fold_right fst snd]. rewrite IH. reflexivity.
Qed.

Lemma stringify_names (names : list string) :
  stringify_at 2 (Arr (map Str names)) = indentedNames names.
Proof.
  destruct names as [|n r]; [reflexivity|].
  unfold indentedNames. cbn [map].
  change (stringify_at 2 (Arr (Str n :: map Str r)))
    with ("[" ++ nl 4 ++ quote n ++ arr_tail 2 (map Str r))%string.
  replace (arr_tail 2 (map Str r))
    with (fold_right (fun name rest =>
                        "," ++ lf ++ "    " ++ quote name ++ rest)
                     (lf ++ "  ]") r)%string;
    [reflexivity|].
  induction r as [|name r IH]; [reflexivity|].
  cbn [map fold_right]. rewrite IH. reflexivity.
Qed.

(** Claim C2: when the bundle has a file with one of the extensions
    [.babel], [.jsx], [.tsx] and the scripts of its manifest do not include
    both [react] and [react-dom], resolution returns the manifest with the
    missing libraries appended to the scripts, without repetitions, printed
    with an indentation of two spaces (every member of the manifest on a
    line of its own after two spaces, every library after four), and
    writes that text to the manifest file once; a further resolution on
    the stored text writes nothing. *)
Theorem react_libraries_injected
        (gist : Gist) (manifestFile : GistFile) (text : string)
        (m : list (string * value)) (l : list value) :
  (exists name, In name (keys (files gist))
                /\ In (Path.extname name) REACT_EXTENSIONS) ->
  lookup PLAYGROUND_FILE (files gist) = Some manifestFile ->
  content manifestFile = Some text ->
  parse text = Return (Obj m) ->
  obj_get "scripts" m = Some (Arr l) ->
  arr_includes (Str "react") l && arr_includes (Str "react-dom") l = false ->
  let scripts :=
    set_spread [] l
    ++ filter (fun r => negb (arr_includes r l)) [Str "react"; Str "react-dom"] in
  let rewritten := Obj (obj_set "scripts" (Arr scripts) m) in
  getManifestContent gist
  = (Return (Some (stringify rewritten)),
     [fsWriteFile (id gist) PLAYGROUND_FILE (stringify rewritten)])
  /\ parse (stringify rewritten) = Return rewritten
  /\ map fst (obj_set "scripts" (Arr scripts) m) = map fst m
  /\ NoDup (strings scripts)
  /\ In "react" (strings scripts) /\ In "react-dom" (strings scripts)
  /\ getManifestContent (persistAll gist (snd (getManifestContent gist)))
     = (Return (Some (stringify rewritten)), [])
  /\ stringify rewritten
     = indentedMembers
         (map (fun kv => (fst kv, stringify_at 2 (snd kv)))
              (obj_set "scripts" (Arr scripts) m))
  /\ (forall names,
         scripts = map Str names ->
         stringify_at 2 (Arr scripts) = indentedNames names).
Proof.
  intros Hreact Hfile Htext Hparse Hget Hinc scripts rewritten.
  apply includesReactFiles_spec in Hreact.
  assert (H : rewrites gist m l).
  { exists manifestFile, text.
    split; [assumption|]. split; [assumption|]. split; [assumption|].
    split; [assumption|]. split; [assumption|].
    cbn [forallb REACT_SCRIPTS]. rewrite andb_true_r. exact Hinc. }
  change scripts with (injectedScripts l).
  change rewritten with (injectedManifest m l).
  pose proof (getManifestContent_rewrites gist m l H) as Hrun.
  split; [|split; [|split; [|split; [|split; [|split; [|split; [|split]]]]]]].
  - exact Hrun.
  - apply (injectedManifest_roundtrip gist m l H).
  - apply (obj_set_keys_present _ _ _ _ Hget).
  - apply injectedScripts_NoDup.
  - apply In_strings, injectedScripts_includes. left. reflexivity.
  - apply In_strings, injectedScripts_includes. right. left. reflexivity.
  - rewrite getManifestContent_twice, Hrun. reflexivity.
  - apply stringify_members.
  - intros names ->. apply stringify_names.
Qed.

Lemma react_libraries_injected_witness :
  getManifestContent jsxBundle
  = (Return (Some injectedText), [fsWriteFile "g" PLAYGROUND_FILE injectedText])
  /\ parse injectedText
     = Return (Obj [("scripts", Arr [Str "lodash"; Str "react"; Str "react-dom"])])
  /\ parse injectedCompact = parse injectedText
  /\ injectedText
     = indentedMembers
         [("scripts", indentedNames ["lodash"; "react"; "react-dom"])].
Proof.
  destruct (react_libraries_injected
              jsxBundle (fileOf lodashManifest) lodashManifest
              [("scripts", Arr [Str "lodash"])] [Str "lodash"]
              (ex_intro _ "script.jsx"
                        (conj (or_introl eq_refl)
                              (or_intror (or_introl eq_refl))))
              eq_refl eq_refl eq_refl eq_refl eq_refl)
    as (Hrun & Hparse & _ & _ & _ & _ & _ & Hlayout & Hnames).
  split; [exact Hrun|]. split; [exact Hparse|]. split; [reflexivity|].
  cbn [obj_set String.eqb Ascii.eqb Bool.eqb map fst snd] in Hlayout.
  rewrite (Hnames ["lodash"; "react"; "react-dom"] eq_refl) in Hlayout.
  exact Hlayout.
Defined.

(** Claim C3, as stated, fails: a manifest whose scripts already include
    [react] and [react-dom] is returned as it is, with the repetitions it
    has. *)
Lemma unchanged_manifest_keeps_duplicates :
  getManifestContent repeatedBundle = (Return (Some repeatedManifest), [])
  /\ parse repeatedManifest
     = Return (Obj [("scripts", Arr [Str "react"; Str "react"; Str "react-dom"])])
  /\ ~ NoDup (strings [Str "react"; Str "react"; Str "react-dom"]).
Proof.
  split; [reflexivity|]. split; [reflexivity|].
  intros H. inversion H as [|? ? Hnotin _]; subst.
  apply Hnotin. left. reflexivity.
Qed.

(** Claim C3, amended: resolution is idempotent.  For every bundle, a
    second resolution, on the bundle with the write of the first one
    stored, has the outcome of the first and writes nothing; and whenever
    resolution rewrites the manifest, the scripts of the text it writes
    hold [react] and [react-dom] and no library twice. *)
Theorem manifest_resolution_idempotent (gist : Gist) :
  let first := getManifestContent gist in
  getManifestContent (persistAll gist (snd first)) = (fst first, [])
  /\ forall gistId fileName text,
       In (fsWriteFile gistId fileName text) (snd first) ->
       fst first = Return (Some text)
       /\ exists m l,
            parse text = Return (Obj m)
            /\ obj_get "scripts" m = Some (Arr l)
            /\ NoDup (strings l)
            /\ In "react" (strings l) /\ In "react-dom" (strings l).
Proof.
  cbv zeta. split; [apply getManifestContent_twice|].
  intros gistId fileName text Hin.
  destruct (getManifestContent_cases gist) as [Hnone|(m & l & H)].
  - rewrite Hnone in Hin. destruct Hin.
  - rewrite (getManifestContent_rewrites gist m l H) in Hin |- *.
    destruct Hin as [[= _ _ <-]|[]]. split; [reflexivity|].
    exists (obj_set "scripts" (Arr (injectedScripts l)) m), (injectedScripts l).
    split; [apply (injectedManifest_roundtrip gist m l H)|].
    split; [apply obj_get_set|].
    split; [apply injectedScripts_NoDup|].
    split; apply In_strings, injectedScripts_includes;
      [left|right; left]; reflexivity.
Qed.

Lemma manifest_resolution_idempotent_witness :
  getManifestContent (persistAll jsxBundle (snd (getManifestContent jsxBundle)))
  = (Return (Some injectedText), []).
Proof. exact (proj1 (manifest_resolution_idempotent jsxBundle)). Defined.

(** Next to a React file, a manifest that [JSON.parse] rejects makes
    resolution throw, and [openPlayground] with it, before any host call. *)
Lemma getManifestContent_throws
      (gist : Gist) (manifestFile : GistFile) (text : string) (e : exn) :
  includesReactFiles gist = true ->
  lookup PLAYGROUND_FILE (files gist) = Some manifestFile ->
  content manifestFile = Some text ->
  parse text = Throw e ->
  getManifestContent gist = (Throw e, []).
Proof.
  intros Hreact Hfile Htext Hparse. unfold getManifestContent.
  rewrite Hfile, Hreact, Htext. cbn [parse_js]. rewrite Hparse. reflexivity.
Qed.

Lemma openPlayground_throws
      {engines : Engines} {host : Host}
      (config : Config) (gist : Gist) (e : exn) :
  getManifestContent gist = (Throw e, []) ->
  openPlayground config gist = (Throw e, []).
Proof. intros H. unfold openPlayground. rewrite H. reflexivity. Qed.

(** A bundle without React files: resolution hands the manifest text back
    unread, whatever it holds. *)
Lemma getManifestContent_plain (gist : Gist) :
  includesReactFiles gist = false ->
  getManifestContent gist
  = (Return (match lookup PLAYGROUND_FILE (files gist) with
             | Some manifestFile => content manifestFile
             | None => Some EmptyString
             end), []).
Proof.
  intros H. unfold getManifestContent. rewrite H.
  destruct (lookup _ _); reflexivity.
Qed.

(** Claim C1 does not hold of the code.  A manifest that is not JSON, or
    that has no [scripts], next to a React file makes [getManifestContent]
    throw, and [openPlayground] with it, before anything is rendered; the
    change listener throws on a manifest that is not JSON once it has
    passed the text on, and the script is not patched.  Without a React
    file, [openPlayground] catches the same parse failure and goes on with
    the empty manifest. *)
Theorem manifest_parse_failure_escapes :
  getManifestContent brokenManifestBundle = (Throw SyntaxError, [])
  /\ getManifestContent noScriptsBundle = (Throw TypeError, [])
  /\ @openPlayground identityEngines exampleHost exampleConfig
                     brokenManifestBundle
     = (Throw SyntaxError, [])
  /\ snd (@onDidChangeTextDocument identityEngines webSession
                                   (docOf PLAYGROUND_FILE "{"))
     = (Throw SyntaxError, [updateManifest (Some "{") (Some true)])
  /\ (exists session calls,
        @openPlayground identityEngines exampleHost exampleConfig
                        plainBrokenBundle
        = (Return session, calls)
        /\ s_manifest session = Obj []
        /\ In (updateHTML "body { }" None) calls
        /\ In rebuildWebview calls).
Proof.
  split; [vm_compute; reflexivity|].
  split; [vm_compute; reflexivity|].
  split; [vm_compute; reflexivity|].
  split; [vm_compute; reflexivity|].
  eexists. eexists. split; [vm_compute; reflexivity|].
  split; [reflexivity|]. split; [|right]; simpl; tauto.
Qed.

(* ===================================================================== *)
(** * Part III: further properties                                          *)
(* ===================================================================== *)

(** ** Manifest resolution, continued *)

(** Property X1: manifest resolution either writes nothing, and then what
    it returns is the stored manifest text as it is (the empty text when
    the bundle has no manifest), or it writes once, to the manifest file
    of its own bundle, the text that it returns; it writes only when the
    bundle holds a React file. *)
Theorem resolution_writes_only_the_manifest (gist : Gist) :
  let r := getManifestContent gist in
  (snd r = []
   /\ forall c, fst r = Return c ->
                c = match lookup PLAYGROUND_FILE (files gist) with
                    | Some manifestFile => content manifestFile
                    | None => Some EmptyString
                    end)
  \/ (exists text,
        snd r = [fsWriteFile (id gist) PLAYGROUND_FILE text]
        /\ fst r = Return (Some text)
        /\ includesReactFiles gist = true
        /\ lookup PLAYGROUND_FILE (files gist) <> None).
Proof.
  cbv zeta. unfold getManifestContent.
  destruct (lookup PLAYGROUND_FILE (files gist)) as [manifestFile|] eqn:Hfile;
    [|left; split; [reflexivity|intros c [= <-]; reflexivity]].
  destruct (includesReactFiles gist) eqn:Hreact;
    [|left; split; [reflexivity|intros c [= <-]; reflexivity]].
  destruct (content manifestFile) as [text|] eqn:Htext;
    [|left; split; [reflexivity|intros c [=]]].
  cbn [parse_js].
  destruct (parse text) as [v| |] eqn:Hparse;
    try (left; split; [reflexivity|intros c [=]]).
  cbn [lift bind fst snd app].
  destruct v as [ |b|s|l0|m];
    try (left; split; [reflexivity|intros c [=]]).
  cbn [get_prop].
  destruct (obj_get "scripts" m) as [[ |b|s|l|m']|] eqn:Hget;
    try (left; split; [reflexivity|intros c [=]]).
  - cbn [includesReactScripts lift bind fst snd app].
    destruct (forallb _ REACT_SCRIPTS);
      left; (split; [reflexivity|]); [intros c [= <-]; reflexivity|intros c [=]].
  - cbn [includesReactScripts lift bind fst snd app].
    destruct (forallb (fun s => arr_includes (Str s) l) REACT_SCRIPTS) eqn:Hinc.
    + left. split; [reflexivity|intros c [= <-]; reflexivity].
    + right. eexists. split; [reflexivity|]. split; [reflexivity|].
      split; [reflexivity|discriminate].
Qed.

Lemma same_value_zero_eq x y : same_value_zero x y = true -> x = y.
Proof.
  destruct x, y; simpl; try discriminate; try reflexivity.
  - intros H. apply Bool.eqb_prop in H. congruence.
  - intros H. apply String.eqb_eq in H. congruence.
Qed.

Lemma arr_includes_In x l : arr_includes x l = true -> In x l.
Proof.
  unfold arr_includes. intros H. apply existsb_exists in H as (y & Hy & E).
  apply same_value_zero_eq in E. subst. assumption.
Qed.

(** An array without equal entries is its own set. *)
Lemma set_spread_NoDup l : forall seen,
  NoDup l -> (forall x, In x l -> ~ In x seen) ->
  set_spread seen l = l.
Proof.
  induction l as [|y r IH]; intros seen Hnd Hout; simpl; [reflexivity|].
  inversion Hnd as [|? ? Hy Hr]; subst.
  destruct (arr_includes y seen) eqn:E.
  - apply arr_includes_In in E. exfalso. apply (Hout y); [left; reflexivity|auto].
  - f_equal. apply IH; [assumption|].
    intros x Hx Hin. apply in_app_or in Hin as [Hin|[<-|[]]].
    + apply (Hout x); [right; assumption|assumption].
    + contradiction.
Qed.

Lemma obj_get_set_other k k' v m :
  k <> k' -> obj_get k (obj_set k' v m) = obj_get k m.
Proof.
  intros Hne. induction m as [|[k0 v0] m IH]; simpl.
  - destruct (String.eqb_spec k k'); [contradiction|reflexivity].
  - destruct (String.eqb_spec k' k0) as [->|Hk0]; simpl.
    + destruct (String.eqb_spec k k0); [contradiction|reflexivity].
    + destruct (String.eqb k k0); [reflexivity|exact IH].
Qed.

(** Property X2: a rewrite changes nothing but the scripts.  The text
    written parses to the manifest with the same keys in the same order
    and the same value under every key but [scripts]; the new scripts are
    the old ones, each at its first place, followed by the libraries that
    were missing, and when the scripts had no entry twice they are all
    there. *)
Theorem injection_keeps_fields_and_order
        (gist : Gist) (manifestFile : GistFile) (text : string)
        (m : list (string * value)) (l : list value) :
  includesReactFiles gist = true ->
  lookup PLAYGROUND_FILE (files gist) = Some manifestFile ->
  content manifestFile = Some text ->
  parse text = Return (Obj m) ->
  obj_get "scripts" m = Some (Arr l) ->
  arr_includes (Str "react") l && arr_includes (Str "react-dom") l = false ->
  exists written m',
    getManifestContent gist
    = (Return (Some written), [fsWriteFile (id gist) PLAYGROUND_FILE written])
    /\ parse written = Return (Obj m')
    /\ map fst m' = map fst m
    /\ (forall k, k <> "scripts" -> obj_get k m' = obj_get k m)
    /\ obj_get "scripts" m'
       = Some (Arr (set_spread [] l
                    ++ filter (fun r => negb (arr_includes r l))
                              [Str "react"; Str "react-dom"]))
    /\ (NoDup l -> set_spread [] l = l).
Proof.
  intros Hreact Hfile Htext Hparse Hget Hinc.
  assert (H : rewrites gist m l).
  { exists manifestFile, text.
    split; [assumption|]. split; [assumption|]. split; [assumption|].
    split; [assumption|]. split; [assumption|].
    cbn [forallb REACT_SCRIPTS]. rewrite andb_true_r. exact Hinc. }
  exists (stringify (injectedManifest m l)),
         (obj_set "scripts" (Arr (injectedScripts l)) m).
  split; [apply (getManifestContent_rewrites gist m l H)|].
  split; [apply (injectedManifest_roundtrip gist m l H)|].
  split; [apply (obj_set_keys_present _ _ _ _ Hget)|].
  split; [intros k Hk; apply obj_get_set_other, Hk|].
  split; [rewrite obj_get_set; reflexivity|].
  intros Hnd. apply set_spread_NoDup; [assumption|intros ? ? []].
Qed.

Lemma injection_keeps_fields_and_order_witness :
  exists written m',
    getManifestContent jsxBundle
    = (Return (Some written), [fsWriteFile "g" PLAYGROUND_FILE written])
    /\ parse written = Return (Obj m')
    /\ map fst m' = ["scripts"]
    /\ (forall k, k <> "scripts"
                  -> obj_get k m' = obj_get k [("scripts", Arr [Str "lodash"])])
    /\ obj_get "scripts" m'
       = Some (Arr [Str "lodash"; Str "react"; Str "react-dom"])
    /\ (NoDup [Str "lodash"] -> set_spread [] [Str "lodash"] = [Str "lodash"]).
Proof.
  exact (injection_keeps_fields_and_order
           jsxBundle (fileOf lodashManifest) lodashManifest
           [("scripts", Arr [Str "lodash"])] [Str "lodash"]
           eq_refl eq_refl eq_refl eq_refl eq_refl eq_refl).
Defined.

Section ScriptAfterInjection.
Context {engines : Engines}.

(** Property X3: once resolution has rewritten the manifest, the script is
    transpiled with JSX enabled whatever its extension: with the manifest
    that the written text parses to, [getScriptContent] hands every text
    that is not blank to the TypeScript transpiler, with [jsx] set. *)
Theorem injected_manifest_enables_jsx
        (gist : Gist) (gistId fileName written : string)
        (document : TextDocument) :
  In (fsWriteFile gistId fileName written) (snd (getManifestContent gist)) ->
  Trim.is_blank (getText document) = false ->
  let options := mkOptions true "ES2018" (Some JsxReact) in
  exists manifest,
    parse written = Return manifest
    /\ getScriptContent document (Some manifest)
       = (Return (typescript_transpile (getText document) options),
          [callTypescript (getText document) options]).
Proof.
  intros Hin Hblank options.
  destruct (getManifestContent_cases gist) as [Hnone|(m & l & H)];
    [rewrite Hnone in Hin; destruct Hin|].
  rewrite (getManifestContent_rewrites gist m l H) in Hin.
  destruct Hin as [[= _ _ <-]|[]].
  exists (injectedManifest m l).
  split; [apply (injectedManifest_roundtrip gist m l H)|].
  unfold getScriptContent. rewrite Hblank.
  assert (Hjsx : includesJsx (Some (injectedManifest m l)) = Return true).
  { unfold includesJsx, injectedManifest.
    cbn [truthy negb get_prop obind]. rewrite obj_get_set.
    cbn [truthy negb].
    rewrite (injectedScripts_includes l "react" (or_introl eq_refl)).
    reflexivity. }
  rewrite Hjsx. cbn [lift bind fst snd app].
  rewrite orb_true_r. reflexivity.
Qed.

End ScriptAfterInjection.

Lemma injected_manifest_enables_jsx_witness :
  exists manifest,
    parse injectedText = Return manifest
    /\ @getScriptContent identityEngines (docOf "script.js" "let x = <p/>;")
                         (Some manifest)
       = (Return (Some "let x = <p/>;"),
          [callTypescript "let x = <p/>;"
                          (mkOptions true "ES2018" (Some JsxReact))]).
Proof.
  assert (Hin : In (fsWriteFile "g" PLAYGROUND_FILE injectedText)
                   (snd (getManifestContent jsxBundle)))
    by (vm_compute; left; reflexivity).
  exact (@injected_manifest_enables_jsx
           identityEngines jsxBundle "g" PLAYGROUND_FILE injectedText
           (docOf "script.js" "let x = <p/>;") Hin eq_refl).
Defined.

(** ** New playgrounds *)

Lemma wf_strings (l : list string) : forallb wf (map Str l) = true.
Proof. induction l; simpl; auto. Qed.

Lemma manifestOfDefaults_roundtrip (d : ManifestDefaults) :
  parse (stringify (manifestOfDefaults d)) = Return (manifestOfDefaults d).
Proof.
  apply parse_stringify. unfold manifestOfDefaults.
  rewrite wf_Obj. cbn [keys_ok wf_members forallb snd wf].
  rewrite !wf_strings. reflexivity.
Qed.

Lemma lookup_In_values {A} k (v : A) table :
  lookup k table = Some v -> In (k, v) table.
Proof.
  induction table as [|[k' v'] table IH]; simpl; [discriminate|].
  destruct (String.eqb_spec k k') as [->|]; [intros [= ->]; auto|auto].
Qed.

(** The tables agree with the extension lists: a script language is a
    React language exactly when its file is a React file. *)
Lemma script_language_react key extension :
  lookup key ScriptLanguageTable = Some extension ->
  isReactFile (SCRIPT_BASE_NAME ++ extension) = isReactLanguage key.
Proof.
  intros H. apply lookup_In_values in H. simpl in H.
  repeat (destruct H as [[= <- <-]|H]; [reflexivity|]). destruct H.
Qed.

Lemma isReactLanguage_known key :
  isReactLanguage key = true -> lookup key ScriptLanguageTable <> None.
Proof.
  unfold isReactLanguage. intros H. apply mem_In in H. simpl in H.
  repeat (destruct H as [<-|H]; [discriminate|]). destruct H.
Qed.

Lemma Return_inj {A} (a b : A) : Return a = Return b -> a = b.
Proof. intros [= H]. exact H. Qed.

Lemma languageFileName_names base table key name :
  languageFileName base table key = Return name ->
  roleFileNames true base table key = [name].
Proof.
  unfold languageFileName, roleFileNames.
  destruct (lookup key table); [intros [= <-]; reflexivity|].
  destruct (Str.mem key objectPrototypeKeys); [discriminate|].
  intros [= <-]. reflexivity.
Qed.

(** What a call yields, when it returns. *)
Lemma generateNewPlaygroundFiles_returns settings defaults generated defaults' :
  generateNewPlaygroundFiles settings defaults = Return (generated, defaults') ->
  let react := includeScript settings
               && isReactLanguage (scriptLanguage settings) in
  defaults' = mkDefaults (defaultScripts defaults
                          ++ (if react then REACT_SCRIPTS else []))
                         (defaultStyles defaults)
  /\ map filename generated
     = roleFileNames (includeScript settings) SCRIPT_BASE_NAME
                     ScriptLanguageTable (scriptLanguage settings)
       ++ roleFileNames (includeStylesheet settings) STYLESHEET_BASE_NAME
                        StylesheetLanguageTable (stylesheetLanguage settings)
       ++ roleFileNames (includeMarkup settings) MARKUP_BASE_NAME
                        MarkupLanguageTable (markupLanguage settings)
       ++ [PLAYGROUND_FILE]
  /\ exists roleFiles,
       generated
       = roleFiles
         ++ [mkNewFile PLAYGROUND_FILE
                       (Some (stringify (manifestOfDefaults defaults')))]
       /\ Forall (fun f => newContent f = None) roleFiles.
Proof.
  unfold generateNewPlaygroundFiles. intros H.
  apply obind_Return in H as ([scriptFiles d1] & Hscript & H).
  apply obind_Return in H as (afterStylesheet & Hstyle & H).
  apply obind_Return in H as (afterMarkup & Hmarkup & H).
  cbn [fst snd] in *. injection H as <- <-.
  assert (Hs : d1 = mkDefaults
                      (defaultScripts defaults
                       ++ (if includeScript settings
                              && isReactLanguage (scriptLanguage settings)
                           then REACT_SCRIPTS else []))
                      (defaultStyles defaults)
               /\ map filename scriptFiles
                  = roleFileNames (includeScript settings) SCRIPT_BASE_NAME
                                  ScriptLanguageTable (scriptLanguage settings)
               /\ Forall (fun f => newContent f = None) scriptFiles).
  { destruct (includeScript settings); cbn [andb].
    - apply obind_Return in Hscript as (name & Hname & Hscript).
      injection Hscript as <- <-.
      rewrite (languageFileName_names _ _ _ _ Hname).
      split; [|split; [reflexivity|repeat constructor]].
      unfold languageFileName in Hname.
      destruct (lookup (scriptLanguage settings) ScriptLanguageTable)
        as [extension|] eqn:E.
      + apply Return_inj in Hname. subst name.
        rewrite (script_language_react _ _ E).
        destruct (isReactLanguage (scriptLanguage settings)); [reflexivity|].
        rewrite app_nil_r. destruct defaults; reflexivity.
      + destruct (Str.mem _ objectPrototypeKeys); [discriminate|].
        apply Return_inj in Hname. subst name.
        destruct (isReactLanguage (scriptLanguage settings)) eqn:R.
        * apply isReactLanguage_known in R. contradiction.
        * change (isReactFile (SCRIPT_BASE_NAME ++ "undefined")) with false.
          cbv iota. rewrite app_nil_r. destruct defaults; reflexivity.
    - injection Hscript as <- <-. rewrite app_nil_r.
      destruct defaults. repeat split. constructor. }
  destruct Hs as (Hd1 & Hnames1 & Hnone1).
  assert (Hst : map filename afterStylesheet
                = map filename scriptFiles
                  ++ roleFileNames (includeStylesheet settings)
                       STYLESHEET_BASE_NAME StylesheetLanguageTable
                       (stylesheetLanguage settings)
                /\ Forall (fun f => newContent f = None) afterStylesheet).
  { destruct (includeStylesheet settings).
    - apply obind_Return in Hstyle as (name & Hname & Hstyle).
      injection Hstyle as <-.
      rewrite (languageFileName_names _ _ _ _ Hname), map_app.
      split; [reflexivity|]. apply Forall_app. split; [assumption|].
      repeat constructor.
    - injection Hstyle as <-. rewrite app_nil_r. auto. }
  destruct Hst as (Hnames2 & Hnone2).
  assert (Hm : map filename afterMarkup
               = map filename afterStylesheet
                 ++ roleFileNames (includeMarkup settings)
                      MARKUP_BASE_NAME MarkupLanguageTable
                      (markupLanguage settings)
               /\ Forall (fun f => newContent f = None) afterMarkup).
  { destruct (includeMarkup settings).
    - apply obind_Return in Hmarkup as (name & Hname & Hmarkup).
      injection Hmarkup as <-.
      rewrite (languageFileName_names _ _ _ _ Hname), map_app.
      split; [reflexivity|]. apply Forall_app. split; [assumption|].
      repeat constructor.
    - injection Hmarkup as <-. rewrite app_nil_r. auto. }
  destruct Hm as (Hnames3 & Hnone3).
  cbv zeta. split; [exact Hd1|]. split.
  - rewrite map_app, Hnames3, Hnames2, Hnames1, <- !app_assoc. reflexivity.
  - exists afterMarkup. auto.
Qed.

(** Property X4: the manifest of a new playground is a shallow copy of
    [DEFAULT_MANIFEST], so [react] and [react-dom], pushed for a React
    script language, land in the scripts array of [DEFAULT_MANIFEST]
    itself and stay there for the calls that follow.  The manifest file,
    the last file generated and the only one with content, lists the array
    as it is after the call, with what earlier calls have pushed. *)
Theorem default_manifest_keeps_pushed_scripts
        (settings : NewPlaygroundSettings) (defaults defaults' : ManifestDefaults)
        (generated : list NewFile) :
  generateNewPlaygroundFiles settings defaults = Return (generated, defaults') ->
  let react := includeScript settings
               && isReactLanguage (scriptLanguage settings) in
  defaultScripts defaults'
  = defaultScripts defaults ++ (if react then ["react"; "react-dom"] else [])
  /\ defaultStyles defaults' = defaultStyles defaults
  /\ exists roleFiles manifestText,
       generated = roleFiles ++ [mkNewFile PLAYGROUND_FILE (Some manifestText)]
       /\ Forall (fun f => newContent f = None) roleFiles
       /\ parse manifestText
          = Return (Obj [("scripts", Arr (map Str (defaultScripts defaults')));
                         ("styles", Arr (map Str (defaultStyles defaults')))]).
Proof.
  intros H react.
  destruct (generateNewPlaygroundFiles_returns _ _ _ _ H)
    as (Hd & _ & roleFiles & Hgen & Hnone).
  fold react in Hd. split; [rewrite Hd; reflexivity|].
  split; [rewrite Hd; reflexivity|].
  exists roleFiles, (stringify (manifestOfDefaults defaults')).
  split; [exact Hgen|]. split; [exact Hnone|].
  apply manifestOfDefaults_roundtrip.
Qed.

Lemma default_manifest_keeps_pushed_scripts_witness :
  exists generated defaults',
    generateNewPlaygroundFiles
      (mkSettings true "javascriptreact" true "css" true "html")
      (mkDefaults ["react"; "react-dom"] [])
    = Return (generated, defaults')
    /\ defaultScripts defaults' = ["react"; "react-dom"; "react"; "react-dom"].
Proof.
  eexists. eexists. split; [reflexivity|].
  exact (proj1 (default_manifest_keeps_pushed_scripts
                  (mkSettings true "javascriptreact" true "css" true "html")
                  (mkDefaults ["react"; "react-dom"] []) _ _ eq_refl)).
Defined.

Ltac table_cases E :=
  apply lookup_In_values in E; simpl in E;
  repeat (destruct E as [[= _ <-]|E]; [try reflexivity|]);
  try destruct E.

(** Property X5: the files of a new playground are found again by role.
    In a bundle whose keys are the generated file names,
    [getGistFileOfType] gives, for each role, the file generated for it
    when the role is included and its language is a key of the role's
    table, and nothing otherwise. *)
Theorem generated_files_resolve
        (settings : NewPlaygroundSettings) (defaults defaults' : ManifestDefaults)
        (generated : list NewFile) (gist : Gist) :
  generateNewPlaygroundFiles settings defaults = Return (generated, defaults') ->
  keys (files gist) = map filename generated ->
  getGistFileOfType gist script
  = roleFile (includeScript settings) SCRIPT_BASE_NAME
             ScriptLanguageTable (scriptLanguage settings)
  /\ getGistFileOfType gist stylesheet
     = roleFile (includeStylesheet settings) STYLESHEET_BASE_NAME
                StylesheetLanguageTable (stylesheetLanguage settings)
  /\ getGistFileOfType gist markup
     = roleFile (includeMarkup settings) MARKUP_BASE_NAME
                MarkupLanguageTable (markupLanguage settings).
Proof.
  intros H Hkeys.
  destruct (generateNewPlaygroundFiles_returns _ _ _ _ H) as (_ & Hnames & _).
  unfold getGistFileOfType. rewrite Hkeys, Hnames.
  unfold roleFileNames, roleFile.
  destruct (includeScript settings), (includeStylesheet settings),
    (includeMarkup settings);
    try (destruct (lookup (scriptLanguage settings) ScriptLanguageTable)
           as [e1|] eqn:E1; [table_cases E1|]);
    try (destruct (lookup (stylesheetLanguage settings) StylesheetLanguageTable)
           as [e2|] eqn:E2; [table_cases E2|]);
    try (destruct (lookup (markupLanguage settings) MarkupLanguageTable)
           as [e3|] eqn:E3; [table_cases E3|]);
    repeat split.
Qed.

Lemma generated_files_resolve_witness :
  getGistFileOfType starterBundle script = Some "script.tsx"
  /\ getGistFileOfType starterBundle stylesheet = Some "style.scss"
  /\ getGistFileOfType starterBundle markup = Some "index.pug".
Proof.
  exact (generated_files_resolve
           starterSettings (mkDefaults [] []) _ _ starterBundle
           eq_refl eq_refl).
Defined.

Lemma react_among_role_files key included :
  existsb isReactFile
          (roleFileNames included SCRIPT_BASE_NAME ScriptLanguageTable key)
  = included && isReactLanguage key.
Proof.
  unfold roleFileNames. destruct included; [|reflexivity].
  destruct (lookup key ScriptLanguageTable) as [extension|] eqn:E.
  - cbn [existsb andb]. rewrite (script_language_react _ _ E).
    apply orb_false_r.
  - destruct (isReactLanguage key) eqn:R; [|reflexivity].
    apply isReactLanguage_known in R. contradiction.
Qed.

Lemma no_react_among_stylesheets key included :
  existsb isReactFile
          (roleFileNames included STYLESHEET_BASE_NAME
                         StylesheetLanguageTable key) = false.
Proof.
  unfold roleFileNames. destruct included; [|reflexivity].
  destruct (lookup key StylesheetLanguageTable) as [e|] eqn:E;
    [table_cases E|reflexivity].
Qed.

Lemma no_react_among_markup key included :
  existsb isReactFile
          (roleFileNames included MARKUP_BASE_NAME MarkupLanguageTable key)
  = false.
Proof.
  unfold roleFileNames. destruct included; [|reflexivity].
  destruct (lookup key MarkupLanguageTable) as [e|] eqn:E;
    [table_cases E|reflexivity].
Qed.

(** Property X6: opening a playground that was just generated never
    rewrites its manifest.  In a bundle with the generated file names and
    the generated manifest, resolution returns the manifest text as it was
    generated and writes nothing: for a React script language the
    libraries are in it already. *)
Theorem generated_manifest_needs_no_injection
        (settings : NewPlaygroundSettings) (defaults defaults' : ManifestDefaults)
        (generated : list NewFile) (manifestText : string) (gist : Gist) :
  generateNewPlaygroundFiles settings defaults = Return (generated, defaults') ->
  In (mkNewFile PLAYGROUND_FILE (Some manifestText)) generated ->
  keys (files gist) = map filename generated ->
  lookup PLAYGROUND_FILE (files gist) = Some (mkFile (Some manifestText)) ->
  getManifestContent gist = (Return (Some manifestText), []).
Proof.
  intros H Hin Hkeys Hfile.
  destruct (generateNewPlaygroundFiles_returns _ _ _ _ H)
    as (Hd & Hnames & roleFiles & Hgen & Hnone).
  assert (Htext : manifestText = stringify (manifestOfDefaults defaults')).
  { rewrite Hgen in Hin. apply in_app_or in Hin as [Hin|[[= ->]|[]]];
      [|reflexivity].
    rewrite Forall_forall in Hnone. apply Hnone in Hin. discriminate. }
  assert (Hreact : includesReactFiles gist
                   = includeScript settings
                     && isReactLanguage (scriptLanguage settings)).
  { unfold includesReactFiles. rewrite Hkeys, Hnames, !existsb_app.
    rewrite react_among_role_files, no_react_among_stylesheets,
      no_react_among_markup.
    cbn [existsb]. change (isReactFile PLAYGROUND_FILE) with false.
    rewrite !orb_false_r. reflexivity. }
  destruct (includeScript settings && isReactLanguage (scriptLanguage settings))
    eqn:R.
  - unfold getManifestContent. rewrite Hfile, Hreact. cbn [content parse_js].
    rewrite Htext, manifestOfDefaults_roundtrip.
    cbn [lift bind fst snd app manifestOfDefaults get_prop obj_get String.eqb
         Ascii.eqb Bool.eqb includesReactScripts].
    replace (forallb _ REACT_SCRIPTS) with true; [reflexivity|].
    symmetry. rewrite Hd. cbn [defaultScripts forallb REACT_SCRIPTS].
    rewrite !map_app, !arr_includes_app. cbn [map arr_includes existsb].
    cbn [same_value_zero String.eqb Ascii.eqb Bool.eqb].
    rewrite !orb_true_r. reflexivity.
  - rewrite (getManifestContent_plain gist Hreact), Hfile. reflexivity.
Qed.

Lemma generated_manifest_needs_no_injection_witness :
  getManifestContent starterBundle = (Return (Some starterManifestText), []).
Proof.
  exact (generated_manifest_needs_no_injection
           starterSettings (mkDefaults [] []) _ _ starterManifestText
           starterBundle eq_refl
           (or_intror (or_intror (or_intror (or_introl eq_refl))))
           eq_refl eq_refl).
Defined.

(** ** The adapters, continued *)

Lemma lower_ascii_dot c :
  Ascii.eqb (Str.lower_ascii c) Path.dot = Ascii.eqb c Path.dot.
Proof. destruct c as [[] [] [] [] [] [] [] []]; reflexivity. Qed.

Lemma ext_step_lower i c st :
  Path.ext_step i (Str.lower_ascii c) st = Path.ext_step i c st.
Proof.
  unfold Path.ext_step. rewrite lower_ascii_slash, lower_ascii_dot.
  reflexivity.
Qed.

Lemma scan_down_ext_lower l : forall i st,
  Path.scan_down Path.ext_step (map Str.lower_ascii l) i st
  = Path.scan_down Path.ext_step l i st.
Proof.
  induction l as [|c l IH]; intros i st; simpl; [reflexivity|].
  rewrite ext_step_lower. apply IH.
Qed.

(** Lower-casing and [extname] commute. *)
Lemma extname_toLowerCase p :
  Path.extname (Str.toLowerCase p) = Str.toLowerCase (Path.extname p).
Proof.
  unfold Path.extname.
  rewrite list_toLowerCase, <- map_rev, scan_down_ext_lower,
    length_toLowerCase.
  destruct (_ || _); [reflexivity|].
  unfold Str.slice. apply substring_toLowerCase.
Qed.

Lemma lower_ascii_idem c : Str.lower_ascii (Str.lower_ascii c) = Str.lower_ascii c.
Proof. destruct c as [[] [] [] [] [] [] [] []]; reflexivity. Qed.

Lemma toLowerCase_idem s : Str.toLowerCase (Str.toLowerCase s) = Str.toLowerCase s.
Proof.
  induction s as [|c s IH]; simpl; [reflexivity|].
  rewrite lower_ascii_idem, IH. reflexivity.
Qed.

(** The extension that the adapters dispatch on depends on the uri only up
    to ASCII case. *)
Lemma dispatch_extension_lower u u' :
  Str.toLowerCase u = Str.toLowerCase u' ->
  Str.toLowerCase (Path.extname u) = Str.toLowerCase (Path.extname u').
Proof.
  intros H. rewrite <- !extname_toLowerCase, H. reflexivity.
Qed.

Lemma includesJsx_throws (manifest : jsval) (e : exn) :
  includesJsx manifest = Throw e ->
  e = TypeError
  /\ exists m,
       manifest = Some (Obj m)
       /\ (obj_get "scripts" m = Some (Bool true)
           \/ exists o, obj_get "scripts" m = Some (Obj o)).
Proof.
  unfold includesJsx.
  destruct manifest as [[ |b|s|l|m]|]; cbn [truthy negb get_prop obind];
    try discriminate.
  - destruct b; discriminate.
  - destruct (negb (negb (s =? EmptyString)%string)); discriminate.
  - destruct (obj_get "scripts" m) as [[ |b|s|l|o]|] eqn:Hget;
      cbn [truthy negb]; try discriminate.
    + destruct b; [|discriminate]. intros [= <-]. split; [reflexivity|].
      exists m. auto.
    + destruct (negb (negb (s =? EmptyString)%string)); discriminate.
    + intros [= <-]. split; [reflexivity|]. exists m.
      split; [reflexivity|]. right. exists o. assumption.
Qed.

Section AdapterDispatch.
Context {engines : Engines}.

(** Property X7: the adapters choose the dialect by the extension of the
    document's uri without regard to ASCII case.  Two documents with the
    same text whose uris differ in case only get the same result and the
    same transpiler call from each adapter. *)
Theorem adapters_ignore_case_of_extension
        (document document' : TextDocument) (manifest : jsval) :
  getText document = getText document' ->
  Str.toLowerCase (uri_toString document)
  = Str.toLowerCase (uri_toString document') ->
  getScriptContent document manifest = getScriptContent document' manifest
  /\ getMarkupContent document = getMarkupContent document'
  /\ getStylesheetContent document = getStylesheetContent document'.
Proof.
  intros Htext Huri. apply dispatch_extension_lower in Huri.
  unfold getScriptContent, getMarkupContent, getStylesheetContent.
  rewrite Htext, Huri. repeat split.
Qed.

(** Property X8: [getMarkupContent] and [getStylesheetContent] always
    return.  [getScriptContent] returns as well, or throws a [TypeError]
    before any transpiler call; it throws exactly on a text that is not
    blank with a manifest object whose [scripts] is truthy and is neither a
    string nor an array, so that [includes] is not a function on it. *)
Theorem adapters_throw_only_on_odd_scripts
        (document : TextDocument) (manifest : jsval) :
  (exists rendered, fst (getMarkupContent document) = Return rendered)
  /\ (exists rendered, fst (getStylesheetContent document) = Return rendered)
  /\ (forall e,
         fst (getScriptContent document manifest) = Throw e <->
         e = TypeError
         /\ Trim.is_blank (getText document) = false
         /\ exists m scripts,
              manifest = Some (Obj m)
              /\ obj_get "scripts" m = Some scripts
              /\ truthy (Some scripts) = true
              /\ (forall t, scripts <> Str t)
              /\ (forall l, scripts <> Arr l))
  /\ (forall e,
         fst (getScriptContent document manifest) = Throw e ->
         snd (getScriptContent document manifest) = [])
  /\ fst (getScriptContent document manifest) <> OutOfModel.
Proof.
  split; [|split; [|split; [|split]]].
  - unfold getMarkupContent. destruct (Trim.is_blank _); [eexists; reflexivity|].
    destruct (String.eqb _ _); eexists; reflexivity.
  - unfold getStylesheetContent.
    destruct (Trim.is_blank _); [eexists; reflexivity|].
    destruct (_ || _); [eexists; reflexivity|].
    destruct (String.eqb _ _); eexists; reflexivity.
  - intros e. unfold getScriptContent.
    destruct (Trim.is_blank (getText document)).
    { split; [discriminate|intros (_ & H & _); discriminate]. }
    split.
    + destruct (includesJsx manifest) as [jsx| |] eqn:Hjsx;
        cbn [lift bind fst snd];
        [destruct (_ || _); discriminate| |discriminate].
      intros [= <-]. destruct (includesJsx_throws _ _ Hjsx) as [-> (m & -> & Hm)].
      split; [reflexivity|]. split; [reflexivity|]. exists m.
      destruct Hm as [Hm|(o & Hm)]; eexists; (split; [reflexivity|]);
        (split; [exact Hm|]); repeat split; discriminate.
    + intros (-> & _ & m & scripts & -> & Hget & Htruthy & Hstr & Harr).
      unfold includesJsx. cbn [truthy negb get_prop obind]. rewrite Hget.
      rewrite Htruthy. cbn [negb].
      destruct scripts as [ |b|t|l|o]; try reflexivity.
      * exfalso. exact (Hstr t eq_refl).
      * exfalso. exact (Harr l eq_refl).
  - intros e. unfold getScriptContent.
    destruct (Trim.is_blank (getText document)); [discriminate|].
    destruct (includesJsx manifest) as [jsx| |];
      cbn [lift bind fst snd]; [destruct (_ || _); discriminate| |discriminate].
    reflexivity.
  - unfold getScriptContent.
    destruct (Trim.is_blank (getText document)); [discriminate|].
    assert (Hmodel : includesJsx manifest <> OutOfModel).
    { unfold includesJsx.
      destruct manifest as [[ |b|s|l|m]|]; cbn [truthy negb get_prop obind];
        try discriminate.
      - destruct b; discriminate.
      - destruct (negb (negb (s =? EmptyString)%string)); discriminate.
      - destruct (obj_get "scripts" m) as [[ |b|s|l|o]|];
          cbn [truthy negb]; try discriminate.
        + destruct b; discriminate.
        + destruct (negb (negb (s =? EmptyString)%string)); discriminate. }
    destruct (includesJsx manifest) as [jsx| |];
      cbn [lift bind fst snd]; [destruct (_ || _); discriminate|discriminate|].
    contradiction.
Qed.

End AdapterDispatch.

Lemma adapters_ignore_case_of_extension_witness :
  @getStylesheetContent identityEngines (docOf "STYLE.Sass" "a")
  = @getStylesheetContent identityEngines (docOf "style.sass" "a").
Proof.
  apply (@adapters_ignore_case_of_extension
           identityEngines (docOf "STYLE.Sass" "a") (docOf "style.sass" "a")
           None eq_refl eq_refl).
Defined.

(** ** Routing of documents *)

(** Property X9: the roles are exclusive.  A document passes at most one
    of the four tests of the change listener (markup, script, manifest,
    stylesheet), so the order in which the listener tries them decides
    nothing. *)
Theorem document_has_one_role (gist : Gist) (document : TextDocument) :
  length (filter (fun passed : bool => passed)
                 [isPlaygroundDocument gist document markup;
                  isPlaygroundDocument gist document script;
                  isPlaygroundManifestFile gist document;
                  isPlaygroundDocument gist document stylesheet]) <= 1.
Proof.
  destruct (isPlaygroundDocument gist document markup) eqn:Hm.
  - destruct (markup_document_routing _ _ Hm) as (-> & -> & ->). simpl. lia.
  - destruct (isPlaygroundDocument gist document script) eqn:Hs.
    + destruct (script_document_routing _ _ Hs) as (_ & -> & ->). simpl. lia.
    + destruct (isPlaygroundDocument gist document stylesheet) eqn:Hc.
      * destruct (stylesheet_document_routing _ _ Hc) as (_ & _ & ->).
        simpl. lia.
      * destruct (isPlaygroundManifestFile gist document); simpl; lia.
Qed.

Section ListenerFacts.
Context {engines : Engines}.

(** Property X10: the change listener leaves the documents of other gists
    alone: for a document whose authority is not the id of the playground's
    gist it issues no call and changes no session variable. *)
Theorem listener_ignores_other_gists (s : Session) (document : TextDocument) :
  uri_authority document <> id (s_gist s) ->
  onDidChangeTextDocument s document = (s, (Return tt, [])).
Proof.
  intros Hne. unfold onDidChangeTextDocument, isPlaygroundDocument,
                isPlaygroundManifestFile.
  destruct (String.eqb_spec (id (s_gist s)) (uri_authority document)) as [E|_];
    [symmetry in E; contradiction|].
  reflexivity.
Qed.

Lemma keys_assign_new {A} k (v : A) m :
  lookup k m = None -> keys (assign k v m) = keys m ++ [k].
Proof.
  induction m as [|[k' v'] m IH]; simpl; [reflexivity|].
  destruct (String.eqb_spec k k'); [discriminate|].
  intros H. unfold keys in *. simpl. rewrite IH; auto.
Qed.

Lemma lookup_None_keys {A} k (m : list (string * A)) :
  lookup k m = None -> ~ In k (keys m).
Proof.
  induction m as [|[k' v'] m IH]; simpl; [auto|].
  destruct (String.eqb_spec k k') as [->|Hne]; [discriminate|].
  intros H [E|Hin]; [congruence|]. apply (IH H Hin).
Qed.

Lemma keys_remove_key {A} k (m : list (string * A)) x :
  In x (keys (remove_key k m)) -> In x (keys m) /\ x <> k.
Proof.
  induction m as [|[k' v'] m IH]; simpl; [intros []|].
  destruct (String.eqb_spec k k') as [->|Hne]; simpl.
  - intros H. destruct (IH H). auto.
  - intros [<-|H]; [auto|]. destruct (IH H). auto.
Qed.

Lemma NoDup_remove_key {A} k (m : list (string * A)) :
  NoDup (keys m) -> NoDup (keys (remove_key k m)).
Proof.
  induction m as [|[k' v'] m IH]; simpl; [auto|].
  intros H. inversion H as [|? ? Hnotin Hnd]; subst.
  destruct (String.eqb k k'); [auto|]. simpl. constructor; [|auto].
  intros Hin. apply keys_remove_key in Hin as [Hin _]. contradiction.
Qed.

Lemma NoDup_assign {A} k (v : A) m :
  NoDup (keys m) -> NoDup (keys (assign k v m)).
Proof.
  intros H. destruct (lookup k m) as [w|] eqn:E.
  - rewrite (keys_assign _ _ _ _ E). exact H.
  - rewrite (keys_assign_new _ _ _ E). apply NoDup_app; [exact H| |].
    + repeat constructor. intros [].
    + intros x Hx [<-|[]]. apply (lookup_None_keys _ _ E Hx).
Qed.

(** Property X11: the change listener keeps the frame of the session.
    Whatever the document, it never replaces the script document it
    tracks (not even after a rename), the run-on-edit flag or the id of
    the gist, and it keeps the file names of the bundle unique. *)
Theorem listener_keeps_session_frame (s : Session) (document : TextDocument) :
  let s' := fst (onDidChangeTextDocument s document) in
  s_jsDocument s' = s_jsDocument s
  /\ s_runOnEdit s' = s_runOnEdit s
  /\ id (s_gist s') = id (s_gist s)
  /\ (NoDup (keys (files (s_gist s))) -> NoDup (keys (files (s_gist s')))).
Proof.
  cbv zeta. unfold onDidChangeTextDocument.
  destruct (isPlaygroundDocument (s_gist s) document markup);
    [repeat split; auto|].
  destruct (isPlaygroundDocument (s_gist s) document script).
  - destruct (s_jsDocument s) as [jsDocument|] eqn:Hjs;
      [|cbn [fst]; repeat split; auto].
    destruct (negb _); [|cbn [fst]; repeat split; auto].
    destruct (lookup _ (files (s_gist s))) as [oldFile|];
      [|cbn [fst]; repeat split; auto].
    cbn [fst s_jsDocument s_runOnEdit s_gist id files].
    repeat split; auto.
    intros Hnd. apply NoDup_remove_key, NoDup_assign, Hnd.
  - destruct (isPlaygroundManifestFile (s_gist s) document).
    + destruct (s_jsDocument s) as [jsDocument|] eqn:Hjs;
        [|cbn [fst]; repeat split; auto].
      destruct (parse (getText document));
        cbn [fst s_jsDocument s_runOnEdit s_gist]; repeat split; auto.
    + destruct (isPlaygroundDocument (s_gist s) document stylesheet);
        repeat split; auto.
Qed.

End ListenerFacts.

Lemma listener_ignores_other_gists_witness :
  @onDidChangeTextDocument identityEngines webSession
                           (mkDoc "other" "gist://other/index.html" "<p>")
  = (webSession, (Return tt, [])).
Proof.
  apply (@listener_ignores_other_gists identityEngines webSession).
  discriminate.
Defined.

(** ** Renames and manifest edits *)

Lemma lookup_remove_key_eq {A} k (m : list (string * A)) :
  lookup k (remove_key k m) = None.
Proof.
  induction m as [|[k' v'] m IH]; simpl; [reflexivity|].
  destruct (String.eqb k k') eqn:E; [exact IH|]. simpl. rewrite E. exact IH.
Qed.

Lemma lookup_remove_key_ne {A} k k' (m : list (string * A)) :
  k <> k' -> lookup k (remove_key k' m) = lookup k m.
Proof.
  intros Hne. induction m as [|[k0 v0] m IH]; simpl; [reflexivity|].
  destruct (String.eqb_spec k' k0) as [->|Hk0]; simpl.
  - destruct (String.eqb_spec k k0); [contradiction|exact IH].
  - destruct (String.eqb k k0); [reflexivity|exact IH].
Qed.

Lemma lookup_assign_ne {A} k k' (v : A) m :
  k <> k' -> lookup k (assign k' v m) = lookup k m.
Proof.
  intros Hne. induction m as [|[k0 v0] m IH]; simpl.
  - destruct (String.eqb_spec k k'); [contradiction|reflexivity].
  - destruct (String.eqb_spec k' k0) as [->|Hk0]; simpl.
    + destruct (String.eqb_spec k k0); [contradiction|reflexivity].
    + destruct (String.eqb k k0); [reflexivity|exact IH].
Qed.

Section RenameFacts.
Context {engines : Engines}.

(** What the listener does on a change of a script document that is not
    the one it tracks, while the bundle still has the tracked one. *)
Lemma listener_on_rename
      (s : Session) (document jsDocument : TextDocument) (oldFile : GistFile) :
  isPlaygroundDocument (s_gist s) document script = true ->
  s_jsDocument s = Some jsDocument ->
  uri_toString jsDocument <> uri_toString document ->
  lookup (Path.basename (uri_toString jsDocument)) (files (s_gist s))
  = Some oldFile ->
  let gist' :=
    mkGist (id (s_gist s))
           (remove_key (Path.basename (uri_toString jsDocument))
                       (assign (Path.basename (uri_toString document)) oldFile
                               (files (s_gist s))))
           (gistLabel (s_gist s)) (gistDescription (s_gist s)) in
  onDidChangeTextDocument s document
  = (mkSession gist' (s_jsDocument s) (s_manifest s) (s_runOnEdit s),
     (manifestContent <- getManifestContent gist' ;;
      emit (updateManifest manifestContent (Some (s_runOnEdit s))) ;;;
      emit (updateJavaScript document (Some (s_runOnEdit s))))%eff).
Proof.
  intros Hdoc Hjs Huri Hold gist'. unfold onDidChangeTextDocument.
  destruct (script_document_routing _ _ Hdoc) as (-> & _ & _).
  rewrite Hdoc, Hjs.
  destruct (String.eqb_spec (uri_toString jsDocument) (uri_toString document))
    as [E|_]; [contradiction|].
  cbn [negb]. rewrite Hold. reflexivity.
Qed.

(** Property X12: a rename of the script file migrates its bundle entry.
    When a script document other than the tracked one changes and the
    bundle still has the tracked file, the file moves to the new name
    with its content, the old name is gone, every other file is left as it
    was, and, when manifest resolution on the new bundle returns, the
    listener pushes the manifest once and then patches the script. *)
Theorem script_rename_migrates_entry
        (s : Session) (document jsDocument : TextDocument) (oldFile : GistFile) :
  isPlaygroundDocument (s_gist s) document script = true ->
  s_jsDocument s = Some jsDocument ->
  uri_toString jsDocument <> uri_toString document ->
  lookup (Path.basename (uri_toString jsDocument)) (files (s_gist s))
  = Some oldFile ->
  Path.basename (uri_toString jsDocument)
  <> Path.basename (uri_toString document) ->
  let run := onDidChangeTextDocument s document in
  let bundle' := files (s_gist (fst run)) in
  lookup (Path.basename (uri_toString document)) bundle' = Some oldFile
  /\ lookup (Path.basename (uri_toString jsDocument)) bundle' = None
  /\ (forall name,
        name <> Path.basename (uri_toString jsDocument) ->
        name <> Path.basename (uri_toString document) ->
        lookup name bundle' = lookup name (files (s_gist s)))
  /\ (forall manifestContent calls,
        getManifestContent (s_gist (fst run)) = (Return manifestContent, calls) ->
        snd run
        = (Return tt,
           calls ++ [updateManifest manifestContent (Some (s_runOnEdit s));
                     updateJavaScript document (Some (s_runOnEdit s))])).
Proof.
  intros Hdoc Hjs Huri Hold Hnames run bundle'.
  subst bundle' run.
  rewrite (listener_on_rename s document jsDocument oldFile Hdoc Hjs Huri Hold).
  cbn [fst snd s_gist files].
  split; [|split; [|split]].
  - rewrite lookup_remove_key_ne by congruence. apply lookup_assign.
  - apply lookup_remove_key_eq.
  - intros name H1 H2.
    rewrite lookup_remove_key_ne, lookup_assign_ne by assumption. reflexivity.
  - intros manifestContent calls Hm. rewrite Hm. reflexivity.
Qed.

(** Property X13: the entry is migrated once.  The listener goes on
    tracking the old script document, yet a further change of the renamed
    document finds the old name gone from the bundle: it only patches the
    script, and leaves the session as it is. *)
Theorem script_rename_happens_once
        (s : Session) (document jsDocument again : TextDocument)
        (oldFile : GistFile) :
  isPlaygroundDocument (s_gist s) document script = true ->
  s_jsDocument s = Some jsDocument ->
  uri_toString jsDocument <> uri_toString document ->
  lookup (Path.basename (uri_toString jsDocument)) (files (s_gist s))
  = Some oldFile ->
  uri_authority again = uri_authority document ->
  uri_toString again = uri_toString document ->
  let s' := fst (onDidChangeTextDocument s document) in
  onDidChangeTextDocument s' again
  = (s', (Return tt, [updateJavaScript again (Some (s_runOnEdit s))])).
Proof.
  intros Hdoc Hjs Huri Hold Hauth Hagain s'. subst s'.
  rewrite (listener_on_rename s document jsDocument oldFile Hdoc Hjs Huri Hold).
  cbn [fst]. unfold onDidChangeTextDocument.
  cbn [s_gist s_jsDocument s_runOnEdit].
  assert (Hsame : forall fileType,
             isPlaygroundDocument
               (mkGist (id (s_gist s))
                       (remove_key (Path.basename (uri_toString jsDocument))
                                   (assign (Path.basename (uri_toString document))
                                           oldFile (files (s_gist s))))
                       (gistLabel (s_gist s)) (gistDescription (s_gist s)))
               again fileType
             = isPlaygroundDocument (s_gist s) document fileType).
  { intros fileType. unfold isPlaygroundDocument. cbn [id].
    rewrite Hauth, Hagain. reflexivity. }
  rewrite !Hsame.
  destruct (script_document_routing _ _ Hdoc) as (-> & _ & _).
  rewrite Hdoc, Hjs, Hagain.
  destruct (String.eqb_spec (uri_toString jsDocument) (uri_toString document))
    as [E|_]; [contradiction|].
  cbn [negb files]. rewrite lookup_remove_key_eq. reflexivity.
Qed.

(** Property X14: an edit of the manifest is passed on to the preview
    first, whatever its text.  Without a script document the text is not
    parsed at all; with one, the script is patched again, and the
    session's manifest replaced, exactly when the text parses, and the
    listener throws when it does not. *)
Theorem manifest_edit_is_forwarded (s : Session) (document : TextDocument) :
  isPlaygroundManifestFile (s_gist s) document = true ->
  let run := onDidChangeTextDocument s document in
  let runOnEdit := Some (s_runOnEdit s) in
  let forwarded := updateManifest (Some (getText document)) runOnEdit in
  match s_jsDocument s with
  | None => run = (s, (Return tt, [forwarded]))
  | Some jsDocument =>
    match parse (getText document) with
    | Return parsed =>
      run = (mkSession (s_gist s) (Some jsDocument) parsed (s_runOnEdit s),
             (Return tt, [forwarded; updateJavaScript jsDocument runOnEdit]))
    | Throw e => run = (s, (Throw e, [forwarded]))
    | OutOfModel => run = (s, (OutOfModel, [forwarded]))
    end
  end.
Proof.
  intros Hdoc. cbv zeta. unfold onDidChangeTextDocument.
  destruct (manifest_document_routing _ _ Hdoc) as (-> & -> & _).
  rewrite Hdoc.
  destruct (s_jsDocument s) as [jsDocument|]; [|reflexivity].
  destruct (parse (getText document)); reflexivity.
Qed.

End RenameFacts.

Lemma script_rename_migrates_entry_witness :
  let run := @onDidChangeTextDocument identityEngines webSession
                                      (docOf "script.jsx" "let x = <p/>;") in
  lookup "script.jsx" (files (s_gist (fst run))) = Some (fileOf "let x = 1;")
  /\ lookup "script.js" (files (s_gist (fst run))) = None.
Proof.
  assert (Hdoc : isPlaygroundDocument (s_gist webSession)
                   (docOf "script.jsx" "let x = <p/>;") script = true)
    by (vm_compute; reflexivity).
  assert (Huri : uri_toString (docOf "script.js" "let x = 1;")
                 <> uri_toString (docOf "script.jsx" "let x = <p/>;"))
    by (vm_compute; discriminate).
  assert (Hold : lookup (Path.basename
                           (uri_toString (docOf "script.js" "let x = 1;")))
                        (files (s_gist webSession))
                 = Some (fileOf "let x = 1;"))
    by (vm_compute; reflexivity).
  assert (Hnames : Path.basename (uri_toString (docOf "script.js" "let x = 1;"))
                   <> Path.basename
                        (uri_toString (docOf "script.jsx" "let x = <p/>;")))
    by (vm_compute; discriminate).
  destruct (@script_rename_migrates_entry
              identityEngines webSession
              (docOf "script.jsx" "let x = <p/>;")
              (docOf "script.js" "let x = 1;") (fileOf "let x = 1;")
              Hdoc eq_refl Huri Hold Hnames)
    as (Hnew & Hgone & _).
  split; [exact Hnew|exact Hgone].
Defined.

Lemma script_rename_happens_once_witness :
  let s' := fst (@onDidChangeTextDocument identityEngines webSession
                                          (docOf "script.jsx" "let x = <p/>;")) in
  @onDidChangeTextDocument identityEngines s'
                           (docOf "script.jsx" "let x = <p>hi</p>;")
  = (s', (Return tt,
          [updateJavaScript (docOf "script.jsx" "let x = <p>hi</p>;")
                            (Some true)])).
Proof.
  assert (Hdoc : isPlaygroundDocument (s_gist webSession)
                   (docOf "script.jsx" "let x = <p/>;") script = true)
    by (vm_compute; reflexivity).
  assert (Huri : uri_toString (docOf "script.js" "let x = 1;")
                 <> uri_toString (docOf "script.jsx" "let x = <p/>;"))
    by (vm_compute; discriminate).
  assert (Hold : lookup (Path.basename
                           (uri_toString (docOf "script.js" "let x = 1;")))
                        (files (s_gist webSession))
                 = Some (fileOf "let x = 1;"))
    by (vm_compute; reflexivity).
  exact (@script_rename_happens_once
           identityEngines webSession
           (docOf "script.jsx" "let x = <p/>;")
           (docOf "script.js" "let x = 1;")
           (docOf "script.jsx" "let x = <p>hi</p>;")
           (fileOf "let x = 1;")
           Hdoc eq_refl Huri Hold eq_refl eq_refl).
Defined.

Lemma manifest_edit_is_forwarded_witness :
  @onDidChangeTextDocument identityEngines webSession
                           (docOf PLAYGROUND_FILE "{}")
  = (mkSession webBundle (Some (docOf "script.js" "let x = 1;")) (Obj []) true,
     (Return tt,
      [updateManifest (Some "{}") (Some true);
       updateJavaScript (docOf "script.js" "let x = 1;") (Some true)])).
Proof.
  assert (Hdoc : isPlaygroundManifestFile (s_gist webSession)
                                          (docOf PLAYGROUND_FILE "{}") = true)
    by (vm_compute; reflexivity).
  exact (@manifest_edit_is_forwarded
           identityEngines webSession (docOf PLAYGROUND_FILE "{}") Hdoc).
Defined.

(** ** The debounced listener, continued *)

Section DebounceRuns.
Context {engines : Engines}.

(** Property X15: the debounced listener runs for exactly the change
    events that no event follows within 100 ms, once for each and in their
    order, on the document of that event, the session variables passing
    from one run to the next; every other event is dropped, whichever
    document it is for.  The documents are read when the listener runs:
    the script document that the session holds has the text of its latest
    change by then, also when the event of that change was dropped. *)
Theorem debounce_runs_the_survivors (s : Session) (events : list ChangeEvent) :
  runChanges s events = runLive s [] events.
Proof.
  destruct events as [|e r]; [reflexivity|]. apply runChanges_pending.
Qed.

End DebounceRuns.


(** ** [openPlayground], continued *)

(** The layouts have a pane for every editor and one for the preview. *)
Lemma chooseLayout_panes n playgroundLayout :
  layoutPanes (chooseLayout n playgroundLayout)
  = if n =? 3 then 4 else if n =? 2 then 3 else 2.
Proof.
  unfold chooseLayout. destruct (n =? 3).
  - destruct (layoutIs _ _); reflexivity.
  - destruct (n =? 2); reflexivity.
Qed.

Lemma layoutPanes_rev o gs :
  layoutPanes (mkLayout o (rev gs)) = layoutPanes (mkLayout o gs).
Proof.
  unfold layoutPanes. cbn [groups].
  induction gs as [|g gs IH]; [reflexivity|].
  cbn [rev fold_right]. rewrite <- IH. clear IH.
  induction (rev gs) as [|h t IHt]; simpl in *; lia.
Qed.

(** Property X16: whatever the layout preference, the editor layout that
    [openPlayground] plans has one pane for each role file of the bundle
    and one for the preview (two panes when the bundle has no role file);
    it is stacked vertically exactly under [splitTop]. *)
Theorem layout_has_a_pane_per_editor
        (markupFile stylesheetFile scriptFile : option string)
        (playgroundLayout : jsval) :
  let includedFiles := countIncluded markupFile stylesheetFile scriptFile in
  let plan := planLayout includedFiles playgroundLayout in
  layoutPanes (editorLayout plan) = Nat.max 1 includedFiles + 1
  /\ (orientation (editorLayout plan) = vertical
      <-> layoutIs playgroundLayout PlaygroundLayout.splitTop = true)
  /\ includedFiles <= 3.
Proof.
  cbv zeta. unfold planLayout.
  assert (Hnot : layoutIs playgroundLayout PlaygroundLayout.splitRight = true ->
                 layoutIs playgroundLayout PlaygroundLayout.splitTop = false).
  { destruct playgroundLayout as [[ | |s| | ]|]; try discriminate.
    cbn [layoutIs]. intros H. apply String.eqb_eq in H. subst. reflexivity. }
  assert (Hor : forall n pl, orientation (chooseLayout n pl) = horizontal).
  { intros n pl. unfold chooseLayout.
    destruct (n =? 3);
      [destruct (layoutIs pl PlaygroundLayout.grid); reflexivity|].
    destruct (n =? 2); reflexivity. }
  destruct (layoutIs playgroundLayout PlaygroundLayout.splitRight) eqn:Hr.
  - rewrite (Hnot eq_refl). cbn [editorLayout orientation].
    rewrite layoutPanes_rev, Hor.
    replace (mkLayout horizontal (groups (chooseLayout _ _)))
      with (chooseLayout
              (countIncluded markupFile stylesheetFile scriptFile)
              playgroundLayout)
      by (rewrite <- (Hor (countIncluded markupFile stylesheetFile scriptFile)
                          playgroundLayout);
          destruct (chooseLayout _ _); reflexivity).
    rewrite chooseLayout_panes.
    destruct markupFile, stylesheetFile, scriptFile; cbn;
      (split; [reflexivity|split; [split; discriminate|lia]]).
  - destruct (layoutIs playgroundLayout PlaygroundLayout.splitTop) eqn:Ht;
      cbn [editorLayout orientation groups].
    + replace (layoutPanes (mkLayout vertical (groups (chooseLayout _ _))))
        with (layoutPanes
                (chooseLayout
                   (countIncluded markupFile stylesheetFile scriptFile)
                   playgroundLayout)) by reflexivity.
      rewrite chooseLayout_panes.
      destruct markupFile, stylesheetFile, scriptFile; cbn;
        (split; [reflexivity|split; [split; reflexivity|lia]]).
    + rewrite chooseLayout_panes, Hor.
      destruct markupFile, stylesheetFile, scriptFile; cbn;
        (split; [reflexivity|split; [split; discriminate|lia]]).
Qed.

Section OpenFacts.
Context {engines : Engines} {host : Host}.

Lemma openPlayground_stages (config : Config) (gist : Gist) :
  openPlayground config gist
  = (manifestContent <- getManifestContent gist ;;
     parsed <- try_catch (lift (parse_js manifestContent)) (Obj []) ;;
     layoutField <- lift (get_prop "layout" parsed) ;;
     renderPlayground config gist manifestContent parsed layoutField)%eff.
Proof. reflexivity. Qed.

Lemma bind_Return {A B} (m : Eff A) (k : A -> Eff B) (b : B) trace :
  bind m k = (Return b, trace) ->
  exists a t1 t2, m = (Return a, t1) /\ k a = (Return b, t2)
                  /\ trace = t1 ++ t2.
Proof.
  destruct m as [[a| |] t1]; cbn [bind]; try discriminate.
  destruct (k a) as [o t2] eqn:E. cbn [fst snd]. intros [= -> <-].
  exists a, t1, t2. auto.
Qed.

Lemma getMarkupContent_returns document :
  exists rendered calls,
    getMarkupContent document = (Return rendered, calls)
    /\ filter isPreviewUpdate calls = [] /\ viewColumns calls = []
    /\ filter isWrite calls = [].
Proof.
  unfold getMarkupContent. destruct (Trim.is_blank _); [repeat eexists|].
  destruct (String.eqb _ _); repeat eexists.
Qed.

Lemma getStylesheetContent_returns document :
  exists rendered calls,
    getStylesheetContent document = (Return rendered, calls)
    /\ filter isPreviewUpdate calls = [] /\ viewColumns calls = []
    /\ filter isWrite calls = [].
Proof.
  unfold getStylesheetContent. destruct (Trim.is_blank _); [repeat eexists|].
  destruct (_ || _); [repeat eexists|].
  destruct (String.eqb _ _); repeat eexists.
Qed.

Lemma viewColumns_app t1 t2 :
  viewColumns (t1 ++ t2) = viewColumns t1 ++ viewColumns t2.
Proof. apply flat_map_app. Qed.

(** The calls of manifest resolution are writes. *)
Lemma getManifestContent_calls gist :
  filter isPreviewUpdate (snd (getManifestContent gist)) = []
  /\ viewColumns (snd (getManifestContent gist)) = [].
Proof.
  destruct (getManifestContent_cases gist) as [->|(m & l & H)];
    [split; reflexivity|].
  rewrite (getManifestContent_rewrites gist m l H). split; reflexivity.
Qed.

(** The preview calls and the view columns of [renderPlayground]. *)
Lemma renderPlayground_returns
      (config : Config) (gist : Gist) (manifestContent : option string)
      (parsed : value) (layoutField : jsval) (session : Session)
      (trace : list Effect) :
  renderPlayground config gist manifestContent parsed layoutField
  = (Return session, trace) ->
  let playgroundLayout :=
    if truthy layoutField then layoutField
    else Some (Str (playgrounds_layout config)) in
  let includedFiles :=
    countIncluded (getGistFileOfType gist markup)
                  (getGistFileOfType gist stylesheet)
                  (getGistFileOfType gist script) in
  filter isPreviewUpdate trace
  = [updateManifest manifestContent None;
     updateHTML (initialMarkup gist) None;
     updateCSS (initialStylesheet gist) None]
    ++ match getGistFileOfType gist script with
       | Some name => [updateJavaScript (openTextDocument (id gist) name) None]
       | None => []
       end
    ++ [rebuildWebview]
  /\ s_jsDocument session
     = option_map (openTextDocument (id gist)) (getGistFileOfType gist script)
  /\ s_gist session = gist
  /\ viewColumns trace
     = (if layoutIs playgroundLayout PlaygroundLayout.preview then []
        else map Z.of_nat
                 (seq (if layoutIs playgroundLayout PlaygroundLayout.splitRight
                       then 2 else 1)
                      includedFiles))
       ++ [if layoutIs playgroundLayout PlaygroundLayout.splitRight
           then 1%Z else (Z.of_nat includedFiles + 1)%Z].
Proof.
  unfold renderPlayground, initialMarkup, initialStylesheet.
  set (playgroundLayout := if truthy layoutField then layoutField
                           else Some (Str (playgrounds_layout config))).
  assert (Hconsole : exists showConsole,
             parsed = Null
             \/ get_prop "showConsole" parsed = Return showConsole).
  { destruct parsed;
      [exists None; left; reflexivity|eexists; right; reflexivity ..]. }
  destruct Hconsole as (showConsole & [->|Hconsole]).
  { intros H. exfalso. revert H.
    destruct (getGistFileOfType gist markup),
      (getGistFileOfType gist stylesheet), (getGistFileOfType gist script),
      (negb (layoutIs playgroundLayout PlaygroundLayout.preview));
      cbn; discriminate. }
  rewrite Hconsole. unfold planLayout.
  destruct (getGistFileOfType gist markup) as [markupName|];
    destruct (getGistFileOfType gist stylesheet) as [stylesheetName|];
    destruct (getGistFileOfType gist script) as [scriptName|];
    try (destruct (getMarkupContent_returns
                     (openTextDocument (id gist) markupName))
          as (html & htmlCalls & Eh & Hh1 & Hh2 & _));
    try (destruct (getStylesheetContent_returns
                     (openTextDocument (id gist) stylesheetName))
          as (css & cssCalls & Ec & Hc1 & Hc2 & _));
    destruct (layoutIs playgroundLayout PlaygroundLayout.preview);
    destruct (layoutIs playgroundLayout PlaygroundLayout.splitRight);
    destruct (layoutIs playgroundLayout PlaygroundLayout.splitTop);
    cbn [negb countIncluded found filter length currentViewColumn
         previewViewColumn editorLayout emit ret bind lift openRole fst snd
         app orEmpty option_map];
    rewrite ?Eh, ?Ec;
    destruct (playgrounds_showConsole config || truthy showConsole);
    cbn [negb countIncluded found filter length currentViewColumn
         previewViewColumn editorLayout emit ret bind lift openRole fst snd
         app orEmpty option_map];
    intros [= <- <-];
    cbn [s_jsDocument s_gist];
    unfold viewColumns in *;
    repeat first
      [ progress cbn [filter flat_map isPreviewUpdate app]
      | rewrite filter_app | rewrite flat_map_app | rewrite app_nil_r
      | rewrite Hh1 | rewrite Hh2 | rewrite Hc1 | rewrite Hc2 ];
    repeat split.
Qed.

End OpenFacts.

Section OpenOrder.
Context {engines : Engines} {host : Host}.

(** A successful [openPlayground] went through [renderPlayground] with the
    resolved manifest content. *)
Lemma openPlayground_returns config gist session trace :
  openPlayground config gist = (Return session, trace) ->
  exists manifestContent parsed layoutField t0 t1,
    getManifestContent gist = (Return manifestContent, t0)
    /\ renderPlayground config gist manifestContent parsed layoutField
       = (Return session, t1)
    /\ filter isPreviewUpdate trace = filter isPreviewUpdate t1
    /\ viewColumns trace = viewColumns t1.
Proof.
  rewrite openPlayground_stages. intros H.
  apply bind_Return in H as (manifestContent & t0 & r0 & E0 & H & ->).
  apply bind_Return in H as (parsed & tp & r1 & Ep & H & ->).
  apply bind_Return in H as (layoutField & tl & r2 & El & H & ->).
  exists manifestContent, parsed, layoutField, t0, r2.
  assert (tp = []) as ->.
  { revert Ep. unfold try_catch, lift.
    destruct (parse_js manifestContent) as [v|e|]; cbn; congruence. }
  assert (tl = []) as ->.
  { revert El. unfold lift. congruence. }
  destruct (getManifestContent_calls gist) as [Hp Hv].
  rewrite E0 in Hp, Hv. cbn [snd] in Hp, Hv.
  repeat split; auto.
  - rewrite filter_app, Hp. reflexivity.
  - rewrite viewColumns_app, Hv. reflexivity.
Qed.

(** Property X17: when a playground opens, the preview is fed in a fixed
    order: the manifest content that resolution returned, then the markup,
    then the stylesheet, then the script document when the bundle has one,
    and last the rebuild. A layer whose role has no file, or whose
    transpilation failed, is fed the empty text, and the session keeps the
    script document that was opened. *)
Theorem open_feeds_preview_in_order
        (config : Config) (gist : Gist) (session : Session)
        (trace : list Effect) :
  openPlayground config gist = (Return session, trace) ->
  exists manifestContent,
    fst (getManifestContent gist) = Return manifestContent
    /\ filter isPreviewUpdate trace
       = [updateManifest manifestContent None;
          updateHTML (initialMarkup gist) None;
          updateCSS (initialStylesheet gist) None]
         ++ match getGistFileOfType gist script with
            | Some name =>
              [updateJavaScript (openTextDocument (id gist) name) None]
            | None => []
            end
         ++ [rebuildWebview]
    /\ s_jsDocument session
       = option_map (openTextDocument (id gist))
                    (getGistFileOfType gist script)
    /\ s_gist session = gist.
Proof.
  intros H.
  apply openPlayground_returns in H
    as (manifestContent & parsed & layoutField & t0 & t1 & E0 & H & Hp & _).
  apply renderPlayground_returns in H as (Hupdates & Hjs & Hgist & _).
  exists manifestContent. rewrite E0, Hp. auto.
Qed.


End OpenOrder.

Lemma open_feeds_preview_in_order_witness :
  exists manifestContent,
    fst (@getManifestContent webBundle) = Return manifestContent
    /\ filter isPreviewUpdate
              (snd (@openPlayground identityEngines exampleHost
                                    exampleConfig webBundle))
       = [updateManifest manifestContent None;
          updateHTML (@initialMarkup identityEngines exampleHost webBundle)
                     None;
          updateCSS (@initialStylesheet identityEngines exampleHost webBundle)
                    None]
         ++ match getGistFileOfType webBundle script with
            | Some name =>
              [updateJavaScript
                 (@openTextDocument exampleHost (id webBundle) name) None]
            | None => []
            end
         ++ [rebuildWebview]
    /\ s_jsDocument
         (mkSession webBundle
                    (Some (@openTextDocument exampleHost "g" "script.js"))
                    (Obj []) true)
       = option_map (@openTextDocument exampleHost (id webBundle))
                    (getGistFileOfType webBundle script)
    /\ s_gist (mkSession webBundle
                    (Some (@openTextDocument exampleHost "g" "script.js"))
                    (Obj []) true) = webBundle.
Proof.
  assert (H : @openPlayground identityEngines exampleHost
                              exampleConfig webBundle
              = (Return (mkSession webBundle
                    (Some (@openTextDocument exampleHost "g" "script.js"))
                    (Obj []) true),
                 snd (@openPlayground identityEngines exampleHost
                                      exampleConfig webBundle)))
    by (vm_compute; reflexivity).
  exact (@open_feeds_preview_in_order identityEngines exampleHost
           exampleConfig webBundle _ _ H).
Defined.


(** ** Templates *)

Section GalleryFacts.
Context {host : Host}.

Lemma loadGalleryTemplates_fold fetch galleries acc :
  fold_left
    (fun templates gallery =>
       let gallery :=
         match lookup gallery KnownGalleries with
         | Some url => url
         | None => gallery
         end in
       match fetch gallery with
       | Some found => templates ++ found
       | None => templates
       end)
    galleries acc
  = acc ++ fetchedTemplates fetch galleries.
Proof.
  revert acc. induction galleries as [|g r IH]; intros acc; simpl.
  - rewrite app_nil_r. reflexivity.
  - rewrite IH. unfold galleryUrl.
    destruct (fetch _); [rewrite app_assoc|]; reflexivity.
Qed.

Lemma loadGalleryTemplates_sorts fetch galleries :
  loadGalleryTemplates fetch galleries
  = sortByLabel (fetchedTemplates fetch galleries).
Proof.
  unfold loadGalleryTemplates. rewrite loadGalleryTemplates_fold.
  reflexivity.
Qed.

(** A list in label order is left as it is. *)
Lemma sortByLabel_sorted_id l : Sorted labelLe l -> sortByLabel l = l.
Proof.
  induction l as [|t r IH]; intros Hs; simpl; [reflexivity|].
  inversion Hs as [|? ? Hr Hhd]; subst. rewrite (IH Hr).
  destruct Hhd as [|u r' Hle]; simpl; [reflexivity|].
  unfold labelLe in Hle. apply Z.leb_le in Hle. rewrite Hle. reflexivity.
Qed.

(** Property X19: loading the galleries never fails on a gallery that
    cannot be fetched; such a gallery is skipped and the others are still
    loaded. The loaded templates are those of the reachable galleries, the
    name [web] standing for the known gallery address, each as often as it
    was fetched, in label order. *)
Theorem gallery_loading_skips_failures
        (fetch : string -> option (list GalleryTemplate))
        (galleries : list string) :
  (forall a b, (0 < localeCompare a b -> localeCompare b a <= 0)%Z) ->
  Permutation (loadGalleryTemplates fetch galleries)
              (fetchedTemplates fetch galleries)
  /\ Sorted labelLe (loadGalleryTemplates fetch galleries)
  /\ (forall before gallery after,
         galleries = before ++ gallery :: after ->
         fetch (galleryUrl gallery) = None ->
         loadGalleryTemplates fetch galleries
         = loadGalleryTemplates fetch (before ++ after)).
Proof.
  intros Htotal. rewrite loadGalleryTemplates_sorts.
  split; [apply sortByLabel_perm|].
  split; [apply sortByLabel_sorted, Htotal|].
  intros before gallery after -> Hnone.
  rewrite loadGalleryTemplates_sorts. f_equal.
  unfold fetchedTemplates. rewrite !flat_map_app. simpl.
  rewrite Hnone. reflexivity.
Qed.

(** Property X20: sorting again changes nothing. When no gist of the user
    is a template, the quick pick lists the loaded gallery templates in
    the order in which [loadGalleryTemplates] left them, and then the
    entry for continuing without a template. *)
Theorem quick_pick_keeps_gallery_order
        (fetch : string -> option (list GalleryTemplate))
        (galleries : list string) (gists starredGists : list Gist) :
  (forall a b, (0 < localeCompare a b -> localeCompare b a <= 0)%Z) ->
  userTemplates (gists ++ starredGists) = Return [] ->
  loadGalleryTemplates fetch galleries <> [] ->
  newPlaygroundInternal (loadGalleryTemplates fetch galleries)
                        gists starredGists
  = Return (QuickPick (map templateItem (loadGalleryTemplates fetch galleries)
                       ++ [NO_TEMPLATE_GIST_ITEM])).
Proof.
  intros Htotal Hfound Hloaded. unfold newPlaygroundInternal.
  rewrite Hfound. cbn [obind]. rewrite app_nil_r.
  destruct (loadGalleryTemplates fetch galleries) as [|t r] eqn:E;
    [contradiction|].
  cbn [length Nat.eqb]. rewrite <- E.
  rewrite sortByLabel_sorted_id; [reflexivity|].
  rewrite loadGalleryTemplates_sorts. apply sortByLabel_sorted, Htotal.
Qed.

(** Property X21: the search for the templates among the user's gists
    always returns, and so does [newPlaygroundInternal]: a gist whose
    manifest is empty, is not well-formed JSON or is [null] is not a
    template and is passed over.  The templates found are those of the
    gists marked as templates, in the order of the gists, each with the
    gist's label, description and id. *)
Theorem broken_user_manifest_is_skipped
        (galleryTemplates : list GalleryTemplate)
        (gists starredGists : list Gist) :
  (forall g, In g (gists ++ starredGists) -> manifestInModel g) ->
  userTemplates (gists ++ starredGists)
  = Return (map gistTemplate
                (filter markedAsTemplate (gists ++ starredGists)))
  /\ (exists choice,
         newPlaygroundInternal galleryTemplates gists starredGists
         = Return choice)
  /\ (forall g file text,
         lookup PLAYGROUND_FILE (files g) = Some file ->
         content file = Some text ->
         text = EmptyString
         \/ (exists e, parse text = Throw e)
         \/ parse text = Return Null ->
         markedAsTemplate g = false
         /\ userTemplate g = Return None).
Proof.
  intros Hmodel. split; [apply userTemplates_marked, Hmodel|]. split.
  - unfold newPlaygroundInternal.
    rewrite (userTemplates_marked _ Hmodel). cbn [obind].
    destruct (_ =? 0); eexists; reflexivity.
  - intros g file text Hfile Htext Hbroken.
    unfold markedAsTemplate, userTemplate. rewrite Hfile, Htext.
    destruct Hbroken as [->|[(e & ->)| ->]]; [split; reflexivity| |].
    + split; [reflexivity|]. destruct (String.eqb text EmptyString); reflexivity.
    + split; [reflexivity|]. destruct (String.eqb text EmptyString); reflexivity.
Qed.

(** Property X22: whatever entry of the quick pick is accepted, a gist is
    duplicated. For an entry that stands for a template this is the only
    action, with the template's gist and its label as the description; for
    the entry for continuing without a template the playground is first
    created without a template and then, the [case] having no [break], a
    gist without id is duplicated under the label of that entry. *)
Theorem accept_always_duplicates
        (galleryTemplates : list GalleryTemplate)
        (gists starredGists : list Gist) (items : list QuickPickItem)
        (isPublic openAsWorkspace : bool) (item : QuickPickItem) :
  newPlaygroundInternal galleryTemplates gists starredGists
  = Return (QuickPick items) ->
  In item items ->
  (item = NO_TEMPLATE_GIST_ITEM
   /\ onDidAccept isPublic openAsWorkspace item
      = [newWithoutTemplate isPublic openAsWorkspace;
         duplicatePlayground None isPublic
                             (item_label NO_TEMPLATE_GIST_ITEM)])
  \/ (exists t, item = templateItem t
      /\ last (onDidAccept isPublic openAsWorkspace item)
              (newWithoutTemplate isPublic openAsWorkspace)
         = duplicatePlayground (Some (gist t)) isPublic (label t)
      /\ (label t <> item_label NO_TEMPLATE_GIST_ITEM ->
          onDidAccept isPublic openAsWorkspace item
          = [duplicatePlayground (Some (gist t)) isPublic (label t)])).
Proof.
  unfold newPlaygroundInternal.
  destruct (userTemplates (gists ++ starredGists)) as [found|?|];
    cbn [obind]; try discriminate.
  destruct (_ =? 0); [discriminate|].
  intros [= <-] Hin. apply in_app_or in Hin as [Hin|[<-|[]]].
  - right. apply in_map_iff in Hin as (t & <- & _). exists t.
    split; [reflexivity|]. unfold onDidAccept. cbn [item_label item_gist templateItem].
    split.
    + destruct (String.eqb _ _); reflexivity.
    + intros Hne. apply String.eqb_neq in Hne. rewrite Hne. reflexivity.
  - left. split; reflexivity.
Qed.

End GalleryFacts.

Lemma broken_user_manifest_is_skipped_witness :
  userTemplates ([manifestGist "broken" "[[["; manifestGist "null" "null"]
                 ++ [manifestGist "Angular" templateManifest])
  = Return [mkTemplate "Angular" "a template" "Angular"]
  /\ (exists choice,
         @newPlaygroundInternal
           exampleHost []
           [manifestGist "broken" "[[["; manifestGist "null" "null"]
           [manifestGist "Angular" templateManifest]
         = Return choice)
  /\ (forall g file text,
         lookup PLAYGROUND_FILE (files g) = Some file ->
         content file = Some text ->
         text = EmptyString
         \/ (exists e, parse text = Throw e)
         \/ parse text = Return Null ->
         markedAsTemplate g = false
         /\ userTemplate g = Return None).
Proof.
  assert (Hmodel : forall g,
             In g ([manifestGist "broken" "[[["; manifestGist "null" "null"]
                   ++ [manifestGist "Angular" templateManifest]) ->
             manifestInModel g).
  { intros g [<-|[<-|[<-|[]]]] file text [= <-] [= <-];
      vm_compute; discriminate. }
  exact (@broken_user_manifest_is_skipped
           exampleHost []
           [manifestGist "broken" "[[["; manifestGist "null" "null"]
           [manifestGist "Angular" templateManifest] Hmodel).
Defined.

Lemma gallery_loading_skips_failures_witness :
  Permutation (@loadGalleryTemplates exampleHost exampleFetch exampleGalleries)
              (fetchedTemplates exampleFetch exampleGalleries)
  /\ Sorted (@labelLe exampleHost)
            (@loadGalleryTemplates exampleHost exampleFetch exampleGalleries)
  /\ (forall before gallery after,
         exampleGalleries = before ++ gallery :: after ->
         exampleFetch (galleryUrl gallery) = None ->
         @loadGalleryTemplates exampleHost exampleFetch exampleGalleries
         = @loadGalleryTemplates exampleHost exampleFetch (before ++ after)).
Proof.
  exact (@gallery_loading_skips_failures exampleHost exampleFetch
           exampleGalleries compareBytes_total).
Defined.

Lemma quick_pick_keeps_gallery_order_witness :
  @newPlaygroundInternal
    exampleHost
    (@loadGalleryTemplates exampleHost exampleFetch exampleGalleries)
    [manifestGist "a" "{}"] [manifestGist "b" "{"]
  = Return (QuickPick
              (map templateItem
                   (@loadGalleryTemplates exampleHost exampleFetch
                                          exampleGalleries)
               ++ [NO_TEMPLATE_GIST_ITEM])).
Proof.
  assert (Hfound : userTemplates ([manifestGist "a" "{}"]
                                  ++ [manifestGist "b" "{"]) = Return [])
    by (vm_compute; reflexivity).
  assert (Hloaded : @loadGalleryTemplates exampleHost exampleFetch
                                          exampleGalleries <> [])
    by (vm_compute; discriminate).
  exact (@quick_pick_keeps_gallery_order exampleHost exampleFetch
           exampleGalleries _ _ compareBytes_total Hfound Hloaded).
Defined.

Lemma accept_always_duplicates_witness :
  (NO_TEMPLATE_GIST_ITEM = NO_TEMPLATE_GIST_ITEM
   /\ onDidAccept true false NO_TEMPLATE_GIST_ITEM
      = [newWithoutTemplate true false;
         duplicatePlayground None true
                             (item_label NO_TEMPLATE_GIST_ITEM)])
  \/ (exists t, NO_TEMPLATE_GIST_ITEM = templateItem t
      /\ last (onDidAccept true false NO_TEMPLATE_GIST_ITEM)
              (newWithoutTemplate true false)
         = duplicatePlayground (Some (gist t)) true (label t)
      /\ (label t <> item_label NO_TEMPLATE_GIST_ITEM ->
          onDidAccept true false NO_TEMPLATE_GIST_ITEM
          = [duplicatePlayground (Some (gist t)) true (label t)])).
Proof.
  assert (Hpick : @newPlaygroundInternal
                    exampleHost [mkTemplate "React" "React starter" "1"]
                    [] []
                  = Return (QuickPick
                              [templateItem
                                 (mkTemplate "React" "React starter" "1");
                               NO_TEMPLATE_GIST_ITEM]))
    by (vm_compute; reflexivity).
  assert (Hin : In NO_TEMPLATE_GIST_ITEM
                   [templateItem (mkTemplate "React" "React starter" "1");
                    NO_TEMPLATE_GIST_ITEM])
    by (right; left; reflexivity).
  exact (@accept_always_duplicates exampleHost _ _ _ _ true false _
           Hpick Hin).
Defined.
